(** * The monthly expense ledger script (google-apps-script.js)

    A shallow embedding of the script and of the two services it runs on:
    the JavaScript built-ins it calls (numbers, strings, dates) and the
    spreadsheet it reads and writes.

    - [JS]     numbers are IEEE binary64 values (the Standard Library's
               [spec_float] at precision 53, rounding to nearest even),
               strings are sequences of one-byte code units, dates are
               time values in milliseconds.  What the engine leaves to the
               implementation (reading a free-form date, the time zone,
               the clock, printing a number that is no short integer) is a
               parameter, [Engine].
    - [Sheets] a spreadsheet is a list of named sheets, a sheet a grid of
               rows of cells, a cell a literal or one of the four formulas
               the script writes.  A cell keeps the value written into it;
               formatting is not part of the state.  A text that begins
               with [=] is a formula of the user's to the service, which
               shows its result; the model does not evaluate such texts
               and reads them back as they were entered.
    - [App]    the functions of the script under their names, in a monad
               of state (the spreadsheet) and exceptions.
    - [Ledger] the notions the properties are stated with, and sample
               data.
    - [Book]   more of these notions: the parts of a request, rows of
               transactions, the two reserved rows, the summary block,
               timestamps and the calendar.

    The properties follow the definitions. *)

From Stdlib Require Import ZArith Lia Bool List Sorted Ascii String SpecFloat DecimalString.
From stdpp Require Import base list strings.

Local Open Scope string_scope.
Local Open Scope list_scope.
Local Open Scope Z_scope.

(* ===================================================================== *)
(** * JavaScript built-ins                                                *)
(* ===================================================================== *)

Module JS.

(** ** Numbers *)

Definition number : Type := spec_float.

Definition prec : Z := 53.
Definition emax : Z := 1024.

Definition ofZ (z : Z) : number := binary_normalize prec emax z 0 false.

Definition NaN : number := S754_nan.
Definition zero : number := S754_zero false.

Definition add : number -> number -> number := SFadd prec emax.
Definition sub : number -> number -> number := SFsub prec emax.
Definition mul : number -> number -> number := SFmul prec emax.
Definition div : number -> number -> number := SFdiv prec emax.

(** A sign and a mantissa as an integer. *)
Definition intOf (s : bool) (m : positive) : Z := if s then Z.neg m else Z.pos m.

(** The order of two numbers, none when one is NaN.  Two finite numbers
    are compared as the values they denote, brought to their smaller
    exponent; zeros and infinities as [SFcompare] has them. *)
Definition compare (x y : number) : option comparison :=
  match x, y with
  | S754_finite s1 m1 e1, S754_finite s2 m2 e2 =>
      let e := Z.min e1 e2 in
      Some (Z.compare (intOf s1 m1 * 2 ^ (e1 - e)) (intOf s2 m2 * 2 ^ (e2 - e)))
  | _, _ => SFcompare x y
  end.

(** [x < y], [x <= y] and [x === y] on numbers; all false on NaN. *)
Definition lt (x y : number) : bool :=
  match compare x y with Some Lt => true | _ => false end.
Definition le (x y : number) : bool :=
  match compare x y with Some (Lt | Eq) => true | _ => false end.
Definition eqNum (x y : number) : bool :=
  match compare x y with Some Eq => true | _ => false end.

Definition isNaN (x : number) : bool :=
  match x with S754_nan => true | _ => false end.

(** [!x] on a number: zero of either sign and NaN are falsy. *)
Definition falsyNum (x : number) : bool :=
  match x with S754_zero _ | S754_nan => true | _ => false end.

Definition Math_abs (x : number) : number := SFabs x.

(** [Math.round]: the nearest integer, ties towards plus infinity; a result
    of zero keeps the sign of the argument. *)
Definition Math_round (x : number) : number :=
  match x with
  | S754_finite s m e =>
      if 0 <=? e then x
      else
        let r := (2 * intOf s m + 2 ^ (- e)) / 2 ^ (1 - e) in
        if r =? 0 then S754_zero s else ofZ r
  | _ => x
  end.

(** The mathematical integer a number denotes, when it denotes one. *)
Definition toInteger (x : number) : option Z :=
  match x with
  | S754_zero _ => Some 0
  | S754_finite s m e =>
      if 0 <=? e then Some (intOf s m * 2 ^ e)
      else if (Z.pos m) mod 2 ^ (- e) =? 0 then Some (intOf s m / 2 ^ (- e))
      else None
  | _ => None
  end.

(** ** Characters and strings *)

Definition code (c : ascii) : Z := Z.of_nat (nat_of_ascii c).

Definition isDigit (c : ascii) : bool := (48 <=? code c) && (code c <=? 57).

(** White space and line terminators ([\s], StrWhiteSpaceChar) among the
    one-byte code units. *)
Definition isSpace (c : ascii) : bool :=
  let n := code c in
  ((9 <=? n) && (n <=? 13)) || (n =? 32) || (n =? 160).

Fixpoint trimStart (s : string) : string :=
  match s with
  | String c s' => if isSpace c then trimStart s' else s
  | EmptyString => s
  end.

(** The value of [c] as a digit of the given radix. *)
Definition digitVal (radix : Z) (c : ascii) : option Z :=
  let n := code c in
  let d := if (48 <=? n) && (n <=? 57) then n - 48
           else if (97 <=? n) && (n <=? 122) then n - 87
           else if (65 <=? n) && (n <=? 90) then n - 55
           else radix in
  if d <? radix then Some d else None.

(** The longest run of digits at the head of [s], as an integer; [acc] is
    [None] until a digit has been read. *)
Fixpoint digitsVal (radix : Z) (s : string) (acc : option Z) : option Z :=
  match s with
  | String c s' =>
      match digitVal radix c with
      | Some d => digitsVal radix s' (Some (default 0 acc * radix + d))
      | None => acc
      end
  | EmptyString => acc
  end.

Definition stripSign (s : string) : bool * string :=
  match s with
  | String "-" r => (true, r)
  | String "+" r => (false, r)
  | _ => (false, s)
  end.

(** [parseInt(s)] with no radix argument. *)
Definition parseInt (s : string) : number :=
  let '(neg, s2) := stripSign (trimStart s) in
  let '(radix, s3) :=
    match s2 with
    | String "0" (String "x" r) => (16, r)
    | String "0" (String "X" r) => (16, r)
    | _ => (10, s2)
    end in
  match digitsVal radix s3 None with
  | None => NaN
  | Some 0 => S754_zero neg
  | Some z => ofZ (if neg then - z else z)
  end.

(** [s.includes(c)] for a one-character needle. *)
Fixpoint includesChar (c : ascii) (s : string) : bool :=
  match s with
  | String d s' => if Ascii.eqb c d then true else includesChar c s'
  | EmptyString => false
  end.

(** [s.replace(c, '')] for a one-character pattern: the first occurrence
    only. *)
Fixpoint removeFirst (c : ascii) (s : string) : string :=
  match s with
  | String d s' => if Ascii.eqb c d then s' else String d (removeFirst c s')
  | EmptyString => s
  end.

Definition stringRev (s : string) : string :=
  string_of_list_ascii (rev (list_ascii_of_string s)).

Definition trim (s : string) : string :=
  stringRev (trimStart (stringRev (trimStart s))).

Fixpoint startsWith (p s : string) : option string :=
  match p, s with
  | EmptyString, _ => Some s
  | String a p', String b s' => if Ascii.eqb a b then startsWith p' s' else None
  | String _ _, EmptyString => None
  end.

(** ** Decimal literals: [parseFloat] and [Number(string)] *)

(** The decimal digits at the head of [s]: their value on top of [acc], how
    many were read, and the rest of the string. *)
Fixpoint readDigits (s : string) (acc n : Z) : Z * Z * string :=
  match s with
  | String c s' =>
      if isDigit c then readDigits s' (acc * 10 + (code c - 48)) (n + 1)
      else (acc, n, s)
  | EmptyString => (acc, n, s)
  end.

(** The number nearest to [m * 10 ^ k] for [0 <= m], ties to even.  Beyond
    [10 ^ 400] every positive value rounds to infinity and below
    [2 ^ -1100] to zero; in between the quotient is rounded from its
    integer part and the position of its remainder. *)
Definition ofDecimal (neg : bool) (m k : Z) : number :=
  if m =? 0 then S754_zero neg
  else if 0 <=? k then
    if 400 <? k then S754_infinity neg
    else binary_normalize prec emax (if neg then - (m * 10 ^ k) else m * 10 ^ k) 0 false
  else if Z.log2 m + 1 + 3 * k <? -1100 then S754_zero neg
  else
    let '(q, e, l) := SFdiv_core_binary prec emax m 0 (10 ^ (- k)) 0 in
    binary_round_aux prec emax neg q e l.

Definition readExponent (s : string) : Z * string :=
  match s with
  | String c r =>
      if Ascii.eqb c "e" || Ascii.eqb c "E" then
        let '(eneg, r1) := stripSign r in
        let '(ev, ne, r2) := readDigits r1 0 0 in
        if ne =? 0 then (0, s) else (if eneg then - ev else ev, r2)
      else (0, s)
  | EmptyString => (0, s)
  end.

(** The longest StrDecimalLiteral at the head of [s], with what follows. *)
Definition readDecimal (s : string) : option (number * string) :=
  let '(neg, s1) := stripSign s in
  match startsWith "Infinity" s1 with
  | Some r => Some (S754_infinity neg, r)
  | None =>
      let '(ip, ni, s2) := readDigits s1 0 0 in
      let '(fp, nf, s3) :=
        match s2 with
        | String "." r => readDigits r ip 0
        | _ => (ip, 0, s2)
        end in
      if (ni =? 0) && (nf =? 0) then None
      else
        let '(ex, s4) := readExponent s3 in
        Some (ofDecimal neg fp (ex - nf), s4)
  end.

Definition parseFloat (s : string) : number :=
  match readDecimal (trimStart s) with
  | Some (x, _) => x
  | None => NaN
  end.

(** A whole string of digits of the given radix, at least one. *)
Fixpoint allDigits (radix : Z) (s : string) (acc : option Z) : option Z :=
  match s with
  | String c s' =>
      match digitVal radix c with
      | Some d => allDigits radix s' (Some (default 0 acc * radix + d))
      | None => None
      end
  | EmptyString => acc
  end.

(** [Number(s)]: the whole trimmed string has to be a numeric literal. *)
Definition StringToNumber (s : string) : number :=
  let t := trim s in
  let radixLit (radix : Z) (r : string) : number :=
    match allDigits radix r None with Some z => ofZ z | None => NaN end in
  match t with
  | EmptyString => zero
  | String "0" (String "x" r) | String "0" (String "X" r) => radixLit 16 r
  | String "0" (String "o" r) | String "0" (String "O" r) => radixLit 8 r
  | String "0" (String "b" r) | String "0" (String "B" r) => radixLit 2 r
  | _ =>
      match readDecimal t with
      | Some (x, EmptyString) => x
      | _ => NaN
      end
  end.

Definition ZToString (z : Z) : string := NilZero.string_of_int (Z.to_int z).

(** ** The timestamp pattern

    [/(\d{2})\/(\d{2})\/(\d{4})\s+(\d{2}):(\d{2}):(\d{2})/]: unanchored, so
    the leftmost place of the string where it fits is the match. *)

Record TsParts : Type := {
  tsDay : string; tsMonth : string; tsYear : string;
  tsHour : string; tsMinute : string; tsSecond : string
}.

Fixpoint takeDigits (n : nat) (s : string) : option (string * string) :=
  match n with
  | O => Some (EmptyString, s)
  | S n' =>
      match s with
      | String c s' =>
          if isDigit c then
            '(d, r) ← takeDigits n' s'; Some (String c d, r)
          else None
      | EmptyString => None
      end
  end.

Definition expect (c : ascii) (s : string) : option string :=
  match s with
  | String d s' => if Ascii.eqb c d then Some s' else None
  | EmptyString => None
  end.

(** [\s+]: one white space or more, as many as there are. *)
Definition spaces1 (s : string) : option string :=
  match s with
  | String c s' => if isSpace c then Some (trimStart s') else None
  | EmptyString => None
  end.

Definition tsMatchAt (s : string) : option TsParts :=
  '(dd, s) ← takeDigits 2 s;
  s ← expect "/" s;
  '(mm, s) ← takeDigits 2 s;
  s ← expect "/" s;
  '(yyyy, s) ← takeDigits 4 s;
  s ← spaces1 s;
  '(hh, s) ← takeDigits 2 s;
  s ← expect ":" s;
  '(mi, s) ← takeDigits 2 s;
  s ← expect ":" s;
  '(ss, _) ← takeDigits 2 s;
  Some {| tsDay := dd; tsMonth := mm; tsYear := yyyy;
          tsHour := hh; tsMinute := mi; tsSecond := ss |}.

(** [str.match(pattern)]: [None] is JavaScript's [null]. *)
Fixpoint tsMatch (s : string) : option TsParts :=
  match tsMatchAt s with
  | Some p => Some p
  | None =>
      match s with
      | String _ s' => tsMatch s'
      | EmptyString => None
      end
  end.

(** ** Dates

    A Date object holds a time value: milliseconds since the epoch, or NaN
    for an invalid date ([None] here). *)

Definition Date : Type := option Z.

Definition msPerDay : Z := 86400000.

(** Days since the epoch of a civil date, and back (the proleptic Gregorian
    calendar; months are 1..12 here). *)
Definition daysFromCivil (y m d : Z) : Z :=
  let y' := if m <=? 2 then y - 1 else y in
  let era := y' / 400 in
  let yoe := y' - era * 400 in
  let mp := if 2 <? m then m - 3 else m + 9 in
  let doy := (153 * mp + 2) / 5 + d - 1 in
  let doe := yoe * 365 + yoe / 4 - yoe / 100 + doy in
  era * 146097 + doe - 719468.

Definition civilFromDays (days : Z) : Z * Z * Z :=
  let z := days + 719468 in
  let era := z / 146097 in
  let doe := z - era * 146097 in
  let yoe := (doe - doe / 1460 + doe / 36524 - doe / 146096) / 365 in
  let doy := doe - (365 * yoe + yoe / 4 - yoe / 100) in
  let mp := (5 * doy + 2) / 153 in
  let d := doy - (153 * mp + 2) / 5 + 1 in
  let m := if mp <? 10 then mp + 3 else mp - 9 in
  let y := yoe + era * 400 + (if m <=? 2 then 1 else 0) in
  (y, m, d).

Definition MakeTime (hour min sec ms : Z) : Z :=
  hour * 3600000 + min * 60000 + sec * 1000 + ms.

Definition MakeDay (year month date : Z) : Z :=
  let ym := year + month / 12 in
  let mn := month mod 12 in
  daysFromCivil ym (mn + 1) 1 + date - 1.

Definition MakeDate (day time : Z) : Z := day * msPerDay + time.

Definition TimeClip (t : Z) : Date :=
  if Z.abs t <=? 8640000000000000 then Some t else None.

Definition YearFromTime (t : Z) : Z := fst (fst (civilFromDays (t / msPerDay))).
(** 0 is January. *)
Definition MonthFromTime (t : Z) : Z := snd (fst (civilFromDays (t / msPerDay))) - 1.

(** What the engine decides and the script cannot: how a free-form string
    reads as a date, the script's time zone, the clock, and the text of a
    number that is not a short integer or of a date. *)
Record Engine : Type := {
  Date_parse : string -> Date;
  LocalTime : Z -> Z;
  UTC : Z -> Z;
  now : Z;
  Number_repr : number -> string;
  Date_repr : Z -> string
}.

(** [new Date(year, month, day, hours, minutes, seconds)] in local time;
    a year of one or two digits counts from 1900.  The script passes
    integers only (results of [parseInt] and constants); NaN or an
    infinity makes the date invalid. *)
Definition newDate (E : Engine) (year month day hours minutes seconds : number) : Date :=
  y ← toInteger year;
  mo ← toInteger month;
  d ← toInteger day;
  h ← toInteger hours;
  mi ← toInteger minutes;
  s ← toInteger seconds;
  let yr := if (0 <=? y) && (y <=? 99) then 1900 + y else y in
  TimeClip (UTC E (MakeDate (MakeDay yr mo d) (MakeTime h mi s 0))).

Definition getFullYear (E : Engine) (t : Z) : Z := YearFromTime (LocalTime E t).
Definition getMonth (E : Engine) (t : Z) : Z := MonthFromTime (LocalTime E t).

Fixpoint zeros (n : nat) : string :=
  match n with O => EmptyString | S n' => String "0" (zeros n') end.

(** A natural number in at least [w] digits. *)
Definition pad (w : nat) (z : Z) : string :=
  let s := ZToString z in
  zeros (w - String.length s) +:+ s.

(** [toISOString] of a valid time value: [YYYY-MM-DDTHH:mm:ss.sssZ] in UTC,
    the year in six signed digits outside 0..9999. *)
Definition toISOString (t : Z) : string :=
  let '(y, m, d) := civilFromDays (t / msPerDay) in
  let ms := t mod msPerDay in
  let year := if (0 <=? y) && (y <=? 9999) then pad 4 y
              else (if y <? 0 then "-" else "+") +:+ pad 6 (Z.abs y) in
  year +:+ "-" +:+ pad 2 m +:+ "-" +:+ pad 2 d +:+ "T"
    +:+ pad 2 (ms / 3600000) +:+ ":" +:+ pad 2 (ms / 60000 mod 60) +:+ ":"
    +:+ pad 2 (ms / 1000 mod 60) +:+ "." +:+ pad 3 (ms mod 1000) +:+ "Z".

(** [String(x)] for a number: short integers in decimal, the rest as the
    engine prints them. *)
Definition NumberToString (E : Engine) (x : number) : string :=
  match x with
  | S754_nan => "NaN"
  | S754_infinity s => if s then "-Infinity" else "Infinity"
  | S754_zero _ => "0"
  | S754_finite _ _ _ =>
      match toInteger x with
      | Some z => if Z.abs z <? 10 ^ 21 then ZToString z else Number_repr E x
      | None => Number_repr E x
      end
  end.

(** ** Values

    What a cell, a request field or a local variable of the script holds.
    A [VDate] is a Date object with a valid time value. *)

Inductive value : Type :=
| VUndefined
| VNull
| VBool (b : bool)
| VNum (x : number)
| VStr (s : string)
| VDate (t : Z).

Definition truthy (v : value) : bool :=
  match v with
  | VUndefined | VNull => false
  | VBool b => b
  | VNum x => negb (falsyNum x)
  | VStr s => negb (String.eqb s "")
  | VDate _ => true
  end.

(** [v || d] *)
Definition orElse (v d : value) : value := if truthy v then v else d.

(** [x || 0] on a number *)
Definition numOrZero (x : number) : number := if falsyNum x then zero else x.

(** [Number(v)] *)
Definition ToNumber (v : value) : number :=
  match v with
  | VUndefined => NaN
  | VNull => zero
  | VBool b => if b then ofZ 1 else zero
  | VNum x => x
  | VStr s => StringToNumber s
  | VDate t => ofZ t
  end.

(** [String(v)] *)
Definition ToString (E : Engine) (v : value) : string :=
  match v with
  | VUndefined => "undefined"
  | VNull => "null"
  | VBool b => if b then "true" else "false"
  | VNum x => NumberToString E x
  | VStr s => s
  | VDate t => Date_repr E t
  end.

(** ** Exceptions *)

Inductive exn : Type :=
| Error (msg : string)        (* [throw new Error(msg)] *)
| TypeError (msg : string)    (* a property of null or undefined, a call of what is no function *)
| RangeError (msg : string)   (* [toISOString] of an invalid date *)
| SyntaxError (msg : string)  (* [JSON.parse] *)
| Exception (msg : string).   (* thrown by the spreadsheet service *)

Definition exnToString (e : exn) : string :=
  match e with
  | Error m => "Error: " +:+ m
  | TypeError m => "TypeError: " +:+ m
  | RangeError m => "RangeError: " +:+ m
  | SyntaxError m => "SyntaxError: " +:+ m
  | Exception m => "Exception: " +:+ m
  end.

Inductive result (A : Type) : Type :=
| Ok (a : A)
| Throw (e : exn).
Arguments Ok {A} a.
Arguments Throw {A} e.

End JS.

(* ===================================================================== *)
(** * The spreadsheet service                                             *)
(* ===================================================================== *)

Module Sheets.
Import JS.
Local Open Scope nat_scope.

(** ** Cells

    The four formulas are the ones [createMonthSheet] writes; rows and
    columns count from 1 as in the service, column A being 1.  A cell keeps
    what is written into it, and an empty cell reads as the empty string.
    [Lit v] is a cell the value [v] was entered into.  To the service an
    entered text that begins with [=] is a formula, and reading the cell
    gives its result; such formulas of the user's are not evaluated here,
    where [valueAt] gives the text as it was entered. *)

Inductive formula : Type :=
| FSum (col : nat)      (* [=SUM(X3:X)] for the column X *)
| FSumIf (row : nat)    (* [=SUMIF($E$3:$E,H<row>,$C$3:$C)] *)
| FShare (row : nat)    (* [=IF($C$2=0,0,I<row>/$C$2)] *)
| FRemaining.           (* [=1-C2/I12] *)

Inductive content : Type :=
| Lit (v : value)
| Formula (f : formula).

Definition blank : content := Lit (VStr "").

Definition isBlank (c : content) : bool :=
  match c with
  | Lit (VStr EmptyString) => true
  | _ => false
  end.

Abbreviation Grid := (list (list content)).

Definition column (c : ascii) : nat := nat_of_ascii c - 64.

Definition cellOf (row : list content) (c : nat) : content :=
  default blank (row !! pred c).

Definition cellAt (g : Grid) (r c : nat) : content :=
  cellOf (default [] (g !! pred r)) c.

(** ** Writing *)

(** The cells [c], [c+1], ... of a row overwritten by [xs]. *)
Definition writeCells (c : nat) (xs : list content) (row : list content) : list content :=
  let row' := row ++ replicate (pred c + length xs - length row) blank in
  take (pred c) row' ++ xs ++ drop (pred c + length xs) row'.

(** The same in row [r] of a grid, which grows to hold that row. *)
Definition writeRow (g : Grid) (r c : nat) (xs : list content) : Grid :=
  alter (writeCells c xs) (pred r) (g ++ replicate (r - length g) []).

Fixpoint writeRows (g : Grid) (r c : nat) (xss : list (list content)) : Grid :=
  match xss with
  | [] => g
  | xs :: rest => writeRows (writeRow g r c xs) (S r) c rest
  end.

(** ** The last row with content *)

Definition rowBlank (row : list content) : bool := forallb isBlank row.

(** [getLastRow()]: the position of the last row with a cell that is not
    blank, 0 on an empty sheet. *)
Fixpoint lastRow (g : Grid) : nat :=
  match g with
  | [] => 0
  | row :: g' =>
      match lastRow g' with
      | 0 => if rowBlank row then 0 else 1
      | S n => S (S n)
      end
  end.

(** ** Formula values

    [SUM] adds the numbers of a column from row 3 down and passes over
    everything else; [SUMIF] adds the C cells of the rows whose E cell is
    the criterion text, letter case apart.  The operands of the two
    arithmetic formulas are literals or one of the two sums. *)

Definition numIn (c : content) : option number :=
  match c with
  | Lit (VNum x) => Some x
  | _ => None
  end.

Definition dataRows (g : Grid) : list (list content) := drop 2 g.

Definition total (xs : list number) : number := foldl add zero xs.

Definition SUM (g : Grid) (c : nat) : value :=
  VNum (total (omap (fun row => numIn (cellOf row c)) (dataRows g))).

Definition lowerChar (c : ascii) : ascii :=
  let n := nat_of_ascii c in
  if (65 <=? n) && (n <=? 90) then ascii_of_nat (n + 32) else c.

Fixpoint lower (s : string) : string :=
  match s with
  | String c s' => String (lowerChar c) (lower s')
  | EmptyString => s
  end.

Definition meets (criterion : string) (c : content) : bool :=
  match c with
  | Lit (VStr s) => negb (String.eqb criterion "") && String.eqb (lower s) (lower criterion)
  | _ => false
  end.

Definition SUMIF (g : Grid) (criterionRow : nat) : value :=
  match cellAt g criterionRow (column "H") with
  | Lit (VStr crit) =>
      VNum (total (omap (fun row => if meets crit (cellOf row (column "E"))
                                    then numIn (cellOf row (column "C")) else None)
                        (dataRows g)))
  | _ => VNum zero
  end.

(** The value of a cell as an operand of [FShare] and [FRemaining]. *)
Definition operand (g : Grid) (r c : nat) : value :=
  match cellAt g r c with
  | Lit v => v
  | Formula (FSum c') => SUM g c'
  | Formula (FSumIf r') => SUMIF g r'
  | Formula _ => VStr "#REF!"
  end.

(** A blank operand counts as 0; text, booleans and dates give no number. *)
Definition operandNum (v : value) : option number :=
  match v with
  | VNum x => Some x
  | VStr EmptyString => Some zero
  | _ => None
  end.

Definition evalFormula (g : Grid) (f : formula) : value :=
  match f with
  | FSum c => SUM g c
  | FSumIf r => SUMIF g r
  | FShare r =>
      match operandNum (operand g 2 (column "C")), operandNum (operand g r (column "I")) with
      | Some c2, Some i => if eqNum c2 zero then VNum zero else VNum (div i c2)
      | _, _ => VStr "#VALUE!"
      end
  | FRemaining =>
      match operandNum (operand g 2 (column "C")), operandNum (operand g 12 (column "I")) with
      | Some c2, Some i12 =>
          if eqNum i12 zero then VStr "#DIV/0!" else VNum (sub (ofZ 1) (div c2 i12))
      | _, _ => VStr "#VALUE!"
      end
  end.

(** [getValue()] of one cell: an error shows as its text. *)
Definition valueAt (g : Grid) (r c : nat) : value :=
  match cellAt g r c with
  | Lit v => v
  | Formula f => evalFormula g f
  end.

(** ** Ranges *)

Record Range : Type := {
  rRow : nat; rCol : nat; numRows : nat; numCols : nat
}.

(** [getRange('B2')] is [A1 "B" 2], [getRange('H3:H11')] is
    [A1s "H" 3 "H" 11]. *)
Definition A1 (c : ascii) (r : nat) : Range :=
  {| rRow := r; rCol := column c; numRows := 1; numCols := 1 |}.

Definition A1s (c1 : ascii) (r1 : nat) (c2 : ascii) (r2 : nat) : Range :=
  {| rRow := r1; rCol := column c1;
     numRows := r2 - r1 + 1; numCols := column c2 - column c1 + 1 |}.

Definition valuesIn (g : Grid) (rg : Range) : list (list value) :=
  map (fun i => map (fun j => valueAt g (rRow rg + i) (rCol rg + j)) (seq 0 (numCols rg)))
      (seq 0 (numRows rg)).

(** ** Sheets and the spreadsheet *)

Record Sheet : Type := {
  sheetName : string;
  cells : Grid
}.

Abbreviation Spreadsheet := (list Sheet).

(** An inserted sheet comes with this many empty rows. *)
Definition newSheetRows : nat := 1000.

Definition emptySheet (n : string) : Sheet :=
  {| sheetName := n; cells := replicate newSheetRows [] |}.

(** A sheet variable of the script: [None] is [null], [Some h] the sheet at
    position [h] of the list.  The script calls nothing that removes or
    moves a sheet and in the list a new one goes last, so a position keeps
    naming its sheet. *)
Abbreviation SheetRef := (option nat).

Definition findSheet (ss : Spreadsheet) (n : string) : SheetRef :=
  fst <$> list_find (fun sh => sheetName sh = n) ss.

(** ** The script's monad: the spreadsheet as state, exceptions *)

Definition M (A : Type) : Type := Spreadsheet -> result A * Spreadsheet.

Definition ret {A} (a : A) : M A := fun ss => (Ok a, ss).

Definition throw {A} (e : exn) : M A := fun ss => (Throw e, ss).

Definition bind {A B} (m : M A) (k : A -> M B) : M B :=
  fun ss =>
    match m ss with
    | (Ok a, ss') => k a ss'
    | (Throw e, ss') => (Throw e, ss')
    end.

(** [try { body } catch (er) { handler er }]: what the body wrote before it
    threw stays written. *)
Definition tryCatch {A} (body : M A) (handler : exn -> M A) : M A :=
  fun ss =>
    match body ss with
    | (Ok a, ss') => (Ok a, ss')
    | (Throw e, ss') => handler e ss'
    end.

Definition lift {A} (r : result A) : M A := fun ss => (r, ss).

Definition nullDeref {A} (method : string) : M A :=
  throw (TypeError ("Cannot read properties of null (reading '" +:+ method +:+ "')")).

(** A method that reads the sheet behind a reference. *)
Definition reading {A} (method : string) (sheet : SheetRef) (f : Sheet -> A) : M A :=
  match sheet with
  | None => nullDeref method
  | Some h =>
      fun ss =>
        match ss !! h with
        | Some sh => (Ok (f sh), ss)
        | None => (Throw (Exception "Sheet not found"), ss)
        end
  end.

(** A method that changes its grid, or throws and changes nothing. *)
Definition writing (method : string) (sheet : SheetRef) (f : Grid -> result Grid) : M unit :=
  match sheet with
  | None => nullDeref method
  | Some h =>
      fun ss =>
        match ss !! h with
        | Some sh =>
            match f (cells sh) with
            | Ok g => (Ok tt, <[h := {| sheetName := sheetName sh; cells := g |}]> ss)
            | Throw e => (Throw e, ss)
            end
        | None => (Throw (Exception "Sheet not found"), ss)
        end
  end.

(** ** The methods the script calls *)

Definition getSheetByName (n : string) : M SheetRef :=
  fun ss => (Ok (findSheet ss n), ss).

(** [ss.insertSheet(name)]: a name in use is refused.  Where among the
    sheets the service puts the new one is not specified; the script finds
    its sheets by name only, so the place is nothing it can observe, and
    the list here takes the new sheet at its end. *)
Definition insertSheet (n : string) : M SheetRef :=
  fun ss =>
    match findSheet ss n with
    | Some _ => (Throw (Exception ("A sheet with this name already exists: " +:+ n)), ss)
    | None => (Ok (Some (length ss)), ss ++ [emptySheet n])
    end.

Definition getName (sheet : SheetRef) : M string :=
  reading "getName" sheet sheetName.

Definition getValue (sheet : SheetRef) (rg : Range) : M value :=
  reading "getRange" sheet (fun sh => valueAt (cells sh) (rRow rg) (rCol rg)).

Definition getValues (sheet : SheetRef) (rg : Range) : M (list (list value)) :=
  reading "getRange" sheet (fun sh => valuesIn (cells sh) rg).

(** [range.setValues(values)]: the rectangle of values must match the
    dimensions of the range; any other size is refused with an exception
    and nothing is written.  The values are entered as they are, a text
    that begins with [=] too (see [content]); [setValue] and [appendRow]
    do the same. *)
Definition setContents (sheet : SheetRef) (rg : Range) (xss : list (list content)) : M unit :=
  writing "getRange" sheet (fun g =>
    if negb (length xss =? numRows rg) then
      Throw (Exception ("The number of rows in the data does not match the number of rows in the range. The data has "
                        +:+ ZToString (Z.of_nat (length xss)) +:+ " but the range has "
                        +:+ ZToString (Z.of_nat (numRows rg)) +:+ "."))
    else
      match list_find (fun xs => length xs <> numCols rg) xss with
      | Some (_, xs) =>
          Throw (Exception ("The number of columns in the data does not match the number of columns in the range. The data has "
                            +:+ ZToString (Z.of_nat (length xs)) +:+ " but the range has "
                            +:+ ZToString (Z.of_nat (numCols rg)) +:+ "."))
      | None => Ok (writeRows g (rRow rg) (rCol rg) xss)
      end).

Definition setValues (sheet : SheetRef) (rg : Range) (vss : list (list value)) : M unit :=
  setContents sheet rg (map (map Lit) vss).

Definition setValue (sheet : SheetRef) (rg : Range) (v : value) : M unit :=
  writing "getRange" sheet (fun g =>
    Ok (writeRows g (rRow rg) (rCol rg) (replicate (numRows rg) (replicate (numCols rg) (Lit v))))).

Definition setFormula (sheet : SheetRef) (rg : Range) (f : formula) : M unit :=
  writing "getRange" sheet (fun g => Ok (writeRow g (rRow rg) (rCol rg) [Formula f])).

(** [appendRow(rowContents)]: the row goes below the current data region
    of the sheet, that is after the last row with content in any column. *)
Definition appendRow (sheet : SheetRef) (vs : list value) : M unit :=
  writing "appendRow" sheet (fun g => Ok (writeRow g (S (lastRow g)) 1 (map Lit vs))).

(** [deleteRow(position)]: the rows below move up; a position outside the
    grid is refused. *)
Definition deleteRowAt (g : Grid) (r : nat) : option Grid :=
  if (1 <=? r) && (r <=? length g) then Some (delete (pred r) g) else None.

Definition deleteRow (sheet : SheetRef) (position : number) : M unit :=
  writing "deleteRow" sheet (fun g =>
    match toInteger position with
    | Some z =>
        match deleteRowAt g (Z.to_nat z) with
        | Some g' => Ok g'
        | None => Throw (Exception "Those rows are out of bounds.")
        end
    | None => Throw (Exception "The parameters (number) don't match the method signature for deleteRow.")
    end).

(** Fonts, colours, number formats, frozen rows and column widths change no
    cell content. *)
Definition formatting : M unit := ret tt.

End Sheets.

(* ===================================================================== *)
(** * The script                                                          *)
(* ===================================================================== *)

Module App.
Import JS Sheets.

#[global] Instance result_ret : MRet result := @Ok.
#[global] Instance result_bind : MBind result :=
  fun A B k r => match r with Ok a => k a | Throw e => Throw e end.
#[global] Instance M_ret : MRet M := @ret.
#[global] Instance M_bind : MBind M := fun A B k m => bind m k.

(** ** Requests and responses *)

(** [e.parameter] of a GET request: every field is a string or missing. *)
Record Params : Type := {
  param_action : option string;
  param_year : option string;
  param_month : option string;
  param_row : option string;
  param_sheetName : option string;
  param_timestamp : option string;
  param_vnd : option string;
  param_eur : option string;
  param_usd : option string;
  param_category : option string;
  param_note : option string;
  param_budget : option string
}.

(** The fields of a POST body; a missing field is [VUndefined].  Field
    values are JSON scalars. *)
Record Entry : Type := {
  timestamp : value; vnd : value; eur : value; usd : value;
  category : value; note : value
}.

(** [e.postData.contents] as [JSON.parse] reads it: not JSON at all, the
    value [null], or an object.  (Any other value has no fields and goes
    the way of an object with none.) *)
Inductive Body : Type :=
| Malformed (msg : string)
| ParsedNull
| Parsed (data : Entry).

Record Transaction : Type := {
  txRow : nat;
  txSheetName : string;
  txTimestamp : string;
  txVnd : number;
  txEur : number;
  txUsd : number;
  txCategory : value;
  txNote : value
}.

Record AmountPercent : Type := { amount : number; percent : number }.

(** A JavaScript object used as a map from category to its figures: its
    own properties in the order [JSON.stringify] lists them, the keys that
    are array indices first and in rising order, then the other keys in the
    order they were added. *)
Abbreviation Stats := (list (string * AmountPercent)).

(** The object handed to [JSON.stringify], by shape. *)
Inductive Response : Type :=
| Message (status message : string)
| AllData (totalVND totalEUR totalUSD : value) (transactions : list Transaction)
          (stats : Stats) (budget : AmountPercent)
| Totals (totalVND totalEUR totalUSD : value)
| TransactionList (transactions : list Transaction)
| StatsData (stats : Stats) (budget : AmountPercent).

Definition status (r : Response) : string :=
  match r with
  | Message s _ => s
  | _ => "success"
  end.

(** [o || d] for a string parameter. *)
Definition orStr (o : option string) (d : string) : string :=
  match o with
  | Some s => if String.eqb s "" then d else s
  | None => d
  end.

(** A parameter as a value, and as coerced to a string. *)
Definition paramValue (o : option string) : value :=
  match o with Some s => VStr s | None => VUndefined end.

Definition paramStr (o : option string) : string :=
  match o with Some s => s | None => "undefined" end.

Definition given (o : option string) : bool := truthy (paramValue o).

Definition isNull (sheet : SheetRef) : bool :=
  match sheet with None => true | Some _ => false end.

(** [array[j][k]], [undefined] outside the array. *)
Definition at2 (vss : list (list value)) (j k : nat) : value :=
  nth k (nth j vss []) VUndefined.

(** The array index a property key writes, if it writes one: a decimal
    numeral without a leading zero, below [2^32 - 1]. *)
Definition arrayIndex (key : string) : option Z :=
  match allDigits 10 key None with
  | Some n => if String.eqb (ZToString n) key && (n <? 2 ^ 32 - 1) then Some n else None
  | None => None
  end.

Definition hasKey (key : string) (stats : Stats) : bool :=
  existsb (fun entry => String.eqb (fst entry) key) stats.

(** The value of a property the object has: the property keeps its place. *)
Fixpoint statsReplace (key : string) (v : AmountPercent) (stats : Stats) : Stats :=
  match stats with
  | [] => []
  | (k, w) :: rest =>
      if String.eqb k key then (k, v) :: rest else (k, w) :: statsReplace key v rest
  end.

(** A new property whose key is the array index [n]: it comes before the
    first key that is a greater index or no index. *)
Fixpoint statsInsert (n : Z) (key : string) (v : AmountPercent) (stats : Stats) : Stats :=
  match stats with
  | [] => [(key, v)]
  | (k, w) :: rest =>
      match arrayIndex k with
      | Some m => if m <? n then (k, w) :: statsInsert n key v rest else (key, v) :: stats
      | None => (key, v) :: stats
      end
  end.

(** [stats[key] = v] on an object made by [{}].  The key [__proto__] names
    the accessor of [Object.prototype]: the assignment gives the object [v]
    as its prototype and adds no property of its own, and [JSON.stringify]
    lists own properties only. *)
Definition statsSet (key : string) (v : AmountPercent) (stats : Stats) : Stats :=
  if String.eqb key "__proto__" then stats
  else if hasKey key stats then statsReplace key v stats
  else
    match arrayIndex key with
    | Some n => statsInsert n key v stats
    | None => stats ++ [(key, v)]
    end.

(** [for (var row = lo; row <= hi; row++) body] *)
Definition forRows (lo hi : nat) (body : nat -> M unit) : M unit :=
  foldr (fun row rest => body row;; rest) (mret tt) (seq lo (S hi - lo)).

Section Script.

Variable E : Engine.

Definition monthNames : list string :=
  ["January"; "February"; "March"; "April"; "May"; "June";
   "July"; "August"; "September"; "October"; "November"; "December"].

(** ** [parsePct] *)

Definition parsePct (p : value) : number :=
  match p with
  | VStr s =>
      if includesChar "%" s then parseInt (removeFirst "%" s) else zero
  | VNum x =>
      if lt (Math_abs x) (ofZ 10) && negb (eqNum x zero)
      then Math_round (mul x (ofZ 100))
      else Math_round x
  | _ => zero
  end.

(** ** [toISO]

    [d.toISOString()] throws on an invalid date. *)

(** [new Date(parseInt(parts[3]), parseInt(parts[2]) - 1, parseInt(parts[1]),
             parseInt(parts[4]), parseInt(parts[5]), parseInt(parts[6]))] *)
Definition dateOfParts (parts : TsParts) : Date :=
  newDate E (parseInt (tsYear parts)) (sub (parseInt (tsMonth parts)) (ofZ 1))
            (parseInt (tsDay parts)) (parseInt (tsHour parts))
            (parseInt (tsMinute parts)) (parseInt (tsSecond parts)).

Definition DateToISOString (d : Date) : result string :=
  match d with
  | Some t => Ok (toISOString t)
  | None => Throw (RangeError "Invalid time value")
  end.

Definition toISO (ts : value) : result string :=
  match ts with
  | VDate t => Ok (toISOString t)
  | _ =>
      let str := ToString E ts in
      match tsMatch str with
      | Some parts => DateToISOString (dateOfParts parts)
      | None =>
          match Date_parse E str with
          | None => Ok str
          | Some t => Ok (toISOString t)
          end
      end
  end.

(** ** Month sheets *)

Definition getMonthSheetName (date : Date) : result string :=
  match date with
  | None =>
      Throw (Error ("Invalid date parameter passed to getMonthSheetName: " +:+ "Invalid Date"))
  | Some t =>
      Ok (nth (Z.to_nat (getMonth E t)) monthNames "undefined" +:+ " "
          +:+ ZToString (getFullYear E t))
  end.

Definition categories : list (list value) :=
  [[VStr "Food"]; [VStr "Travel"]; [VStr "Shopping"]; [VStr "Bills"];
   [VStr "Fun"]; [VStr "Health"]; [VStr "Groceries"]; [VStr "Saving"]; [VStr "Other"]].

(** The blocks of [createMonthSheet], under the comments that head them in
    the script. *)

(** [// Set up headers (Row 1)], [// Format headers] *)
Definition setUpHeaders (sheet : SheetRef) : M unit :=
  setValues sheet (A1s "A" 1 "K" 1)
    [[VStr "Timestamp"; VStr "VND"; VStr "EUR"; VStr "USD"; VStr "Category"; VStr "Note";
      VStr ""; VStr "SUMMARY"; VStr ""; VStr ""]];;
  formatting.

(** [// Set up TOTALS row (Row 2)], [// Format totals row] *)
Definition setUpTotalsRow (sheet : SheetRef) : M unit :=
  setValue sheet (A1 "A" 2) (VStr "TOTALS");;
  setFormula sheet (A1 "B" 2) (FSum (column "B"));;
  setFormula sheet (A1 "C" 2) (FSum (column "C"));;
  setFormula sheet (A1 "D" 2) (FSum (column "D"));;
  formatting.

(** [// Set up Summary block headers (H2:J2)], [// Set up category labels
    (H3:H11)], [// Set up category sum formulas (I3:I11)], [// Set up
    category percentage formulas (J3:J11)] *)
Definition setUpSummaryBlock (sheet : SheetRef) : M unit :=
  setValues sheet (A1s "H" 2 "J" 2) [[VStr "Category"; VStr "EUR"; VStr "%"]];;
  formatting;;
  setValues sheet (A1s "H" 3 "H" 11) categories;;
  forRows 3 11 (fun row => setFormula sheet (A1 "I" row) (FSumIf row));;
  forRows 3 11 (fun row => setFormula sheet (A1 "J" row) (FShare row);; formatting).

(** [// Set up Budget row (H12:J12)] *)
Definition setUpBudgetRow (sheet : SheetRef) : M unit :=
  setValue sheet (A1 "H" 12) (VStr "Budget");;
  setValue sheet (A1 "I" 12) (VNum (ofZ 1600));;
  setFormula sheet (A1 "J" 12) FRemaining;;
  formatting.

Definition createMonthSheet (sheetName : string) : M SheetRef :=
  sheet ← insertSheet sheetName;
  setUpHeaders sheet;;
  setUpTotalsRow sheet;;
  setUpSummaryBlock sheet;;
  setUpBudgetRow sheet;;
  (* [// Freeze top 2 rows], [// Set column widths for better visibility] *)
  formatting;;
  mret sheet.

Definition getOrCreateMonthSheet (date : Date) : M SheetRef :=
  sheetName ← lift (getMonthSheetName date);
  sheet ← getSheetByName sheetName;
  if isNull sheet then createMonthSheet sheetName else mret sheet.

(** [monthNames[month - 1] + ' ' + year] *)
Definition getSheetNameFromParams (year month : number) : string :=
  let monthName :=
    match toInteger (sub month (ofZ 1)) with
    | Some i => if i <? 0 then "undefined" else nth (Z.to_nat i) monthNames "undefined"
    | None => "undefined"
    end in
  monthName +:+ " " +:+ NumberToString E year.

(** ** The date of a timestamp

    Written out three times in the script (in [doPost] and in the update
    and addEntry branches of [doGet]): [new Date(ts)], replaced by the date
    of the six fields when the pattern fits.  [ts.match] throws when [ts] is
    no string.  A parameter of a GET request is a string or missing, so a
    timestamp that is a number or a boolean comes from the body of a POST
    only, and the message names the expression of [doPost]. *)
Definition timestampDate (ts : value) : result Date :=
  match ts with
  | VStr s =>
      match tsMatch s with
      | Some parts => Ok (dateOfParts parts)
      | None => Ok (Date_parse E s)
      end
  | VUndefined =>
      Throw (TypeError "Cannot read properties of undefined (reading 'match')")
  | VNull =>
      Throw (TypeError "Cannot read properties of null (reading 'match')")
  | _ => Throw (TypeError "data.timestamp.match is not a function")
  end.

Definition ok (msg : string) : M Response := mret (Message "success" msg).
Definition err (msg : string) : M Response := mret (Message "error" msg).

(** ** [doPost] *)

Definition JSON_parse (body : Body) : result Entry :=
  match body with
  | Malformed msg => Throw (SyntaxError msg)
  | ParsedNull => Throw (TypeError "Cannot read properties of null (reading 'timestamp')")
  | Parsed data => Ok data
  end.

Definition doPost (body : Body) : M Response :=
  tryCatch
    (data ← lift (JSON_parse body);
     date ← lift (timestampDate (timestamp data));
     sheet ← getOrCreateMonthSheet date;
     appendRow sheet
       [timestamp data;
        orElse (vnd data) (VNum zero);
        orElse (eur data) (VNum zero);
        orElse (usd data) (VNum zero);
        orElse (category data) (VStr "");
        orElse (note data) (VStr "")];;
     name ← getName sheet;
     mret (Message "success" ("Added to " +:+ name)))
    (fun error => mret (Message "error" (exnToString error))).

(** ** Reading a month *)

(** [sheet.getDataRange().getValues()]: the rows down to the last one with
    content, one row at least.  The script reads the first six cells of a
    row, always through [!] or [||], under which a cell past the width of
    the range (undefined) and an empty cell ('') are alike; the rows here
    are six cells wide. *)
Definition getDataRangeValues (sheet : SheetRef) : M (list (list value)) :=
  reading "getDataRange" sheet (fun sh =>
    valuesIn (cells sh)
      {| rRow := 1; rCol := 1; numRows := Nat.max 1 (lastRow (cells sh)); numCols := 6 |}).

(** One turn of the loop over [values]: nothing for a row without a
    timestamp. *)
Definition transactionAt (name : string) (values : list (list value)) (i : nat)
  : result (option Transaction) :=
  if negb (truthy (at2 values i 0)) then Ok None
  else
    ts ← toISO (at2 values i 0);
    Ok (Some {| txRow := i + 1;
                txSheetName := name;
                txTimestamp := ts;
                txVnd := numOrZero (ToNumber (at2 values i 1));
                txEur := numOrZero (ToNumber (at2 values i 2));
                txUsd := numOrZero (ToNumber (at2 values i 3));
                txCategory := orElse (at2 values i 4) (VStr "");
                txNote := orElse (at2 values i 5) (VStr "") |}).

(** [for (var i = n + 1; i >= 2; i--)], pushing in that order. *)
Fixpoint transactionsFrom (name : string) (values : list (list value)) (n : nat)
  : result (list Transaction) :=
  match n with
  | O => Ok []
  | S n' =>
      t ← transactionAt name values (S n);
      rest ← transactionsFrom name values n';
      Ok (match t with Some tx => tx :: rest | None => rest end)
  end.

Definition readTransactions (sheet : SheetRef) : M (list Transaction) :=
  values ← getDataRangeValues sheet;
  name ← getName sheet;
  lift (transactionsFrom name values (length values - 2)).

(** The loop over the summary block H3:J11. *)
Definition statsOf (cats amounts percentages : list (list value)) : Stats :=
  foldl (fun stats j =>
           let cat := at2 cats j 0 in
           if negb (truthy cat) then stats
           else statsSet (ToString E cat)
                  {| amount := numOrZero (ToNumber (at2 amounts j 0));
                     percent := parsePct (at2 percentages j 0) |} stats)
        [] (seq 0 (length cats)).

Definition readStats (sheet : SheetRef) : M (Stats * AmountPercent) :=
  cats ← getValues sheet (A1s "H" 3 "H" 11);
  amounts ← getValues sheet (A1s "I" 3 "I" 11);
  percentages ← getValues sheet (A1s "J" 3 "J" 11);
  budgetAmount ← getValue sheet (A1 "I" 12);
  budgetPercent ← getValue sheet (A1 "J" 12);
  mret (statsOf cats amounts percentages,
        {| amount := numOrZero (ToNumber (orElse budgetAmount (VNum zero)));
           percent := parsePct (orElse budgetPercent (VNum zero)) |}).

Definition getAllData (sheet : SheetRef) : M Response :=
  values ← getDataRangeValues sheet;
  vndTotal ← getValue sheet (A1 "B" 2);
  eurTotal ← getValue sheet (A1 "C" 2);
  usdTotal ← getValue sheet (A1 "D" 2);
  name ← getName sheet;
  transactions ← lift (transactionsFrom name values (length values - 2));
  '(stats, budget) ← readStats sheet;
  mret (AllData (orElse vndTotal (VNum zero)) (orElse eurTotal (VNum zero))
                (orElse usdTotal (VNum zero)) transactions stats budget).

Definition getMonthlyTotals (sheet : SheetRef) : M Response :=
  vndTotal ← getValue sheet (A1 "B" 2);
  eurTotal ← getValue sheet (A1 "C" 2);
  usdTotal ← getValue sheet (A1 "D" 2);
  mret (Totals (orElse vndTotal (VNum zero)) (orElse eurTotal (VNum zero))
               (orElse usdTotal (VNum zero))).

Definition getTransactionHistory (sheet : SheetRef) : M Response :=
  transactions ← readTransactions sheet;
  mret (TransactionList transactions).

Definition getStatsData (sheet : SheetRef) : M Response :=
  '(stats, budget) ← readStats sheet;
  mret (StatsData stats budget).

(** ** [doGet] *)

(** The response for a month without a sheet. *)
Definition emptyData : Response :=
  AllData (VNum zero) (VNum zero) (VNum zero) [] []
          {| amount := zero; percent := zero |}.

(** The six cells of a transaction as the update and addEntry branches
    build them. *)
Definition rowOf (e : Params) : list value :=
  [paramValue (param_timestamp e);
   VNum (numOrZero (parseFloat (paramStr (param_vnd e))));
   VNum (numOrZero (parseFloat (paramStr (param_eur e))));
   VNum (numOrZero (parseFloat (paramStr (param_usd e))));
   VStr (orStr (param_category e) "");
   VStr (orStr (param_note e) "")].

(** [if (action === 'delete') { ... }] *)
Definition deleteBranch (e : Params) : M Response :=
  let row := parseInt (paramStr (param_row e)) in
  let sheetNameForRow := param_sheetName e in
  if falsyNum row || lt row (ofZ 3) || negb (given sheetNameForRow) then
    err "Invalid parameters for delete"
  else
    targetSheet ← getSheetByName (paramStr sheetNameForRow);
    if isNull targetSheet then err ("Sheet not found: " +:+ paramStr sheetNameForRow)
    else
      tryCatch
        (deleteRow targetSheet row;;
         ok ("Deleted row " +:+ NumberToString E row +:+ " from " +:+ paramStr sheetNameForRow))
        (fun er => err ("Delete failed: " +:+ exnToString er)).

(** [if (action === 'update') { ... }] *)
Definition updateBranch (e : Params) : M Response :=
  let uRow := parseInt (paramStr (param_row e)) in
  let sheetNameForUpdate := param_sheetName e in
  if falsyNum uRow || lt uRow (ofZ 3) || negb (given sheetNameForUpdate) then
    err "Invalid parameters for update"
  else
    targetSheet ← getSheetByName (paramStr sheetNameForUpdate);
    if isNull targetSheet then err ("Sheet not found: " +:+ paramStr sheetNameForUpdate)
    else
      tryCatch
        (newDate ← lift (timestampDate (paramValue (param_timestamp e)));
         newSheetName ← lift (getMonthSheetName newDate);
         if negb (String.eqb newSheetName (paramStr sheetNameForUpdate)) then
           (* a different month: add to the new sheet, delete from the old *)
           newSheet ← getOrCreateMonthSheet newDate;
           appendRow newSheet (rowOf e);;
           deleteRow targetSheet uRow;;
           ok ("Moved from " +:+ paramStr sheetNameForUpdate +:+ " to " +:+ newSheetName)
         else
           (* update in place: [getRange(uRow, 1, 1, 6).setValues] *)
           match toInteger uRow with
           | Some r =>
               setValues targetSheet
                 {| rRow := Z.to_nat r; rCol := 1; numRows := 1; numCols := 6 |} [rowOf e];;
               ok ("Updated row " +:+ NumberToString E uRow)
           | None => throw (Exception "The parameters (number,number,number,number) don't match the method signature for getRange.")
           end)
        (fun er => err ("Update failed: " +:+ exnToString er)).

(** [if (action === 'addEntry') { ... }] *)
Definition addEntryBranch (e : Params) : M Response :=
  tryCatch
    (entryDate ← lift (timestampDate (paramValue (param_timestamp e)));
     targetSheet ← getOrCreateMonthSheet entryDate;
     appendRow targetSheet (rowOf e);;
     name ← getName targetSheet;
     ok ("Added to " +:+ name))
    (fun er => err ("Add failed: " +:+ exnToString er)).

(** [if (action === 'updateBudget') { ... }]; [year], [month] and [sheet]
    are the variables of [doGet]. *)
Definition updateBudgetBranch (e : Params) (year month : number) (sheet : SheetRef) : M Response :=
  let budgetAmount := parseFloat (paramStr (param_budget e)) in
  let setBudget (sheet : SheetRef) : M Response :=
    tryCatch
      (setValue sheet (A1 "I" 12) (VNum budgetAmount);;
       ok ("Budget updated to " +:+ NumberToString E budgetAmount))
      (fun er => err ("Budget update failed: " +:+ exnToString er)) in
  if falsyNum budgetAmount || le budgetAmount zero then err "Invalid budget amount"
  else if isNaN year || isNaN month || lt month (ofZ 1) || lt (ofZ 12) month then
    err ("Invalid year or month parameters: year=" +:+ NumberToString E year
         +:+ ", month=" +:+ NumberToString E month)
  else if isNull sheet then
    (* create the sheet if it does not exist yet *)
    let date := newDate E year (sub month (ofZ 1)) (ofZ 1) zero zero zero in
    match date with
    | None =>
        err ("Invalid date created from year=" +:+ NumberToString E year
             +:+ ", month=" +:+ NumberToString E month)
    | Some _ =>
        sheet ← getOrCreateMonthSheet date;
        setBudget sheet
    end
  else setBudget sheet.

Definition doGet (e : Params) : M Response :=
  let action := orStr (param_action e) "default" in
  let year :=
    if given (param_year e) then parseInt (paramStr (param_year e))
    else ofZ (getFullYear E (now E)) in
  let month :=
    if given (param_month e) then parseInt (paramStr (param_month e))
    else ofZ (getMonth E (now E) + 1) in
  let sheetName := getSheetNameFromParams year month in
  sheet ← getSheetByName sheetName;
  (* no sheet for the requested month: empty data *)
  if isNull sheet && (String.eqb action "getAllData" || String.eqb action "getTransactions"
                      || String.eqb action "getStats")
  then mret emptyData
  else if String.eqb action "delete" then deleteBranch e
  else if String.eqb action "update" then updateBranch e
  else if String.eqb action "addEntry" then addEntryBranch e
  else if String.eqb action "updateBudget" then updateBudgetBranch e year month sheet
  else if String.eqb action "getAllData" then getAllData sheet
  else if String.eqb action "getTransactions" then getTransactionHistory sheet
  else if String.eqb action "getStats" then getStatsData sheet
  else getMonthlyTotals sheet.

End Script.

End App.


(* ===================================================================== *)
(** * Notions the properties are stated with                              *)
(* ===================================================================== *)

Module Ledger.
Import JS Sheets App.

(** The name of the sheet a GET request addresses by its year and month
    (the variable [sheetName] of [doGet]). *)
Definition requestedSheet (E : Engine) (e : Params) : string :=
  getSheetNameFromParams E
    (if given (param_year e) then parseInt (paramStr (param_year e))
     else ofZ (getFullYear E (now E)))
    (if given (param_month e) then parseInt (paramStr (param_month e))
     else ofZ (getMonth E (now E) + 1)).

(** The action a request names. *)
Definition actionOf (e : Params) : string := orStr (param_action e) "default".

(** The actions that only read: all but the four that write. *)
Definition isRead (e : Params) : bool :=
  negb (String.eqb (actionOf e) "delete" || String.eqb (actionOf e) "update"
        || String.eqb (actionOf e) "addEntry" || String.eqb (actionOf e) "updateBudget").

Definition withCells (sh : Sheet) (g : Grid) : Sheet :=
  {| sheetName := sheetName sh; cells := g |}.

(** How many sheets carry a name. *)
Definition sheetsNamed (n : string) (ss : Spreadsheet) : nat :=
  length (filter (fun sh => sheetName sh = n) ss).

(** The rows of a grid that hold a transaction: from row 3 down to the last
    row with content, those with a timestamp. *)
Definition transactionRows (g : Grid) : list nat :=
  filter (fun r => truthy (valueAt g r 1) = true) (seq 3 (lastRow g - 2)).

Definition transactionCount (g : Grid) : nat := length (transactionRows g).

(** The transaction a row holds, as a read reports it. *)
Definition transactionOfRow (E : Engine) (name : string) (g : Grid) (r : nat)
  : result Transaction :=
  ts ← toISO E (valueAt g r 1);
  Ok {| txRow := r;
        txSheetName := name;
        txTimestamp := ts;
        txVnd := numOrZero (ToNumber (valueAt g r 2));
        txEur := numOrZero (ToNumber (valueAt g r 3));
        txUsd := numOrZero (ToNumber (valueAt g r 4));
        txCategory := orElse (valueAt g r 5) (VStr "");
        txNote := orElse (valueAt g r 6) (VStr "") |}.

(** The range [getDataRangeValues] reads. *)
Definition dataRange (g : Grid) : Range :=
  {| rRow := 1; rCol := 1; numRows := Nat.max 1 (lastRow g); numCols := 6 |}.

(** The sum of the EUR column from row 3 down. *)
Definition totalEUR (g : Grid) : number :=
  total (omap (fun row => numIn (cellOf row (column "C"))) (dataRows g)).

(** The totals, the category figures and the budget figures a read takes
    from a grid. *)
Definition totalOf (g : Grid) (c : ascii) : value :=
  orElse (valueAt g 2 (column c)) (VNum zero).

Definition summaryOf (E : Engine) (g : Grid) : Stats * AmountPercent :=
  (statsOf E (valuesIn g (A1s "H" 3 "H" 11)) (valuesIn g (A1s "I" 3 "I" 11))
             (valuesIn g (A1s "J" 3 "J" 11)),
   {| amount := numOrZero (ToNumber (orElse (valueAt g 12 (column "I")) (VNum zero)));
      percent := parsePct (orElse (valueAt g 12 (column "J")) (VNum zero)) |}).

(** The transactions of a sheet, last row first. *)
Definition listed (E : Engine) (sh : Sheet) : result (list Transaction) :=
  mapM (transactionOfRow E (sheetName sh) (cells sh))
       (reverse (transactionRows (cells sh))).

(** What a read action answers from a sheet. *)
Definition readResponse (E : Engine) (action : string) (sh : Sheet) : result Response :=
  let g := cells sh in
  if String.eqb action "getAllData" then
    transactions ← listed E sh;
    Ok (AllData (totalOf g "B") (totalOf g "C") (totalOf g "D") transactions
                (fst (summaryOf E g)) (snd (summaryOf E g)))
  else if String.eqb action "getTransactions" then
    transactions ← listed E sh; Ok (TransactionList transactions)
  else if String.eqb action "getStats" then
    Ok (StatsData (fst (summaryOf E g)) (snd (summaryOf E g)))
  else Ok (Totals (totalOf g "B") (totalOf g "C") (totalOf g "D")).

(** Two grids that show the same content: cell by cell, with the same last
    row, and with the same rows of data once empty rows are passed over. *)
Definition sameView (g g' : Grid) : Prop :=
  (forall r c : nat, cellAt g r c = cellAt g' r c)
  /\ lastRow g = lastRow g'
  /\ (forall (A : Type) (F : list content -> option A),
       (forall row, rowBlank row = true -> F row = None) ->
       omap F (dataRows g) = omap F (dataRows g')).

(** ** Sample data *)

(** An engine in the UTC time zone that reads no free-form date. *)
Definition utcEngine : Engine :=
  {| Date_parse := fun _ => None;
     LocalTime := fun t => t;
     UTC := fun t => t;
     now := 1771151445000;
     Number_repr := fun _ => "";
     Date_repr := toISOString |}.

(** A read of a month. *)
Definition readRequest (action : option string) (year month : string) : Params :=
  {| param_action := action; param_year := Some year; param_month := Some month;
     param_row := None; param_sheetName := None; param_timestamp := None;
     param_vnd := None; param_eur := None; param_usd := None;
     param_category := None; param_note := None; param_budget := None |}.

Definition entryRequest (action : string) (row sheet : option string)
    (ts vnd eur usd cat note : string) : Params :=
  {| param_action := Some action; param_year := None; param_month := None;
     param_row := row; param_sheetName := sheet; param_timestamp := Some ts;
     param_vnd := Some vnd; param_eur := Some eur; param_usd := Some usd;
     param_category := Some cat; param_note := Some note; param_budget := None |}.

Definition deleteRequest (row sheet : string) : Params :=
  {| param_action := Some "delete"; param_year := None; param_month := None;
     param_row := Some row; param_sheetName := Some sheet; param_timestamp := None;
     param_vnd := None; param_eur := None; param_usd := None;
     param_category := None; param_note := None; param_budget := None |}.

(** A month sheet laid out the way the blocks of [createMonthSheet] lay it
    out: header, totals row, the summary block H2:J11 and the budget row
    12. *)
Definition summaryRow (label : string) (row : nat) : list content :=
  replicate 7 blank ++ [Lit (VStr label); Formula (FSumIf row); Formula (FShare row)].

Definition monthLayout (budget : number) : Grid :=
  [ map (fun s => Lit (VStr s))
      ["Timestamp"; "VND"; "EUR"; "USD"; "Category"; "Note"; ""; "SUMMARY"; ""; ""];
    [Lit (VStr "TOTALS"); Formula (FSum (column "B")); Formula (FSum (column "C"));
     Formula (FSum (column "D")); blank; blank; blank;
     Lit (VStr "Category"); Lit (VStr "EUR"); Lit (VStr "%")];
    summaryRow "Food" 3; summaryRow "Travel" 4; summaryRow "Shopping" 5;
    summaryRow "Bills" 6; summaryRow "Fun" 7; summaryRow "Health" 8;
    summaryRow "Groceries" 9; summaryRow "Saving" 10; summaryRow "Other" 11;
    replicate 7 blank ++ [Lit (VStr "Budget"); Lit (VNum budget); Formula FRemaining] ].

Definition transactionCells (ts : string) (vnd eur usd : Z) (cat note : string)
  : list content :=
  [Lit (VStr ts); Lit (VNum (ofZ vnd)); Lit (VNum (ofZ eur)); Lit (VNum (ofZ usd));
   Lit (VStr cat); Lit (VStr note)].

(** February 2026 with three transactions in rows 13 to 15, on a grid of 20
    rows. *)
Definition february : Sheet :=
  {| sheetName := "February 2026";
     cells := monthLayout (ofZ 1600)
              ++ [transactionCells "03/02/2026 09:15:00" 250000 8 9 "Food" "lunch";
                  transactionCells "10/02/2026 18:40:10" 0 42 0 "Travel" "train";
                  transactionCells "21/02/2026 12:00:00" 1200000 40 44 "Bills" "power"]
              ++ replicate 5 [] |}.

(** The update that moves the transaction of row 14 of February to the
    given day. *)
Definition moveRequest (ts : string) : Params :=
  entryRequest "update" (Some "14") (Some "February 2026")
               ts "0" "42" "0" "Travel" "train".

(** A laid-out month with the default budget and one transaction of the
    given EUR amount. *)
Definition monthSpending (name : string) (eur : Z) : Sheet :=
  {| sheetName := name;
     cells := monthLayout (ofZ 1600)
              ++ [transactionCells "05/05/2026 08:00:00" 0 eur 0 "Bills" "rent"]
              ++ replicate 7 [] |}.

(** March 2026 without transactions. *)
Definition march : Sheet :=
  {| sheetName := "March 2026"; cells := monthLayout (ofZ 1600) ++ replicate 8 [] |}.

End Ledger.

(* ===================================================================== *)
(** * More notions: requests, rows, the calendar                          *)
(* ===================================================================== *)

From Stdlib Require DecimalZ DecimalPos.

Module Book.
Import JS Sheets App Ledger.

(** The variables [year] and [month] of [doGet]. *)
Definition requestedYear (E : Engine) (e : Params) : number :=
  if given (param_year e) then parseInt (paramStr (param_year e))
  else ofZ (getFullYear E (now E)).

Definition requestedMonth (E : Engine) (e : Params) : number :=
  if given (param_month e) then parseInt (paramStr (param_month e))
  else ofZ (getMonth E (now E) + 1).

(** The variable [budgetAmount] of the updateBudget branch. *)
Definition budgetOf (e : Params) : number := parseFloat (paramStr (param_budget e)).

(** The test of the updateBudget branch on [year] and [month]. *)
Definition badYearMonth (year month : number) : bool :=
  isNaN year || isNaN month || lt month (ofZ 1) || lt (ofZ 12) month.

Definition budgetRequest (year month budget : option string) : Params :=
  {| param_action := Some "updateBudget"; param_year := year; param_month := month;
     param_row := None; param_sheetName := None; param_timestamp := None;
     param_vnd := None; param_eur := None; param_usd := None;
     param_category := None; param_note := None; param_budget := budget |}.

(** A response with a status and a message, what [ok], [err] and the
    handlers of [doPost] build. *)
Definition answered (r : result Response) : bool :=
  match r with
  | Ok (Message st _) => String.eqb st "success" || String.eqb st "error"
  | _ => false
  end.

(** The same of the body of a [try]: it may also throw. *)
Definition answeredOrThrown (r : result Response) : bool :=
  match r with
  | Ok _ => answered r
  | Throw _ => true
  end.

(** The action names [doGet] tests for. *)
Definition actionNames : list string :=
  ["getAllData"; "getTransactions"; "getStats"; "delete"; "update"; "addEntry";
   "updateBudget"].

Definition knownAction (a : string) : bool := existsb (String.eqb a) actionNames.

(** ** Rows of transactions *)

Definition isLit (c : content) : bool :=
  match c with Lit _ => true | Formula _ => false end.

(** The cells A to F of the rows from 3 down hold values, no formula. *)
Definition literalRows (g : Grid) : bool :=
  forallb (fun row => forallb isLit (take 6 row)) (dataRows g).

(** ** The reserved rows

    Row 2 of the grid, the totals row of a month sheet, has content. *)
Definition hasTotalsRow (g : Grid) : bool := negb (rowBlank (default [] (g !! 1%nat))).

(** Every sheet of [ss] with a totals row is in [ss'] at its place and
    under its name, with its first two rows as they were. *)
Definition reservedKept (ss ss' : Spreadsheet) : Prop :=
  forall (h : nat) (sh : Sheet),
    ss !! h = Some sh -> hasTotalsRow (cells sh) = true ->
    exists sh' : Sheet,
      ss' !! h = Some sh' /\ sheetName sh' = sheetName sh
      /\ take 2 (cells sh') = take 2 (cells sh).

(** A computation of the script that keeps the reserved rows. *)
Definition keeps {A} (m : M A) : Prop :=
  forall ss : Spreadsheet, reservedKept ss (snd (m ss)).

(** The sum of the numbers of a column from row 3 down, what [=SUM(X3:X)]
    shows. *)
Definition columnTotal (g : Grid) (c : nat) : number :=
  total (omap (fun row => numIn (cellOf row c)) (dataRows g)).

(** The amounts of a GET request as the update and addEntry branches read
    them. *)
Definition amountVND (e : Params) : number := numOrZero (parseFloat (paramStr (param_vnd e))).
Definition amountEUR (e : Params) : number := numOrZero (parseFloat (paramStr (param_eur e))).
Definition amountUSD (e : Params) : number := numOrZero (parseFloat (paramStr (param_usd e))).

(** The transaction a read reports for the row [row] of the sheet [name]
    when that row holds the fields of the request [e]; [iso] is its
    timestamp as [toISO] gives it. *)
Definition entryTransaction (e : Params) (name : string) (row : nat) (iso : string)
  : Transaction :=
  {| txRow := row;
     txSheetName := name;
     txTimestamp := iso;
     txVnd := amountVND e;
     txEur := amountEUR e;
     txUsd := amountUSD e;
     txCategory := VStr (orStr (param_category e) "");
     txNote := VStr (orStr (param_note e) "") |}.

(** A transaction under another row number. *)
Definition atRow (row : nat) (t : Transaction) : Transaction :=
  {| txRow := row;
     txSheetName := txSheetName t;
     txTimestamp := txTimestamp t;
     txVnd := txVnd t;
     txEur := txEur t;
     txUsd := txUsd t;
     txCategory := txCategory t;
     txNote := txNote t |}.

(** A transaction list once the row [r] is deleted: the transaction of that
    row is out, and those of the rows below it are one row up. *)
Definition moveUp (r : nat) (t : Transaction) : Transaction :=
  if (r <? txRow t)%nat then atRow (pred (txRow t)) t else t.

Definition afterDelete (r : nat) (transactions : list Transaction) : list Transaction :=
  moveUp r <$> filter (fun t => txRow t <> r) transactions.

(** A transaction list with the transaction of the row [r] replaced. *)
Definition replaceRow (r : nat) (t : Transaction) (transactions : list Transaction)
  : list Transaction :=
  (fun t0 => if (txRow t0 =? r)%nat then t else t0) <$> transactions.

(** The row [doPost] appends. *)
Definition postedRow (data : Entry) : list value :=
  [timestamp data;
   orElse (vnd data) (VNum zero);
   orElse (eur data) (VNum zero);
   orElse (usd data) (VNum zero);
   orElse (category data) (VStr "");
   orElse (note data) (VStr "")].

(** ** The summary block *)

(** The label of the row [j] of the block the loop of [statsOf] reads, none
    for an empty label cell, and the figures the loop stores for that
    row. *)
Definition labelAt (E : Engine) (cats : list (list value)) (j : nat) : option string :=
  if truthy (at2 cats j 0) then Some (ToString E (at2 cats j 0)) else None.

Definition figuresAt (amounts percentages : list (list value)) (j : nat) : AmountPercent :=
  {| amount := numOrZero (ToNumber (at2 amounts j 0));
     percent := parsePct (at2 percentages j 0) |}.

(** How the stats object lists two of its labels: one that is an array
    index before one that is none, two array indices by their numbers, and
    two other labels by their first rows in the block: [k] stands in a row
    with no [k'] in it or above it. *)
Definition listedBefore (E : Engine) (cats : list (list value)) (k k' : string) : Prop :=
  match arrayIndex k, arrayIndex k' with
  | Some n, Some n' => n < n'
  | Some _, None => True
  | None, Some _ => False
  | None, None =>
      exists j : nat,
        labelAt E cats j = Some k
        /\ forall j' : nat, (j' <= j)%nat -> labelAt E cats j' <> Some k'
  end.

(** The sum of the EUR amounts of the rows from 3 down whose category is
    [label], what [=SUMIF($E$3:$E,H<row>,$C$3:$C)] shows for that label. *)
Definition categoryTotal (g : Grid) (label : string) : number :=
  total (omap (fun row => if meets label (cellOf row (column "E"))
                          then numIn (cellOf row (column "C")) else None)
              (dataRows g)).

(** ** Timestamps and the calendar *)

(** The number a string of decimal digits writes. *)
Fixpoint digitsValue (s : string) (acc : Z) : Z :=
  match s with
  | String c r => digitsValue r (10 * acc + (code c - 48))
  | EmptyString => acc
  end.

Definition fieldValue (s : string) : Z := digitsValue s 0.

Definition digitChars : list ascii :=
  ["0"; "1"; "2"; "3"; "4"; "5"; "6"; "7"; "8"; "9"]%char.

Definition isLeapYear (y : Z) : bool :=
  ((y mod 4 =? 0) && negb (y mod 100 =? 0)) || (y mod 400 =? 0).

Definition daysInMonth (y m : Z) : Z :=
  if m =? 2 then (if isLeapYear y then 29 else 28)
  else if (m =? 4) || (m =? 6) || (m =? 9) || (m =? 11) then 30 else 31.

(** The length of the year that begins on 1 March of the year [yoe] of a
    400-year era. *)
Definition yearLength (yoe : Z) : Z :=
  if ((yoe + 1) mod 4 =? 0)
     && (negb ((yoe + 1) mod 100 =? 0) || ((yoe + 1) mod 400 =? 0))
  then 366 else 365.

(** [x] denotes the integer [v]. *)
Definition integerOf (x : number) (v : Z) : bool :=
  match toInteger x with
  | Some r => r =? v
  | None => false
  end.

(** What holds of every field of two digits and of every field of four:
    [parseInt] reads the number the digits write, one less is computed
    exactly, and the number printed in that many digits is the field. *)
Definition twoDigitCheck (d : string) : bool :=
  let v := fieldValue d in
  (0 <=? v) && (v <? 100) && integerOf (parseInt d) v
  && integerOf (sub (parseInt d) (ofZ 1)) (v - 1) && String.eqb (pad 2 v) d.

Definition fourDigitCheck (d : string) : bool :=
  let v := fieldValue d in
  (0 <=? v) && (v <? 10000) && integerOf (parseInt d) v && String.eqb (pad 4 v) d.

(** The year a [new Date(year, ...)] takes a matched year for: one or two
    digits count from 1900. *)
Definition stampYear (p : TsParts) : Z :=
  let y := fieldValue (tsYear p) in if y <=? 99 then 1900 + y else y.

(** The fields of a matched timestamp name a day of the calendar and a time
    of the day. *)
Definition validStamp (p : TsParts) : bool :=
  let m := fieldValue (tsMonth p) in
  let d := fieldValue (tsDay p) in
  (1 <=? m) && (m <=? 12) && (1 <=? d) && (d <=? daysInMonth (stampYear p) m)
  && (fieldValue (tsHour p) <? 24) && (fieldValue (tsMinute p) <? 60)
  && (fieldValue (tsSecond p) <? 60).

(** The fields name a month and a time of the day, and a day up to 31 that
    the month does not have. *)
Definition dayPastMonthEnd (p : TsParts) : bool :=
  let m := fieldValue (tsMonth p) in
  let d := fieldValue (tsDay p) in
  (1 <=? m) && (m <=? 11) && (daysInMonth (stampYear p) m <? d) && (d <=? 31)
  && (fieldValue (tsHour p) <? 24) && (fieldValue (tsMinute p) <? 60)
  && (fieldValue (tsSecond p) <? 60).

(** The local time value of the fields. *)
Definition stampTime (p : TsParts) : Z :=
  MakeDate (daysFromCivil (stampYear p) (fieldValue (tsMonth p)) (fieldValue (tsDay p)))
           (MakeTime (fieldValue (tsHour p)) (fieldValue (tsMinute p))
                     (fieldValue (tsSecond p)) 0).

(** The fields in the order of an ISO timestamp. *)
Definition stampISO (p : TsParts) : string :=
  pad 4 (stampYear p) +:+ "-" +:+ tsMonth p +:+ "-" +:+ tsDay p +:+ "T"
    +:+ tsHour p +:+ ":" +:+ tsMinute p +:+ ":" +:+ tsSecond p +:+ ".000Z".

End Book.

(* ===================================================================== *)
(** * Properties                                                          *)
(* ===================================================================== *)

Import JS Sheets App Ledger Book.

(** ** Numbers *)

Lemma ofZ_3 : ofZ 3 = S754_finite false 6755399441055744 (-51).
Proof. reflexivity. Qed.

Lemma toInteger_finite s m e r :
  toInteger (S754_finite s m e) = Some r ->
  (0 <= e /\ r = intOf s m * 2 ^ e) \/ (e < 0 /\ intOf s m = r * 2 ^ (- e)).
Proof.
  unfold toInteger. destruct (Z.leb_spec 0 e) as [He|He].
  - intros [= <-]. left. split; [lia | reflexivity].
  - destruct (Z.eqb_spec (Z.pos m mod 2 ^ (- e)) 0) as [Hm|Hm]; [|discriminate].
    intros [= <-]. right. split; [lia|].
    assert (Hp : 0 < 2 ^ (- e)) by (apply Z.pow_pos_nonneg; lia).
    apply Z.mod_divide in Hm; [|lia]. destruct Hm as [q Hq].
    destruct s; unfold intOf.
    + replace (Z.neg m) with ((- q) * 2 ^ (- e))
        by (rewrite Z.mul_opp_l, <- Hq; reflexivity).
      rewrite Z.div_mul by lia. reflexivity.
    + rewrite Hq. rewrite Z.div_mul by lia. reflexivity.
Qed.

(** The test [!row || row < 3] of the delete and update branches, read on
    the integer the row denotes. *)
Lemma row_test x r :
  toInteger x = Some r -> falsyNum x || lt x (ofZ 3) = (r <? 3).
Proof.
  rewrite ofZ_3. destruct x as [s | s | | s m e]; try discriminate.
  - intros [= <-]. reflexivity.
  - intros H. apply toInteger_finite in H.
    unfold falsyNum, lt, compare. rewrite orb_false_l.
    set (n := intOf s m) in *.
    change (intOf false 6755399441055744) with (3 * 2 ^ 51).
    assert (P51 : 0 < 2 ^ 51) by reflexivity.
    destruct H as [[He ->] | [He Hn]].
    + rewrite Z.min_r by lia.
      replace (e - -51) with (e + 51) by lia. rewrite Z.pow_add_r by lia.
      replace (-51 - -51) with 0 by lia. rewrite Z.pow_0_r.
      destruct (Z.ltb_spec (n * 2 ^ e) 3) as [Hr|Hr];
        destruct (Z.compare_spec (n * (2 ^ e * 2 ^ 51)) (3 * 2 ^ 51 * 1)) as [Hc|Hc|Hc];
        try reflexivity; exfalso; nia.
    + destruct (Z.le_gt_cases (-51) e) as [Hle|Hgt].
      * rewrite Z.min_r by lia.
        replace (-51 - -51) with 0 by lia. rewrite Z.pow_0_r.
        assert (Hpow : 2 ^ (- e) * 2 ^ (e - -51) = 2 ^ 51).
        { rewrite <- Z.pow_add_r by lia. f_equal. lia. }
        rewrite Hn.
        replace (r * 2 ^ (- e) * 2 ^ (e - -51)) with (r * 2 ^ 51)
          by (rewrite <- Z.mul_assoc, Hpow; reflexivity).
        destruct (Z.ltb_spec r 3) as [Hr|Hr];
          destruct (Z.compare_spec (r * 2 ^ 51) (3 * 2 ^ 51 * 1)) as [Hc|Hc|Hc];
          try reflexivity; exfalso; nia.
      * rewrite Z.min_l by lia.
        replace (e - e) with 0 by lia. rewrite Z.pow_0_r.
        assert (Hpow : 2 ^ (- e) = 2 ^ 51 * 2 ^ (-51 - e)).
        { rewrite <- Z.pow_add_r by lia. f_equal. lia. }
        assert (Hq : 0 < 2 ^ (-51 - e)) by (apply Z.pow_pos_nonneg; lia).
        rewrite Hn, Hpow.
        destruct (Z.ltb_spec r 3) as [Hr|Hr];
          destruct (Z.compare_spec (r * (2 ^ 51 * 2 ^ (-51 - e)) * 1)
                                   (3 * 2 ^ 51 * 2 ^ (-51 - e))) as [Hc|Hc|Hc];
          try reflexivity; exfalso; nia.
Qed.

(** ** The built-ins on samples *)

Example parseInt_samples :
  map parseInt ["45"; " 12px"; "-7"; "0x1F"; "08"]
  = map ofZ [45; 12; -7; 31; 8]
  /\ parseInt "px" = NaN /\ parseInt "" = NaN /\ parseInt "undefined" = NaN.
Proof. repeat split; vm_compute; reflexivity. Qed.

Example parseFloat_samples :
  map parseFloat ["12"; "2.5e3"; "-4"; "1600.00 EUR"] = map ofZ [12; 2500; -4; 1600]
  /\ parseFloat "0.5" = div (ofZ 1) (ofZ 2)
  /\ parseFloat "0.07" = div (ofZ 7) (ofZ 100)
  /\ parseFloat "" = NaN /\ parseFloat "." = NaN.
Proof. repeat split; vm_compute; reflexivity. Qed.

Example Math_round_samples :
  map (fun x => toInteger (Math_round (parseFloat x)))
      ["2.5"; "-2.5"; "2.4"; "-0.4"; "7.000000000000001"; "28.499999999999996"]
  = map Some [3; -2; 2; 0; 7; 28].
Proof. vm_compute. reflexivity. Qed.

Example tsMatch_samples :
  tsMatch "15/02/2026 10:30:45"
  = Some {| tsDay := "15"; tsMonth := "02"; tsYear := "2026";
            tsHour := "10"; tsMinute := "30"; tsSecond := "45" |}
  /\ tsMatch "on 15/02/2026   10:30:45!" = tsMatch "15/02/2026 10:30:45"
  /\ tsMatch "2026-02-15T10:30:45Z" = None
  /\ tsMatch "5/2/2026 10:30:45" = None.
Proof. repeat split; vm_compute; reflexivity. Qed.

Example date_samples :
  dateOfParts utcEngine
    {| tsDay := "15"; tsMonth := "02"; tsYear := "2026";
       tsHour := "10"; tsMinute := "30"; tsSecond := "45" |} = Some 1771151445000
  /\ toISOString 1771151445000 = "2026-02-15T10:30:45.000Z"
  /\ getMonthSheetName utcEngine (Some 1771151445000) = Ok "February 2026"
  /\ getMonthSheetName utcEngine
       (dateOfParts utcEngine
          {| tsDay := "31"; tsMonth := "02"; tsYear := "2026";
             tsHour := "00"; tsMinute := "00"; tsSecond := "00" |}) = Ok "March 2026"
  /\ getSheetNameFromParams utcEngine (parseInt "2026") (parseInt "2") = "February 2026"
  /\ getSheetNameFromParams utcEngine (parseInt "2026") (parseInt "13") = "undefined 2026".
Proof. repeat split; vm_compute; reflexivity. Qed.

(** ** Percentages *)



(** ** The branches of [doGet] *)

Lemma doGet_delete E e ss :
  param_action e = Some "delete" -> doGet E e ss = deleteBranch E e ss.
Proof.
  intros Ha. unfold doGet. rewrite Ha.
  unfold mbind, M_bind, bind, getSheetByName.
  cbn [orStr String.eqb Ascii.eqb Bool.eqb orb andb].
  now rewrite andb_false_r.
Qed.

Lemma doGet_update E e ss :
  param_action e = Some "update" -> doGet E e ss = updateBranch E e ss.
Proof.
  intros Ha. unfold doGet. rewrite Ha.
  unfold mbind, M_bind, bind, getSheetByName.
  cbn [orStr String.eqb Ascii.eqb Bool.eqb orb andb].
  now rewrite andb_false_r.
Qed.

Lemma doGet_addEntry E e ss :
  param_action e = Some "addEntry" -> doGet E e ss = addEntryBranch E e ss.
Proof.
  intros Ha. unfold doGet. rewrite Ha.
  unfold mbind, M_bind, bind, getSheetByName.
  cbn [orStr String.eqb Ascii.eqb Bool.eqb orb andb].
  now rewrite andb_false_r.
Qed.

(** A read of a month goes by the sheet of that month. *)
Lemma doGet_read E e ss :
  isRead e = true ->
  doGet E e ss =
    let sheet := findSheet ss (requestedSheet E e) in
    if isNull sheet && (String.eqb (actionOf e) "getAllData"
                        || String.eqb (actionOf e) "getTransactions"
                        || String.eqb (actionOf e) "getStats")
    then (Ok emptyData, ss)
    else if String.eqb (actionOf e) "getAllData" then getAllData E sheet ss
    else if String.eqb (actionOf e) "getTransactions" then getTransactionHistory E sheet ss
    else if String.eqb (actionOf e) "getStats" then getStatsData E sheet ss
    else getMonthlyTotals sheet ss.
Proof.
  unfold isRead. intros Hr. apply negb_true_iff in Hr.
  apply orb_false_iff in Hr as [Hr Hb]. apply orb_false_iff in Hr as [Hr Ha].
  apply orb_false_iff in Hr as [Hd Hu].
  unfold doGet. fold (actionOf e). fold (requestedSheet E e).
  unfold mbind, M_bind, bind, getSheetByName. cbv zeta.
  rewrite Hd, Hu, Ha, Hb.
  destruct (isNull _ && _); [reflexivity|].
  repeat (match goal with |- context [String.eqb ?a ?b] => destruct (String.eqb a b) end;
          try reflexivity).
Qed.

Lemma getMonthlyTotals_null ss :
  getMonthlyTotals None ss
  = (Throw (TypeError "Cannot read properties of null (reading 'getRange')"), ss).
Proof. reflexivity. Qed.

(** A read of a month without a sheet: empty data for the three actions the
    guard names, an exception that nothing catches for the totals. *)
Lemma read_of_missing_month E e ss :
  isRead e = true ->
  findSheet ss (requestedSheet E e) = None ->
  doGet E e ss =
    if String.eqb (actionOf e) "getAllData" || String.eqb (actionOf e) "getTransactions"
       || String.eqb (actionOf e) "getStats"
    then (Ok emptyData, ss)
    else (Throw (TypeError "Cannot read properties of null (reading 'getRange')"), ss).
Proof.
  intros Hr Hs. rewrite doGet_read by exact Hr. cbv zeta. rewrite Hs.
  cbn [isNull andb].
  destruct (String.eqb (actionOf e) "getAllData") eqn:H1; [reflexivity|].
  destruct (String.eqb (actionOf e) "getTransactions") eqn:H2; [reflexivity|].
  destruct (String.eqb (actionOf e) "getStats") eqn:H3; [reflexivity|].
  reflexivity.
Qed.

(** C2 — a read addressed to a month without a sheet.  With February and
    March 2026 in the spreadsheet and January 2030 asked for, [getAllData],
    [getTransactions] and [getStats] answer with the empty data and write
    nothing; the default action (the totals) throws a TypeError that no
    handler catches, so the request has no response at all. *)
Theorem totals_of_missing_month_throw :
  let ss := [february; march] in
  doGet utcEngine (readRequest (Some "getAllData") "2030" "1") ss = (Ok emptyData, ss)
  /\ doGet utcEngine (readRequest (Some "getTransactions") "2030" "1") ss = (Ok emptyData, ss)
  /\ doGet utcEngine (readRequest (Some "getStats") "2030" "1") ss = (Ok emptyData, ss)
  /\ status emptyData = "success"
  /\ doGet utcEngine (readRequest None "2030" "1") ss
     = (Throw (TypeError "Cannot read properties of null (reading 'getRange')"), ss).
Proof.
  cbv zeta. repeat split; try (rewrite read_of_missing_month; reflexivity).
Qed.

(** ** Timestamps that are no date *)

Lemma getOrCreate_invalid_date E ss :
  getOrCreateMonthSheet E None ss
  = (Throw (Error "Invalid date parameter passed to getMonthSheetName: Invalid Date"), ss).
Proof. reflexivity. Qed.

Lemma timestampDate_malformed E ts :
  tsMatch ts = None -> Date_parse E ts = None -> timestampDate E (VStr ts) = Ok None.
Proof. intros Hm Hp. unfold timestampDate. now rewrite Hm, Hp. Qed.

(** C6 — a timestamp that neither fits the pattern DD/MM/YYYY HH:MM:SS nor
    reads as a date: addEntry, update and the POST path answer with status
    "error", and the spreadsheet is as it was (no row appended, overwritten
    or deleted, no sheet created). *)
Theorem malformed_timestamp_is_refused (E : Engine) (ts : string) :
  tsMatch ts = None ->
  Date_parse E ts = None ->
  (forall e ss, param_action e = Some "addEntry" -> param_timestamp e = Some ts ->
     exists msg, doGet E e ss = (Ok (Message "error" msg), ss))
  /\ (forall e ss, param_action e = Some "update" -> param_timestamp e = Some ts ->
     exists msg, doGet E e ss = (Ok (Message "error" msg), ss))
  /\ (forall data ss, timestamp data = VStr ts ->
     exists msg, doPost E (Parsed data) ss = (Ok (Message "error" msg), ss)).
Proof.
  intros Hm Hp. pose proof (timestampDate_malformed E ts Hm Hp) as Hd.
  split; [|split].
  - intros e ss Ha Ht. rewrite doGet_addEntry by exact Ha.
    unfold addEntryBranch, tryCatch, mbind, M_bind, bind, lift.
    rewrite Ht. cbn [paramValue]. rewrite Hd, getOrCreate_invalid_date.
    eexists. reflexivity.
  - intros e ss Ha Ht. rewrite doGet_update by exact Ha.
    unfold updateBranch.
    destruct (falsyNum _ || lt _ _ || negb _); [eexists; reflexivity|].
    unfold mbind at 1. unfold M_bind, bind, getSheetByName.
    destruct (isNull _); [eexists; reflexivity|].
    unfold tryCatch, mbind, M_bind, bind, lift.
    rewrite Ht. cbn [paramValue]. rewrite Hd. cbn [getMonthSheetName].
    eexists. reflexivity.
  - intros data ss Ht.
    unfold doPost, tryCatch, mbind, M_bind, bind, lift. cbn [JSON_parse].
    rewrite Ht, Hd, getOrCreate_invalid_date.
    eexists. reflexivity.
Qed.

Lemma malformed_timestamp_is_refused_sample :
  let ss := [february; march] in
  tsMatch "next tuesday" = None
  /\ Date_parse utcEngine "next tuesday" = None
  /\ (exists msg, doGet utcEngine
        (entryRequest "addEntry" None None "next tuesday" "5" "1" "1" "Food" "")
        ss = (Ok (Message "error" msg), ss))
  /\ (exists msg, doGet utcEngine
        (entryRequest "update" (Some "14") (Some "February 2026")
                      "next tuesday" "5" "1" "1" "Food" "")
        ss = (Ok (Message "error" msg), ss))
  /\ (exists msg, doPost utcEngine
        (Parsed {| timestamp := VStr "next tuesday"; vnd := VNum (ofZ 5);
                   eur := VNull; usd := VUndefined; category := VStr "Food";
                   note := VUndefined |})
        ss = (Ok (Message "error" msg), ss)).
Proof.
  cbv zeta. split; [reflexivity|]. split; [reflexivity|].
  destruct (malformed_timestamp_is_refused utcEngine "next tuesday" eq_refl eq_refl)
    as (Hadd & Hupd & Hpost).
  split; [|split]; [apply Hadd | apply Hupd | apply Hpost]; reflexivity.
Defined.

(** ** Creating a month sheet *)

Lemma findSheet_Some ss n h :
  findSheet ss n = Some h ->
  exists sh, ss !! h = Some sh /\ sheetName sh = n.
Proof.
  unfold findSheet. destruct (list_find _ ss) as [[i sh]|] eqn:Hf; [|discriminate].
  intros [= <-]. apply list_find_Some in Hf as (Hl & Hn & _). eauto.
Qed.

Lemma findSheet_app_new ss n sh :
  findSheet ss n = None -> sheetName sh = n ->
  findSheet (ss ++ [sh]) n = Some (length ss).
Proof.
  unfold findSheet. intros Hf Hn.
  destruct (list_find _ ss) as [[i x]|] eqn:Hs; [discriminate|].
  rewrite list_find_app_r by exact Hs. cbn.
  destruct (decide (sheetName sh = n)); [reflexivity | contradiction].
Qed.

Lemma findSheet_None_named ss n : findSheet ss n = None -> sheetsNamed n ss = 0%nat.
Proof.
  unfold findSheet, sheetsNamed. destruct (list_find _ ss) as [[i x]|] eqn:Hs; [discriminate|].
  intros _. apply list_find_None in Hs.
  induction Hs as [|sh l Hsh _ IH]; [reflexivity|].
  rewrite filter_cons_False by exact Hsh. exact IH.
Qed.

Lemma findSheet_Some_named ss n h : findSheet ss n = Some h -> (1 <= sheetsNamed n ss)%nat.
Proof.
  intros Hf. apply findSheet_Some in Hf as (sh & Hl & Hn).
  unfold sheetsNamed.
  assert (Hin : sh ∈ filter (fun sh => sheetName sh = n) ss).
  { apply list_elem_of_filter. split; [exact Hn|]. eapply list_elem_of_lookup_2, Hl. }
  destruct (filter _ ss); [inversion Hin | cbn; lia].
Qed.

(** The header goes to the range A1:K1, eleven cells wide, with ten values:
    [setValues] refuses the write, and [createMonthSheet] ends there, the
    sheet inserted and still empty. *)
Lemma createMonthSheet_throws n ss :
  findSheet ss n = None ->
  createMonthSheet n ss
  = (Throw (Exception "The number of columns in the data does not match the number of columns in the range. The data has 10 but the range has 11."),
     ss ++ [emptySheet n]).
Proof.
  intros Hf. unfold createMonthSheet.
  unfold mbind at 1. unfold M_bind, bind, insertSheet. rewrite Hf.
  unfold mbind at 1. unfold M_bind, bind, setUpHeaders.
  unfold mbind at 1. unfold M_bind, bind, setValues, setContents, writing.
  rewrite lookup_app_r by lia. rewrite Nat.sub_diag. reflexivity.
Qed.

(** The blocks after the header, run on a sheet of twelve empty rows, give
    the layout with the default budget of 1600 (its header row apart). *)
Lemma layout_blocks (n : string) :
  (setUpTotalsRow (Some 0%nat);; setUpSummaryBlock (Some 0%nat);;
   setUpBudgetRow (Some 0%nat))
    [{| sheetName := n; cells := replicate 12 [] |}]
  = (Ok tt, [{| sheetName := n; cells := <[0%nat := []]> (monthLayout (ofZ 1600)) |}]).
Proof. vm_compute. reflexivity. Qed.

Lemma getOrCreate_existing E date n h ss :
  getMonthSheetName E date = Ok n -> findSheet ss n = Some h ->
  getOrCreateMonthSheet E date ss = (Ok (Some h), ss).
Proof.
  intros Hn Hf. unfold getOrCreateMonthSheet, mbind, M_bind, bind, lift, getSheetByName.
  rewrite Hn, Hf. reflexivity.
Qed.

Lemma getOrCreate_missing E date n ss :
  getMonthSheetName E date = Ok n -> findSheet ss n = None ->
  getOrCreateMonthSheet E date ss
  = (Throw (Exception "The number of columns in the data does not match the number of columns in the range. The data has 10 but the range has 11."),
     ss ++ [emptySheet n]).
Proof.
  intros Hn Hf. unfold getOrCreateMonthSheet, mbind, M_bind, bind, lift, getSheetByName.
  rewrite Hn, Hf. cbn [isNull]. apply createMonthSheet_throws, Hf.
Qed.

(** C10 — asking for the sheet of a month a second time: whatever the first
    request found, after it there is a sheet of that name, the second
    request returns it and leaves the spreadsheet as it is, it is the sheet
    the first request returned if that one returned, and the number of
    sheets of that name is one where it was zero or one before: no
    duplicate is made. *)
Theorem getOrCreate_is_idempotent (E : Engine) (date : Date) (name : string)
    (ss : Spreadsheet) :
  getMonthSheetName E date = Ok name ->
  let ss1 := snd (getOrCreateMonthSheet E date ss) in
  exists h : nat,
    findSheet ss1 name = Some h
    /\ getOrCreateMonthSheet E date ss1 = (Ok (Some h), ss1)
    /\ (forall sheet, fst (getOrCreateMonthSheet E date ss) = Ok sheet -> sheet = Some h)
    /\ sheetsNamed name ss1 = Nat.max 1 (sheetsNamed name ss).
Proof.
  intros Hn. cbv zeta.
  destruct (findSheet ss name) as [h|] eqn:Hf.
  - rewrite (getOrCreate_existing E date name h ss Hn Hf). cbn [fst snd].
    exists h. repeat split.
    + exact Hf.
    + apply (getOrCreate_existing E date name h ss Hn Hf).
    + now intros sheet [= <-].
    + pose proof (findSheet_Some_named ss name h Hf). lia.
  - rewrite (getOrCreate_missing E date name ss Hn Hf). cbn [fst snd].
    assert (Hnew : findSheet (ss ++ [emptySheet name]) name = Some (length ss))
      by (apply findSheet_app_new; [exact Hf | reflexivity]).
    exists (length ss). repeat split.
    + exact Hnew.
    + apply (getOrCreate_existing E date name _ _ Hn Hnew).
    + intros sheet [=].
    + unfold sheetsNamed. rewrite filter_app, length_app.
      fold (sheetsNamed name ss). rewrite (findSheet_None_named ss name Hf).
      rewrite filter_cons_True by reflexivity. reflexivity.
Qed.

Lemma getOrCreate_is_idempotent_sample :
  getMonthSheetName utcEngine (Some 1775001600000) = Ok "April 2026"
  /\ exists h : nat,
    let ss1 := snd (getOrCreateMonthSheet utcEngine (Some 1775001600000) [february; march]) in
    findSheet ss1 "April 2026" = Some h
    /\ getOrCreateMonthSheet utcEngine (Some 1775001600000) ss1 = (Ok (Some h), ss1)
    /\ sheetsNamed "April 2026" ss1 = 1%nat.
Proof.
  split; [reflexivity|].
  destruct (getOrCreate_is_idempotent utcEngine (Some 1775001600000) "April 2026"
              [february; march] eq_refl) as (h & Hfind & Hagain & _ & Hcount).
  exists h. cbv zeta. repeat split; assumption.
Defined.

(** ** Grids *)

Lemma cellAt_delete_above (g : Grid) (k r c : nat) :
  (r < k)%nat -> (1 <= r)%nat ->
  cellAt (delete (pred k) g) r c = cellAt g r c.
Proof.
  intros Hr H1. unfold cellAt. rewrite list_lookup_delete_lt by lia. reflexivity.
Qed.

Lemma cellAt_delete_below (g : Grid) (k r c : nat) :
  (1 <= k)%nat -> (k < r)%nat ->
  cellAt (delete (pred k) g) (r - 1) c = cellAt g r c.
Proof.
  intros Hk Hr. unfold cellAt. rewrite list_lookup_delete_ge by lia.
  replace (S (pred (r - 1))) with (pred r) by lia. reflexivity.
Qed.

Lemma writeRow_inside (g : Grid) (r c : nat) (xs : list content) :
  (r <= length g)%nat ->
  writeRow g r c xs = alter (writeCells c xs) (pred r) g.
Proof.
  intros Hr. unfold writeRow.
  replace (r - length g)%nat with 0%nat by lia. cbn [replicate].
  now rewrite app_nil_r.
Qed.

Lemma length_writeRow_inside (g : Grid) (r c : nat) (xs : list content) :
  (r <= length g)%nat -> length (writeRow g r c xs) = length g.
Proof. intros Hr. rewrite writeRow_inside by exact Hr. apply length_alter. Qed.

(** The first cells of a row after a write from column 1. *)
Lemma cellOf_writeCells_new (xs row : list content) (c : nat) :
  (1 <= c <= length xs)%nat ->
  cellOf (writeCells 1 xs row) c = default blank (xs !! pred c).
Proof.
  intros Hc. unfold cellOf, writeCells.
  change (pred 1) with 0%nat. rewrite take_0, app_nil_l.
  rewrite lookup_app_l by lia. reflexivity.
Qed.

(** The cells after them stay. *)
Lemma cellOf_writeCells_old (xs row : list content) (c : nat) :
  (length xs < c)%nat ->
  cellOf (writeCells 1 xs row) c = cellOf row c.
Proof.
  intros Hc. unfold cellOf, writeCells.
  change (pred 1) with 0%nat. rewrite take_0, app_nil_l, Nat.add_0_l.
  rewrite lookup_app_r by lia. rewrite lookup_drop.
  replace (length xs + (pred c - length xs))%nat with (pred c) by lia.
  destruct (Nat.lt_ge_cases (pred c) (length row)) as [Hin|Hout].
  - now rewrite lookup_app_l by exact Hin.
  - rewrite lookup_app_r by exact Hout.
    rewrite (lookup_ge_None_2 row) by exact Hout.
    destruct (replicate _ blank !! _) eqn:Hrep; [|reflexivity].
    apply lookup_replicate in Hrep as [-> _]. reflexivity.
Qed.

Lemma cellAt_writeRow_other (g : Grid) (r r' c' : nat) (xs : list content) :
  (1 <= r <= length g)%nat -> (1 <= r')%nat -> r' <> r ->
  cellAt (writeRow g r 1 xs) r' c' = cellAt g r' c'.
Proof.
  intros Hr Hr' Hne. rewrite writeRow_inside by lia.
  unfold cellAt. rewrite list_lookup_alter_ne by lia. reflexivity.
Qed.

Lemma cellAt_writeRow_new (g : Grid) (r c : nat) (xs : list content) :
  (1 <= r <= length g)%nat -> (1 <= c <= length xs)%nat ->
  cellAt (writeRow g r 1 xs) r c = default blank (xs !! pred c).
Proof.
  intros Hr Hc. rewrite writeRow_inside by lia.
  unfold cellAt. rewrite list_lookup_alter_eq.
  destruct (g !! pred r) as [row|] eqn:Hrow.
  - cbn. apply cellOf_writeCells_new, Hc.
  - apply lookup_ge_None in Hrow. lia.
Qed.

Lemma cellAt_writeRow_old (g : Grid) (r c : nat) (xs : list content) :
  (1 <= r <= length g)%nat -> (length xs < c)%nat ->
  cellAt (writeRow g r 1 xs) r c = cellAt g r c.
Proof.
  intros Hr Hc. rewrite writeRow_inside by lia.
  unfold cellAt. rewrite list_lookup_alter_eq.
  destruct (g !! pred r) as [row|] eqn:Hrow.
  - cbn. apply cellOf_writeCells_old, Hc.
  - apply lookup_ge_None in Hrow. lia.
Qed.

(** ** Writes through a sheet reference *)

Lemma writing_throws_unchanged method sheet f ss e ss' :
  writing method sheet f ss = (Throw e, ss') -> ss' = ss.
Proof.
  unfold writing. destruct sheet as [h|]; [|now intros [= _ <-]].
  destruct (ss !! h) as [sh|]; [|now intros [= _ <-]].
  destruct (f (cells sh)); [discriminate | now intros [= _ <-]].
Qed.

Lemma deleteRow_runs (ss : Spreadsheet) (h : nat) (sh : Sheet) (row : number) (r : Z) :
  ss !! h = Some sh -> toInteger row = Some r ->
  1 <= r <= Z.of_nat (length (cells sh)) ->
  deleteRow (Some h) row ss
  = (Ok tt, <[h := withCells sh (delete (pred (Z.to_nat r)) (cells sh))]> ss).
Proof.
  intros Hsh Hr Hin. unfold deleteRow, writing. rewrite Hsh, Hr.
  unfold deleteRowAt.
  replace (1 <=? Z.to_nat r)%nat with true by (symmetry; apply Nat.leb_le; lia).
  replace (Z.to_nat r <=? length (cells sh))%nat with true
    by (symmetry; apply Nat.leb_le; lia).
  reflexivity.
Qed.

Lemma given_paramStr (o : option string) :
  given o = true -> o = Some (paramStr o).
Proof. destruct o; [reflexivity | discriminate]. Qed.

(** ** Deleting a row *)

Lemma deleteBranch_error_unchanged E e ss msg ss' :
  deleteBranch E e ss = (Ok (Message "error" msg), ss') -> ss' = ss.
Proof.
  unfold deleteBranch.
  destruct (falsyNum _ || lt _ _ || negb _); [now intros [= _ <-]|].
  unfold mbind at 1. unfold M_bind, bind, getSheetByName.
  destruct (isNull _); [now intros [= _ <-]|].
  unfold tryCatch, mbind, M_bind, bind.
  destruct (deleteRow _ _ ss) as [[[]|er] ss1] eqn:Hdel.
  - intros [=].
  - apply writing_throws_unchanged in Hdel as ->. now intros [= _ <-].
Qed.

Lemma deleteBranch_runs (E : Engine) (e : Params) (ss : Spreadsheet)
    (r : Z) (h : nat) (sh : Sheet) :
  toInteger (parseInt (paramStr (param_row e))) = Some r ->
  3 <= r <= Z.of_nat (length (cells sh)) ->
  given (param_sheetName e) = true ->
  findSheet ss (paramStr (param_sheetName e)) = Some h ->
  ss !! h = Some sh ->
  deleteBranch E e ss
  = (Ok (Message "success"
           ("Deleted row " +:+ NumberToString E (parseInt (paramStr (param_row e)))
            +:+ " from " +:+ paramStr (param_sheetName e))),
     <[h := withCells sh (delete (pred (Z.to_nat r)) (cells sh))]> ss).
Proof.
  intros Hr Hin Hgiven Hf Hsh. unfold deleteBranch.
  rewrite (row_test _ r Hr), Hgiven.
  replace (r <? 3) with false by (symmetry; apply Z.ltb_ge; lia).
  cbn [orb negb].
  unfold mbind at 1. unfold M_bind, bind, getSheetByName. rewrite Hf.
  cbn [isNull]. unfold tryCatch, mbind, M_bind, bind.
  rewrite (deleteRow_runs ss h sh _ r Hsh Hr) by lia.
  reflexivity.
Qed.

(** C5 — a delete request.  A row below 3 (or no row, or no sheet name),
    a row that is no integer, a sheet name that names no sheet, and a row
    past the end of the grid give status "error", and an error never comes
    with a change of the spreadsheet.  With a row from 3 on that lies in
    the grid of a sheet that is found, that row is removed: the rows above
    it stay where they are and every row below it, so every transaction at
    an index r' > r, is afterwards one index lower. *)
Theorem delete_request (E : Engine) (e : Params) (ss : Spreadsheet) :
  param_action e = Some "delete" ->
  let row := parseInt (paramStr (param_row e)) in
  let name := paramStr (param_sheetName e) in
  (forall r : Z, toInteger row = Some r -> r < 3 ->
     doGet E e ss = (Ok (Message "error" "Invalid parameters for delete"), ss))
  /\ (isNaN row = true \/ given (param_sheetName e) = false ->
     doGet E e ss = (Ok (Message "error" "Invalid parameters for delete"), ss))
  /\ (toInteger row = None ->
     exists msg, doGet E e ss = (Ok (Message "error" msg), ss))
  /\ (findSheet ss name = None ->
     exists msg, doGet E e ss = (Ok (Message "error" msg), ss))
  /\ (forall (r : Z) (h : nat) (sh : Sheet),
     toInteger row = Some r -> findSheet ss name = Some h -> ss !! h = Some sh ->
     Z.of_nat (length (cells sh)) < r ->
     exists msg, doGet E e ss = (Ok (Message "error" msg), ss))
  /\ (forall msg ss', doGet E e ss = (Ok (Message "error" msg), ss') -> ss' = ss)
  /\ (forall (r : Z) (h : nat) (sh : Sheet),
     toInteger row = Some r -> 3 <= r ->
     given (param_sheetName e) = true ->
     findSheet ss name = Some h -> ss !! h = Some sh ->
     r <= Z.of_nat (length (cells sh)) ->
     let g' := delete (pred (Z.to_nat r)) (cells sh) in
     doGet E e ss
     = (Ok (Message "success" ("Deleted row " +:+ NumberToString E row +:+ " from " +:+ name)),
        <[h := withCells sh g']> ss)
     /\ (forall r' c : nat, (1 <= r' < Z.to_nat r)%nat ->
           cellAt g' r' c = cellAt (cells sh) r' c)
     /\ (forall r' c : nat, (Z.to_nat r < r')%nat ->
           cellAt g' (r' - 1) c = cellAt (cells sh) r' c)
     /\ length g' = (length (cells sh) - 1)%nat).
Proof.
  intros Ha. cbv zeta. rewrite doGet_delete by exact Ha.
  split; [|split; [|split; [|split; [|split; [|split]]]]].
  - intros r Hr Hlt. unfold deleteBranch.
    rewrite (row_test _ r Hr).
    replace (r <? 3) with true by (symmetry; apply Z.ltb_lt; lia).
    reflexivity.
  - intros [Hnan | Hname]; unfold deleteBranch.
    + destruct (parseInt _); try discriminate. reflexivity.
    + rewrite Hname. cbn [negb]. now rewrite orb_true_r.
  - intros Hr. unfold deleteBranch.
    destruct (falsyNum _ || lt _ _ || negb _); [eexists; reflexivity|].
    unfold mbind at 1. unfold M_bind, bind, getSheetByName.
    destruct (findSheet ss _) as [h|]; [|eexists; reflexivity].
    cbn [isNull]. unfold tryCatch, mbind, M_bind, bind, deleteRow, writing.
    destruct (ss !! h) as [sh|]; [|eexists; reflexivity].
    rewrite Hr. eexists; reflexivity.
  - intros Hf. unfold deleteBranch.
    destruct (falsyNum _ || lt _ _ || negb _); [eexists; reflexivity|].
    unfold mbind, M_bind, bind, getSheetByName. rewrite Hf.
    eexists; reflexivity.
  - intros r h sh Hr Hf Hsh Hout. unfold deleteBranch.
    destruct (falsyNum _ || lt _ _ || negb _); [eexists; reflexivity|].
    unfold mbind at 1. unfold M_bind, bind, getSheetByName. rewrite Hf.
    cbn [isNull]. unfold tryCatch, mbind, M_bind, bind, deleteRow, writing.
    rewrite Hsh, Hr. unfold deleteRowAt.
    replace (Z.to_nat r <=? length (cells sh))%nat with false
      by (symmetry; apply Nat.leb_gt; lia).
    rewrite andb_false_r. eexists; reflexivity.
  - apply deleteBranch_error_unchanged.
  - intros r h sh Hr Hge Hgiven Hf Hsh Hin.
    split; [|split; [|split]].
    + apply (deleteBranch_runs E e ss r h sh); auto with zarith.
    + intros r' c Hr'. apply cellAt_delete_above; lia.
    + intros r' c Hr'. apply cellAt_delete_below; lia.
    + rewrite length_delete; [reflexivity|].
      apply lookup_lt_is_Some. lia.
Qed.

Lemma delete_request_sample :
  let e := deleteRequest "14" "February 2026" in
  let ss := [february; march] in
  param_action e = Some "delete"
  /\ toInteger (parseInt "14") = Some 14
  /\ exists g',
       doGet utcEngine e ss
       = (Ok (Message "success" "Deleted row 14 from February 2026"),
          [withCells february g'; march])
       /\ cellAt g' 13 1 = Lit (VStr "03/02/2026 09:15:00")
       /\ cellAt g' 14 1 = Lit (VStr "21/02/2026 12:00:00")
       /\ length g' = 19%nat.
Proof.
  cbv zeta. split; [reflexivity|]. split; [reflexivity|].
  destruct (delete_request utcEngine (deleteRequest "14" "February 2026")
              [february; march] eq_refl) as (_ & _ & _ & _ & _ & _ & Hok).
  destruct (Hok 14 0%nat february eq_refl ltac:(lia) eq_refl eq_refl eq_refl
              ltac:(vm_compute; discriminate)) as (Hrun & Habove & Hbelow & Hlen).
  eexists. split; [exact Hrun|]. split; [|split].
  - etransitivity; [exact (Habove 13%nat 1%nat ltac:(cbn; lia)) | reflexivity].
  - etransitivity; [exact (Hbelow 15%nat 1%nat ltac:(cbn; lia)) | reflexivity].
  - exact Hlen.
Defined.

(** A row from 3 on of a sheet that is found, and yet no row is removed:
    February has a grid of 20 rows, the delete of row 25 is refused by
    [deleteRow], and the request is answered with the error of the
    [catch]. *)
Lemma delete_past_the_grid_removes_nothing :
  let e := deleteRequest "25" "February 2026" in
  let ss := [february; march] in
  toInteger (parseInt (paramStr (param_row e))) = Some 25
  /\ findSheet ss (paramStr (param_sheetName e)) = Some 0%nat
  /\ length (cells february) = 20%nat
  /\ doGet utcEngine e ss
     = (Ok (Message "error" "Delete failed: Exception: Those rows are out of bounds."), ss).
Proof. cbv zeta. repeat split. Qed.

(** ** Updating a row in place *)

Lemma setValues_row_runs (ss : Spreadsheet) (h : nat) (sh : Sheet) (r : nat)
    (vs : list value) :
  ss !! h = Some sh -> length vs = 6%nat ->
  setValues (Some h) {| rRow := r; rCol := 1; numRows := 1; numCols := 6 |} [vs] ss
  = (Ok tt, <[h := withCells sh (writeRow (cells sh) r 1 (map Lit vs))]> ss).
Proof.
  intros Hsh Hlen. unfold setValues, setContents, writing. rewrite Hsh.
  cbn [map length numRows numCols Nat.eqb negb list_find].
  destruct (decide (length (map Lit vs) <> 6%nat)) as [Hbad|_].
  - exfalso. apply Hbad. now rewrite length_map.
  - reflexivity.
Qed.

(** C4 — an update whose new timestamp falls in the month of the sheet the
    row lives in.  The six cells of that row are overwritten with the
    fields of the request: the timestamp as the text it came as, the three
    amounts as the numbers [parseFloat] reads (0 for an amount that is
    missing, no number or 0), category and note as the texts they came as
    (empty when missing).  The row keeps its index and its sheet, the other
    cells of the row and all other rows of the sheet are as before, and so
    is every other sheet. *)
Theorem update_in_place (E : Engine) (e : Params) (ss : Spreadsheet)
    (ts : string) (r : Z) (h : nat) (sh : Sheet) (date : Date) :
  param_action e = Some "update" ->
  param_timestamp e = Some ts ->
  toInteger (parseInt (paramStr (param_row e))) = Some r ->
  3 <= r <= Z.of_nat (length (cells sh)) ->
  given (param_sheetName e) = true ->
  findSheet ss (paramStr (param_sheetName e)) = Some h ->
  ss !! h = Some sh ->
  timestampDate E (VStr ts) = Ok date ->
  getMonthSheetName E date = Ok (paramStr (param_sheetName e)) ->
  let row := Z.to_nat r in
  let fields :=
    [Lit (VStr ts);
     Lit (VNum (amountVND e)); Lit (VNum (amountEUR e)); Lit (VNum (amountUSD e));
     Lit (VStr (orStr (param_category e) "")); Lit (VStr (orStr (param_note e) ""))] in
  let g' := writeRow (cells sh) row 1 fields in
  doGet E e ss
  = (Ok (Message "success"
           ("Updated row " +:+ NumberToString E (parseInt (paramStr (param_row e))))),
     <[h := withCells sh g']> ss)
  /\ map (cellAt g' row) [1; 2; 3; 4; 5; 6]%nat = fields
  /\ (forall c : nat, (6 < c)%nat -> cellAt g' row c = cellAt (cells sh) row c)
  /\ (forall r' c : nat, (1 <= r')%nat -> r' <> row ->
        cellAt g' r' c = cellAt (cells sh) r' c)
  /\ length g' = length (cells sh)
  /\ sheetName (withCells sh g') = sheetName sh
  /\ (forall h' : nat, h' <> h -> (<[h := withCells sh g']> ss) !! h' = ss !! h').
Proof.
  intros Ha Hts Hr Hin Hgiven Hf Hsh Hdate Hname. cbv zeta.
  assert (Hrow : (1 <= Z.to_nat r <= length (cells sh))%nat) by lia.
  split; [|split; [|split; [|split; [|split; [|split]]]]].
  - rewrite doGet_update by exact Ha. unfold updateBranch.
    rewrite (row_test _ r Hr), Hgiven.
    replace (r <? 3) with false by (symmetry; apply Z.ltb_ge; lia).
    cbn [orb negb].
    unfold mbind at 1. unfold M_bind, bind, getSheetByName. rewrite Hf.
    cbn [isNull]. unfold tryCatch.
    unfold mbind at 1. unfold M_bind, bind, lift.
    rewrite Hts. cbn [paramValue]. rewrite Hdate.
    unfold mbind at 1. unfold M_bind, bind, lift. rewrite Hname.
    rewrite String.eqb_refl. cbn [negb]. rewrite Hr.
    unfold mbind, M_bind, bind.
    rewrite (setValues_row_runs ss h sh _ (rowOf e) Hsh) by reflexivity.
    unfold rowOf. rewrite Hts. reflexivity.
  - cbn [map].
    rewrite !cellAt_writeRow_new by (cbn [length]; lia).
    reflexivity.
  - intros c Hc. apply cellAt_writeRow_old; [lia | cbn [length]; lia].
  - intros r' c Hr' Hne. apply cellAt_writeRow_other; lia.
  - apply length_writeRow_inside. lia.
  - reflexivity.
  - intros h' Hne. apply list_lookup_insert_ne. congruence.
Qed.

Lemma update_in_place_sample :
  let e := entryRequest "update" (Some "14") (Some "February 2026")
             "11/02/2026 18:40:10" "5" "43.5" "" "Travel" "night train" in
  let ss := [february; march] in
  timestampDate utcEngine (VStr "11/02/2026 18:40:10") = Ok (Some 1770835210000)
  /\ getMonthSheetName utcEngine (Some 1770835210000) = Ok "February 2026"
  /\ cellAt (cells february) 14 2 = Lit (VNum zero)
  /\ cellAt (cells february) 14 6 = Lit (VStr "train")
  /\ exists g',
       doGet utcEngine e ss
       = (Ok (Message "success" "Updated row 14"), [withCells february g'; march])
       /\ map (cellAt g' 14) [1; 2; 3; 4; 5; 6]%nat
          = [Lit (VStr "11/02/2026 18:40:10");
             Lit (VNum (ofZ 5)); Lit (VNum (div (ofZ 87) (ofZ 2))); Lit (VNum zero);
             Lit (VStr "Travel"); Lit (VStr "night train")]
       /\ cellAt g' 13 1 = Lit (VStr "03/02/2026 09:15:00")
       /\ length g' = 20%nat.
Proof.
  cbv zeta. split; [reflexivity|]. split; [reflexivity|].
  split; [reflexivity|]. split; [reflexivity|].
  destruct (update_in_place utcEngine
              (entryRequest "update" (Some "14") (Some "February 2026")
                 "11/02/2026 18:40:10" "5" "43.5" "" "Travel" "night train")
              [february; march] "11/02/2026 18:40:10" 14 0%nat february
              (Some 1770835210000)
              eq_refl eq_refl eq_refl ltac:(vm_compute; split; discriminate)
              eq_refl eq_refl eq_refl eq_refl eq_refl)
    as (Hrun & Hcells & _ & Hother & Hlen & _).
  eexists. split; [exact Hrun|]. split; [|split].
  - etransitivity; [exact Hcells|]. vm_compute. reflexivity.
  - etransitivity; [exact (Hother 13%nat 1%nat ltac:(lia) ltac:(cbn; lia)) | reflexivity].
  - exact Hlen.
Defined.

(** ** Reading through a sheet reference *)

Lemma reading_runs {A} method (ss : Spreadsheet) (h : nat) (sh : Sheet) (f : Sheet -> A) :
  ss !! h = Some sh -> reading method (Some h) f ss = (Ok (f sh), ss).
Proof. intros Hsh. unfold reading. now rewrite Hsh. Qed.

Lemma length_valuesIn (g : Grid) (rg : Range) :
  length (valuesIn g rg) = numRows rg.
Proof. unfold valuesIn. now rewrite length_map, length_seq. Qed.

Lemma at2_valuesIn (g : Grid) (rg : Range) (i k : nat) :
  (i < numRows rg)%nat -> (k < numCols rg)%nat ->
  at2 (valuesIn g rg) i k = valueAt g (rRow rg + i) (rCol rg + k).
Proof.
  intros Hi Hk. unfold at2, valuesIn.
  rewrite (nth_lookup_Some _ i _
             (map (fun j => valueAt g (rRow rg + i) (rCol rg + j)) (seq 0 (numCols rg)))).
  - apply nth_lookup_Some.
    change (map ?f ?l) with (f <$> l).
    rewrite list_lookup_fmap, lookup_seq_lt by exact Hk. reflexivity.
  - change (map ?f ?l) with (f <$> l).
    rewrite list_lookup_fmap, lookup_seq_lt by exact Hi. reflexivity.
Qed.

(** ** The transaction list *)

Lemma transactionAt_row (E : Engine) (name : string) (g : Grid) (i : nat) :
  (i < Nat.max 1 (lastRow g))%nat ->
  transactionAt E name (valuesIn g (dataRange g)) i
  = if truthy (valueAt g (S i) 1)
    then t ← transactionOfRow E name g (S i); Ok (Some t)
    else Ok None.
Proof.
  intros Hi. unfold transactionAt, transactionOfRow.
  rewrite !at2_valuesIn by (cbn [dataRange numRows numCols]; lia).
  cbn [dataRange rRow rCol Nat.add].
  destruct (truthy (valueAt g (S i) 1)); [|reflexivity].
  cbn [negb]. unfold mbind, result_bind.
  destruct (toISO E (valueAt g (S i) 1)); [|reflexivity].
  now rewrite Nat.add_1_r.
Qed.

(** The loop from index [n + 1] down lists the rows 3 to [n + 2] that have
    a timestamp, last row first. *)
Lemma transactionsFrom_rows (E : Engine) (name : string) (g : Grid) (n : nat) :
  (n <= Nat.max 1 (lastRow g) - 2)%nat ->
  transactionsFrom E name (valuesIn g (dataRange g)) n
  = mapM (transactionOfRow E name g)
         (reverse (filter (fun r => truthy (valueAt g r 1) = true) (seq 3 n))).
Proof.
  induction n as [|n IH]; intros Hn; [reflexivity|].
  cbn [transactionsFrom].
  rewrite transactionAt_row by lia. rewrite IH by lia.
  rewrite seq_S, filter_app, reverse_app.
  change (3 + n)%nat with (S (S (S n))).
  destruct (truthy (valueAt g (S (S (S n))) 1)) eqn:Ht.
  - rewrite filter_cons_True by exact Ht. rewrite filter_nil.
    cbn [reverse rev_append app mapM].
    unfold mbind, mret, result_bind, result_ret.
    destruct (transactionOfRow E name g (S (S (S n)))); [|reflexivity].
    destruct (mapM _ _); reflexivity.
  - rewrite filter_cons_False by (rewrite Ht; discriminate). rewrite filter_nil.
    cbn [reverse rev_append app].
    unfold mbind, result_bind.
    destruct (mapM _ _); reflexivity.
Qed.

Lemma transactionsFrom_sheet (E : Engine) (name : string) (g : Grid) :
  transactionsFrom E name (valuesIn g (dataRange g))
                   (length (valuesIn g (dataRange g)) - 2)
  = mapM (transactionOfRow E name g) (reverse (transactionRows g)).
Proof.
  rewrite length_valuesIn. cbn [dataRange numRows].
  rewrite transactionsFrom_rows by lia. unfold transactionRows.
  replace (Nat.max 1 (lastRow g) - 2)%nat with (lastRow g - 2)%nat by lia.
  reflexivity.
Qed.

Lemma readTransactions_lists (E : Engine) (ss : Spreadsheet) (h : nat) (sh : Sheet) :
  ss !! h = Some sh ->
  readTransactions E (Some h) ss = (listed E sh, ss).
Proof.
  intros Hsh. unfold readTransactions, getDataRangeValues, getName.
  unfold mbind, M_bind, bind, lift.
  rewrite !(reading_runs _ ss h sh) by exact Hsh.
  fold (dataRange (cells sh)). now rewrite transactionsFrom_sheet.
Qed.

Lemma readStats_runs (E : Engine) (ss : Spreadsheet) (h : nat) (sh : Sheet) :
  ss !! h = Some sh ->
  readStats E (Some h) ss = (Ok (summaryOf E (cells sh)), ss).
Proof.
  intros Hsh. unfold readStats, getValues, getValue.
  unfold mbind, mret, M_bind, M_ret, bind, ret.
  rewrite !(reading_runs _ ss h sh) by exact Hsh. reflexivity.
Qed.

Lemma getTransactionHistory_runs (E : Engine) (ss : Spreadsheet) (h : nat) (sh : Sheet) :
  ss !! h = Some sh ->
  getTransactionHistory E (Some h) ss = (readResponse E "getTransactions" sh, ss).
Proof.
  intros Hsh. unfold getTransactionHistory.
  unfold mbind at 1. unfold M_bind, bind.
  rewrite (readTransactions_lists E ss h sh Hsh).
  unfold readResponse. cbn [String.eqb Ascii.eqb Bool.eqb].
  destruct (listed E sh); reflexivity.
Qed.

Lemma getStatsData_runs (E : Engine) (ss : Spreadsheet) (h : nat) (sh : Sheet) :
  ss !! h = Some sh ->
  getStatsData E (Some h) ss = (readResponse E "getStats" sh, ss).
Proof.
  intros Hsh. unfold getStatsData.
  unfold mbind at 1. unfold M_bind, bind.
  rewrite (readStats_runs E ss h sh Hsh).
  unfold readResponse. cbn [String.eqb Ascii.eqb Bool.eqb].
  destruct (summaryOf E (cells sh)); reflexivity.
Qed.

Lemma getMonthlyTotals_runs (ss : Spreadsheet) (h : nat) (sh : Sheet) (E : Engine) :
  ss !! h = Some sh ->
  getMonthlyTotals (Some h) ss = (readResponse E "default" sh, ss).
Proof.
  intros Hsh. unfold getMonthlyTotals, getValue.
  unfold mbind, mret, M_bind, M_ret, bind, ret.
  rewrite !(reading_runs _ ss h sh) by exact Hsh. reflexivity.
Qed.

Lemma getAllData_runs (E : Engine) (ss : Spreadsheet) (h : nat) (sh : Sheet) :
  ss !! h = Some sh ->
  getAllData E (Some h) ss = (readResponse E "getAllData" sh, ss).
Proof.
  intros Hsh. unfold getAllData, getDataRangeValues, getValue, getName.
  unfold mbind at 1 2 3 4 5 6. unfold M_bind, bind, lift.
  rewrite !(reading_runs _ ss h sh) by exact Hsh.
  fold (dataRange (cells sh)). rewrite transactionsFrom_sheet. fold (listed E sh).
  unfold readResponse. cbn [String.eqb Ascii.eqb Bool.eqb].
  destruct (listed E sh) as [transactions|er]; [|reflexivity].
  unfold mbind, M_bind, bind. rewrite (readStats_runs E ss h sh Hsh).
  destruct (summaryOf E (cells sh)); reflexivity.
Qed.

(** A read of a month that has a sheet answers from that sheet and writes
    nothing. *)
Lemma read_of_month (E : Engine) (e : Params) (ss : Spreadsheet) (h : nat) (sh : Sheet) :
  isRead e = true ->
  findSheet ss (requestedSheet E e) = Some h -> ss !! h = Some sh ->
  doGet E e ss = (readResponse E (actionOf e) sh, ss).
Proof.
  intros Hr Hf Hsh. rewrite doGet_read by exact Hr. cbv zeta. rewrite Hf.
  cbn [isNull andb]. unfold readResponse.
  destruct (String.eqb (actionOf e) "getAllData") eqn:H1.
  { apply String.eqb_eq in H1. rewrite (getAllData_runs E ss h sh Hsh).
    unfold readResponse. reflexivity. }
  destruct (String.eqb (actionOf e) "getTransactions") eqn:H2.
  { rewrite (getTransactionHistory_runs E ss h sh Hsh). reflexivity. }
  destruct (String.eqb (actionOf e) "getStats") eqn:H3.
  { rewrite (getStatsData_runs E ss h sh Hsh). reflexivity. }
  rewrite (getMonthlyTotals_runs ss h sh E Hsh). reflexivity.
Qed.

Lemma mapM_txRow (E : Engine) (name : string) (g : Grid) (rows : list nat)
    (transactions : list Transaction) :
  mapM (transactionOfRow E name g) rows = Ok transactions ->
  map txRow transactions = rows
  /\ Forall (fun t => txSheetName t = name) transactions.
Proof.
  revert transactions. induction rows as [|r rows IH]; intros transactions.
  - intros [= <-]. split; [reflexivity | constructor].
  - cbn [mapM]. unfold mbind, mret, result_bind, result_ret.
    destruct (transactionOfRow E name g r) as [t|] eqn:Ht; [|discriminate].
    destruct (mapM _ rows) as [rest|] eqn:Hrest; [|discriminate].
    intros [= <-]. destruct (IH rest eq_refl) as [Hrows Hnames].
    unfold transactionOfRow, mbind, result_bind in Ht.
    destruct (toISO E _); [|discriminate]. injection Ht as <-.
    split; [cbn; now rewrite Hrows | constructor; [reflexivity | exact Hnames]].
Qed.

Lemma transactionRows_descending (g : Grid) :
  StronglySorted (fun a b => (b < a)%nat) (reverse (transactionRows g)).
Proof.
  unfold transactionRows. generalize (lastRow g - 2)%nat as n.
  induction n as [|n IH]; [constructor|].
  rewrite seq_S, filter_app, reverse_app.
  destruct (decide (truthy (valueAt g (3 + n) 1) = true)) as [Ht|Ht].
  - rewrite filter_cons_True by exact Ht. rewrite filter_nil.
    cbn [reverse rev_append app]. constructor; [exact IH|].
    apply Forall_forall. intros r Hr.
    apply elem_of_reverse, list_elem_of_filter in Hr as [_ Hr].
    apply elem_of_seq in Hr. lia.
  - rewrite filter_cons_False by exact Ht. rewrite filter_nil. exact IH.
Qed.

Lemma transactionRows_spec (g : Grid) (r : nat) :
  r ∈ transactionRows g
  <-> (3 <= r <= lastRow g)%nat /\ truthy (valueAt g r 1) = true.
Proof.
  unfold transactionRows. rewrite list_elem_of_filter, elem_of_seq.
  split; intros [H1 H2]; split; try assumption; lia.
Qed.

Lemma isRead_action (e : Params) (a : string) :
  actionOf e = a ->
  isRead e = negb (String.eqb a "delete" || String.eqb a "update"
                   || String.eqb a "addEntry" || String.eqb a "updateBudget").
Proof. intros <-. reflexivity. Qed.



(** ** Grids that show the same content *)

Lemma cellOf_blank_row (row : list content) (c : nat) :
  rowBlank row = true -> cellOf row c = blank.
Proof.
  unfold rowBlank, cellOf. intros Hb.
  destruct (row !! pred c) as [x|] eqn:Hx; [|reflexivity].
  cbn. rewrite forallb_forall in Hb.
  assert (Hx' : isBlank x = true).
  { apply Hb. apply list_elem_of_In. eapply list_elem_of_lookup_2, Hx. }
  destruct x as [[| | | |[|]|]|]; try discriminate. reflexivity.
Qed.

Lemma lastRow_le_length (g : Grid) : (lastRow g <= length g)%nat.
Proof.
  induction g as [|row g IH]; [reflexivity|].
  cbn [lastRow length]. destruct (lastRow g); [destruct (rowBlank row)|]; lia.
Qed.

(** Below the last row with content every row is blank. *)
Lemma blank_below_lastRow (g : Grid) (i : nat) (row : list content) :
  (lastRow g <= i)%nat -> g !! i = Some row -> rowBlank row = true.
Proof.
  revert i. induction g as [|row0 g IH]; intros i Hi Hrow; [discriminate|].
  cbn [lastRow] in Hi. destruct i as [|i].
  - injection Hrow as ->.
    destruct (lastRow g); [|lia]. destruct (rowBlank row); [reflexivity | lia].
  - cbn in Hrow. apply (IH i); [|exact Hrow].
    destruct (lastRow g); [|lia]. lia.
Qed.

Lemma lastRow_delete_below (g : Grid) (k : nat) :
  (lastRow g <= k)%nat -> lastRow (delete k g) = lastRow g.
Proof.
  revert k. induction g as [|row g IH]; intros k Hk; [now destruct k|].
  cbn [lastRow] in Hk. destruct k as [|k].
  - cbn [delete list_delete lastRow].
    destruct (lastRow g); [|lia]. destruct (rowBlank row); [reflexivity | lia].
  - cbn [delete list_delete lastRow]. rewrite IH; [reflexivity|].
    destruct (lastRow g); lia.
Qed.

Lemma omap_delete_None {A B} (F : A -> option B) (l : list A) (j : nat) :
  (forall x, l !! j = Some x -> F x = None) ->
  omap F (delete j l) = omap F l.
Proof.
  revert j. induction l as [|x l IH]; intros j Hj; [now destruct j|].
  destruct j as [|j].
  - cbn. now rewrite (Hj x eq_refl).
  - cbn. rewrite IH; [reflexivity|].
    intros y Hy. apply Hj. exact Hy.
Qed.

Lemma drop_delete_above {A} (l : list A) (n k : nat) :
  (n <= k)%nat -> drop n (delete k l) = delete (k - n)%nat (drop n l).
Proof.
  revert l k. induction n as [|n IH]; intros l k Hk.
  - now rewrite Nat.sub_0_r.
  - destruct l as [|x l]; [now destruct k|].
    destruct k as [|k]; [lia|].
    cbn [delete list_delete drop]. apply IH. lia.
Qed.

Lemma delete_alter_same {A} (f : A -> A) (l : list A) (k : nat) :
  delete k (alter f k l) = delete k l.
Proof.
  revert k. induction l as [|x l IH]; intros k; [now destruct k|].
  destruct k as [|k]; [reflexivity|].
  cbn [alter list_alter delete list_delete]. now rewrite IH.
Qed.

(** Deleting a row below the last row with content shows the same grid. *)
Lemma sameView_delete_below (g : Grid) (k : nat) :
  (lastRow g <= k)%nat -> (2 <= k)%nat -> sameView (delete k g) g.
Proof.
  intros Hk H2. split; [|split].
  - intros r c. unfold cellAt.
    destruct (Nat.lt_ge_cases (pred r) k) as [Hlt|Hge].
    + now rewrite list_lookup_delete_lt by exact Hlt.
    + rewrite list_lookup_delete_ge by exact Hge.
      assert (Hblank : forall i, (k <= i)%nat ->
                cellOf (default [] (g !! i)) c = blank).
      { intros i Hi. destruct (g !! i) as [row|] eqn:Hrow; [|reflexivity].
        cbn. apply cellOf_blank_row. eapply blank_below_lastRow; [|exact Hrow]. lia. }
      rewrite !Hblank by lia. reflexivity.
  - apply lastRow_delete_below, Hk.
  - intros A F HF. unfold dataRows. rewrite drop_delete_above by exact H2.
    apply omap_delete_None. intros row Hrow. apply HF.
    rewrite lookup_drop in Hrow.
    eapply blank_below_lastRow; [|exact Hrow]. lia.
Qed.

Lemma sameView_refl (g : Grid) : sameView g g.
Proof. repeat split. Qed.

(** The grid after a row is appended and that row is deleted. *)
Lemma append_delete_view (g : Grid) (xs : list content) :
  (2 <= lastRow g)%nat ->
  sameView (delete (lastRow g) (writeRow g (S (lastRow g)) 1 xs)) g.
Proof.
  intros H2. pose proof (lastRow_le_length g) as Hle.
  destruct (Nat.lt_ge_cases (lastRow g) (length g)) as [Hin|Hout].
  - rewrite writeRow_inside by lia. cbn [pred]. rewrite delete_alter_same.
    apply sameView_delete_below; lia.
  - assert (Hk : lastRow g = length g) by lia. rewrite Hk.
    unfold writeRow. cbn [pred].
    replace (S (length g) - length g)%nat with 1%nat by lia. cbn [replicate].
    rewrite delete_alter_same.
    replace (delete (length g) (g ++ [[]])) with g; [apply sameView_refl|].
    symmetry. rewrite (delete_middle g [] []). apply app_nil_r.
Qed.

(** *** What a read shows depends on the view only *)

Section SameView.

Variables (g g' : Grid).
Hypothesis Hview : sameView g g'.

Lemma SUM_same (c : nat) : SUM g c = SUM g' c.
Proof.
  destruct Hview as (_ & _ & Hrows). unfold SUM. f_equal. f_equal.
  apply Hrows. intros row Hb. now rewrite cellOf_blank_row.
Qed.

Lemma SUMIF_same (r : nat) : SUMIF g r = SUMIF g' r.
Proof.
  destruct Hview as (Hcell & _ & Hrows). unfold SUMIF. rewrite Hcell.
  destruct (cellAt g' r (column "H")) as [[| | | |crit|]|]; try reflexivity.
  f_equal. f_equal. apply Hrows. intros row Hb.
  rewrite !cellOf_blank_row by exact Hb. now destruct (meets crit blank).
Qed.

Lemma operand_same (r c : nat) : operand g r c = operand g' r c.
Proof.
  unfold operand. destruct Hview as (Hcell & _). rewrite Hcell.
  destruct (cellAt g' r c) as [v|[c'|r'|r'|]]; try reflexivity.
  - apply SUM_same.
  - apply SUMIF_same.
Qed.

Lemma evalFormula_same (f : formula) : evalFormula g f = evalFormula g' f.
Proof.
  destruct f as [c|r|r|]; cbn [evalFormula].
  - apply SUM_same.
  - apply SUMIF_same.
  - now rewrite !operand_same.
  - now rewrite !operand_same.
Qed.

Lemma valueAt_same (r c : nat) : valueAt g r c = valueAt g' r c.
Proof.
  unfold valueAt. destruct Hview as (Hcell & _). rewrite Hcell.
  destruct (cellAt g' r c); [reflexivity | apply evalFormula_same].
Qed.

Lemma valuesIn_same (rg : Range) : valuesIn g rg = valuesIn g' rg.
Proof.
  unfold valuesIn. apply map_ext. intros i. apply map_ext. intros j.
  apply valueAt_same.
Qed.

Lemma transactionRows_same : transactionRows g = transactionRows g'.
Proof.
  unfold transactionRows. destruct Hview as (_ & <- & _).
  apply list_filter_iff. intros r. now rewrite valueAt_same.
Qed.

Lemma transactionOfRow_same (E : Engine) (name : string) (r : nat) :
  transactionOfRow E name g r = transactionOfRow E name g' r.
Proof. unfold transactionOfRow. now rewrite !valueAt_same. Qed.

Lemma totalOf_same (c : ascii) : totalOf g c = totalOf g' c.
Proof. unfold totalOf. now rewrite valueAt_same. Qed.

Lemma summaryOf_same (E : Engine) : summaryOf E g = summaryOf E g'.
Proof. unfold summaryOf. now rewrite !valuesIn_same, !valueAt_same. Qed.

End SameView.

Lemma mapM_result_ext {A B} (f f' : A -> result B) (l : list A) :
  (forall x, f x = f' x) -> mapM f l = mapM f' l.
Proof.
  intros Hf. induction l as [|x l IH]; [reflexivity|].
  cbn [mapM]. now rewrite Hf, IH.
Qed.

Lemma readResponse_same (E : Engine) (action : string) (sh sh' : Sheet) :
  sheetName sh = sheetName sh' -> sameView (cells sh) (cells sh') ->
  readResponse E action sh = readResponse E action sh'.
Proof.
  intros Hn Hv. unfold readResponse, listed. cbv zeta.
  rewrite !(totalOf_same _ _ Hv), (summaryOf_same _ _ Hv E),
          (transactionRows_same _ _ Hv), Hn.
  rewrite (mapM_result_ext _ (transactionOfRow E (sheetName sh') (cells sh')));
    [reflexivity|].
  intros r. apply transactionOfRow_same, Hv.
Qed.

(** ** Appending a row *)

Lemma findSheet_insert (ss : Spreadsheet) (h : nat) (sh sh' : Sheet) (n : string) :
  ss !! h = Some sh -> sheetName sh' = sheetName sh ->
  findSheet (<[h := sh']> ss) n = findSheet ss n.
Proof.
  unfold findSheet. revert h. induction ss as [|x ss IH]; intros h Hsh Hn; [discriminate|].
  destruct h as [|h].
  - injection Hsh as ->. cbn [insert list_insert list_find].
    rewrite Hn. destruct (decide (sheetName sh = n)); reflexivity.
  - cbn [insert list_insert list_find].
    destruct (decide (sheetName x = n)); [reflexivity|].
    specialize (IH h Hsh Hn).
    destruct (list_find _ (<[h:=sh']> ss)) as [[i y]|];
      destruct (list_find _ ss) as [[j z]|]; cbn in *; congruence.
Qed.

Lemma appendRow_runs (ss : Spreadsheet) (h : nat) (sh : Sheet) (vs : list value) :
  ss !! h = Some sh ->
  appendRow (Some h) vs ss
  = (Ok tt, <[h := withCells sh (writeRow (cells sh) (S (lastRow (cells sh))) 1
                                          (map Lit vs))]> ss).
Proof. intros Hsh. unfold appendRow, writing. now rewrite Hsh. Qed.

Lemma length_writeRow (g : Grid) (r c : nat) (xs : list content) :
  length (writeRow g r c xs) = Nat.max (length g) r.
Proof.
  unfold writeRow. rewrite length_alter, length_app, length_replicate. lia.
Qed.

Lemma spaced_not_empty (a b : string) : String.eqb (a +:+ " " +:+ b) "" = false.
Proof. destruct a; reflexivity. Qed.

Lemma monthSheetName_given (E : Engine) (date : Date) (name : string) :
  getMonthSheetName E date = Ok name -> given (Some name) = true.
Proof.
  destruct date as [t|]; [|discriminate]. intros [= <-].
  unfold given, paramValue, truthy. now rewrite spaced_not_empty.
Qed.

Lemma addEntryBranch_runs (E : Engine) (e : Params) (ss : Spreadsheet)
    (date : Date) (name : string) (h : nat) (sh : Sheet) :
  timestampDate E (paramValue (param_timestamp e)) = Ok date ->
  getMonthSheetName E date = Ok name ->
  findSheet ss name = Some h -> ss !! h = Some sh ->
  addEntryBranch E e ss
  = (Ok (Message "success" ("Added to " +:+ sheetName sh)),
     <[h := withCells sh (writeRow (cells sh) (S (lastRow (cells sh))) 1
                                   (map Lit (rowOf e)))]> ss).
Proof.
  intros Hdate Hname Hf Hsh. unfold addEntryBranch, tryCatch.
  unfold mbind at 1. unfold M_bind, bind, lift. rewrite Hdate.
  unfold mbind at 1. unfold M_bind, bind.
  rewrite (getOrCreate_existing E date name h ss Hname Hf).
  unfold mbind at 1. unfold M_bind, bind.
  rewrite (appendRow_runs ss h sh _ Hsh).
  unfold mbind, M_bind, bind, getName.
  rewrite (reading_runs _ _ h
             (withCells sh (writeRow (cells sh) (S (lastRow (cells sh))) 1
                                     (map Lit (rowOf e))))); [reflexivity|].
  apply list_lookup_insert_eq. eapply lookup_lt_Some, Hsh.
Qed.

(** ** Append, then delete *)

(** Appending a transaction to a month sheet and then deleting the
    appended row, on a sheet whose two reserved rows are there (every sheet
    that was laid out is such, and the script deletes no row above row 3):
    both requests succeed, and afterwards every read action answers what
    it answered before the append: the totals per currency, the amount and
    percentage of every category, the budget and its remaining percentage
    (and the transaction list too). *)
Lemma append_then_delete_restores_reads (E : Engine) (add del : Params)
    (ss : Spreadsheet) (date : Date) (name : string) (h : nat) (sh : Sheet) :
  param_action add = Some "addEntry" ->
  timestampDate E (paramValue (param_timestamp add)) = Ok date ->
  getMonthSheetName E date = Ok name ->
  findSheet ss name = Some h ->
  ss !! h = Some sh ->
  (2 <= lastRow (cells sh))%nat ->
  param_action del = Some "delete" ->
  param_sheetName del = Some name ->
  toInteger (parseInt (paramStr (param_row del))) = Some (Z.of_nat (S (lastRow (cells sh)))) ->
  exists ss1 ss2 : Spreadsheet,
    doGet E add ss = (Ok (Message "success" ("Added to " +:+ name)), ss1)
    /\ doGet E del ss1
       = (Ok (Message "success"
                ("Deleted row " +:+ NumberToString E (parseInt (paramStr (param_row del)))
                 +:+ " from " +:+ name)), ss2)
    /\ forall q : Params, isRead q = true ->
         doGet E q ss2 = (fst (doGet E q ss), ss2).
Proof.
  intros Hadd Hdate Hname Hf Hsh H2 Hdel Hsheet Hrow.
  set (g := cells sh) in *.
  set (g1 := writeRow g (S (lastRow g)) 1 (map Lit (rowOf add))).
  set (g2 := delete (lastRow g) g1).
  destruct (findSheet_Some ss name h Hf) as (sh0 & Hsh0 & Hn0).
  assert (sh0 = sh) as -> by congruence.
  assert (Hh : (h < length ss)%nat) by (eapply lookup_lt_Some, Hsh).
  exists (<[h := withCells sh g1]> ss), (<[h := withCells sh g2]> ss).
  split; [|split].
  - rewrite doGet_addEntry by exact Hadd.
    rewrite (addEntryBranch_runs E add ss date name h sh Hdate Hname Hf Hsh).
    now rewrite Hn0.
  - rewrite doGet_delete by exact Hdel.
    rewrite (deleteBranch_runs E del _ (Z.of_nat (S (lastRow g))) h (withCells sh g1)).
    + rewrite Hsheet. cbn [paramStr withCells cells].
      rewrite Nat2Z.id. cbn [pred]. fold g2.
      now rewrite list_insert_insert_eq.
    + exact Hrow.
    + cbn [withCells cells]. unfold g1. rewrite length_writeRow. lia.
    + rewrite Hsheet. eapply monthSheetName_given, Hname.
    + rewrite Hsheet. cbn [paramStr].
      rewrite (findSheet_insert ss h sh) by (exact Hsh || reflexivity). exact Hf.
    + apply list_lookup_insert_eq, Hh.
  - intros q Hq.
    assert (Hfind : findSheet (<[h := withCells sh g2]> ss) (requestedSheet E q)
                    = findSheet ss (requestedSheet E q))
      by (apply (findSheet_insert ss h sh); [exact Hsh | reflexivity]).
    destruct (findSheet ss (requestedSheet E q)) as [h'|] eqn:Hq'.
    + destruct (findSheet_Some ss _ h' Hq') as (sh' & Hsh' & _).
      rewrite (read_of_month E q ss h' sh' Hq Hq' Hsh'). cbn [fst].
      destruct (decide (h' = h)) as [->|Hne].
      * assert (sh' = sh) as -> by congruence.
        rewrite (read_of_month E q _ h (withCells sh g2) Hq Hfind)
          by (apply list_lookup_insert_eq, Hh).
        f_equal. apply readResponse_same; [reflexivity|].
        apply append_delete_view, H2.
      * rewrite (read_of_month E q _ h' sh' Hq Hfind); [reflexivity|].
        rewrite list_lookup_insert_ne by congruence. exact Hsh'.
    + rewrite !read_of_missing_month by assumption.
      destruct (_ || _); reflexivity.
Qed.

(** C9 — appending a transaction and then deleting the appended row.  In
    February, a sheet that is laid out, the round trip gives back the
    totals and the stats there were.  In a month the script made itself it
    does not.  The first entry for April 2026 inserts the sheet and fails
    at the header write, so the sheet stays without its two reserved rows;
    the same entry sent again lands in row 1, where no read sees it (the
    totals are 0).  The next entry is appended to row 2, the totals row:
    the totals now show its amounts.  Deleting the appended row is refused,
    row 2 being below row 3, and the totals stay changed. *)
Theorem append_then_delete_in_created_month :
  let add := entryRequest "addEntry" None None
               "25/02/2026 20:05:00" "90000" "3.2" "3.5" "Fun" "cinema" in
  let del := deleteRequest "16" "February 2026" in
  let first := entryRequest "addEntry" None None
                 "02/04/2026 09:00:00" "0" "12" "0" "Food" "bread" in
  let next := entryRequest "addEntry" None None
                "03/04/2026 19:30:00" "50000" "2" "3" "Fun" "cinema" in
  let undo := deleteRequest "2" "April 2026" in
  let totals := fun month => readRequest None "2026" month in
  let stats := fun month => readRequest (Some "getStats") "2026" month in
  let creationFailed :=
    Message "error" "Add failed: Exception: The number of columns in the data does not match the number of columns in the range. The data has 10 but the range has 11." in
  let ss := [february; march] in
  (exists ss1 ss2,
     doGet utcEngine add ss = (Ok (Message "success" "Added to February 2026"), ss1)
     /\ doGet utcEngine del ss1
        = (Ok (Message "success" "Deleted row 16 from February 2026"), ss2)
     /\ fst (doGet utcEngine (totals "2") ss1) <> fst (doGet utcEngine (totals "2") ss)
     /\ fst (doGet utcEngine (totals "2") ss2) = fst (doGet utcEngine (totals "2") ss)
     /\ fst (doGet utcEngine (stats "2") ss2) = fst (doGet utcEngine (stats "2") ss))
  /\ (exists g1 g2,
     let ss1 := [february; march; emptySheet "April 2026"] in
     let ss2 := [february; march; withCells (emptySheet "April 2026") g1] in
     let ss3 := [february; march; withCells (emptySheet "April 2026") g2] in
     doGet utcEngine first ss = (Ok creationFailed, ss1)
     /\ doGet utcEngine first ss1 = (Ok (Message "success" "Added to April 2026"), ss2)
     /\ lastRow g1 = 1%nat
     /\ fst (doGet utcEngine (totals "4") ss2)
        = Ok (Totals (VNum zero) (VNum zero) (VNum zero))
     /\ doGet utcEngine next ss2 = (Ok (Message "success" "Added to April 2026"), ss3)
     /\ lastRow g2 = 2%nat
     /\ cellAt g2 2 1 = Lit (VStr "03/04/2026 19:30:00")
     /\ fst (doGet utcEngine (totals "4") ss3)
        = Ok (Totals (VNum (ofZ 50000)) (VNum (ofZ 2)) (VNum (ofZ 3)))
     /\ doGet utcEngine undo ss3
        = (Ok (Message "error" "Invalid parameters for delete"), ss3)).
Proof.
  cbv zeta. split.
  - destruct (append_then_delete_restores_reads utcEngine
                (entryRequest "addEntry" None None
                   "25/02/2026 20:05:00" "90000" "3.2" "3.5" "Fun" "cinema")
                (deleteRequest "16" "February 2026")
                [february; march] (Some 1772049900000) "February 2026" 0%nat february
                eq_refl eq_refl eq_refl eq_refl eq_refl ltac:(vm_compute; lia)
                eq_refl eq_refl eq_refl)
      as (ss1 & ss2 & Hadd & Hdel & Hreads).
    exists ss1, ss2. split; [exact Hadd|]. split; [exact Hdel|]. split; [|split].
    + assert (Hss1 : ss1 = snd (doGet utcEngine
                  (entryRequest "addEntry" None None
                     "25/02/2026 20:05:00" "90000" "3.2" "3.5" "Fun" "cinema")
                  [february; march])) by (now rewrite Hadd).
      rewrite Hss1. vm_compute. discriminate.
    + now rewrite (Hreads (readRequest None "2026" "2") eq_refl).
    + now rewrite (Hreads (readRequest (Some "getStats") "2026" "2") eq_refl).
  - eexists _, _. split; [vm_compute; reflexivity|].
    split; [vm_compute; reflexivity|].
    split; [vm_compute; reflexivity|].
    split; [vm_compute; reflexivity|].
    split; [vm_compute; reflexivity|].
    split; [vm_compute; reflexivity|].
    split; [vm_compute; reflexivity|].
    split; vm_compute; reflexivity.
Qed.

(** ** Moving a row to another month *)

(** The move when the sheet of the new month exists: the new row goes
    after the last row with content of that sheet, then the old row leaves
    its sheet. *)
Lemma move_to_existing_month (E : Engine) (e : Params) (ss : Spreadsheet)
    (r : Z) (h h2 : nat) (sh sh2 : Sheet) (date : Date) (name : string) :
  param_action e = Some "update" ->
  toInteger (parseInt (paramStr (param_row e))) = Some r ->
  3 <= r <= Z.of_nat (length (cells sh)) ->
  given (param_sheetName e) = true ->
  findSheet ss (paramStr (param_sheetName e)) = Some h ->
  ss !! h = Some sh ->
  timestampDate E (paramValue (param_timestamp e)) = Ok date ->
  getMonthSheetName E date = Ok name ->
  name <> paramStr (param_sheetName e) ->
  findSheet ss name = Some h2 ->
  ss !! h2 = Some sh2 ->
  doGet E e ss
  = (Ok (Message "success"
           ("Moved from " +:+ paramStr (param_sheetName e) +:+ " to " +:+ name)),
     <[h := withCells sh (delete (pred (Z.to_nat r)) (cells sh))]>
       (<[h2 := withCells sh2 (writeRow (cells sh2) (S (lastRow (cells sh2))) 1
                                        (map Lit (rowOf e)))]> ss)).
Proof.
  intros Ha Hr Hin Hgiven Hf Hsh Hdate Hname Hne Hf2 Hsh2.
  assert (Hh : h <> h2).
  { intros ->. destruct (findSheet_Some ss _ h2 Hf) as (s1 & Hs1 & Hn1).
    destruct (findSheet_Some ss _ h2 Hf2) as (s2 & Hs2 & Hn2). congruence. }
  rewrite doGet_update by exact Ha. unfold updateBranch.
  rewrite (row_test _ r Hr), Hgiven.
  replace (r <? 3) with false by (symmetry; apply Z.ltb_ge; lia).
  cbn [orb negb].
  unfold mbind at 1. unfold M_bind, bind, getSheetByName. rewrite Hf.
  cbn [isNull]. unfold tryCatch.
  unfold mbind at 1. unfold M_bind, bind, lift. rewrite Hdate.
  unfold mbind at 1. unfold M_bind, bind, lift. rewrite Hname.
  replace (String.eqb name (paramStr (param_sheetName e))) with false
    by (symmetry; apply String.eqb_neq, Hne).
  cbn [negb].
  unfold mbind at 1. unfold M_bind, bind.
  rewrite (getOrCreate_existing E date name h2 ss Hname Hf2).
  unfold mbind at 1. unfold M_bind, bind.
  rewrite (appendRow_runs ss h2 sh2 _ Hsh2).
  unfold mbind, M_bind, bind.
  rewrite (deleteRow_runs _ h sh _ r) by
    (try (rewrite list_lookup_insert_ne by congruence); assumption || lia).
  reflexivity.
Qed.

(** The move when the new month has no sheet: creating the sheet fails
    after the empty sheet is inserted, the update answers with an error,
    and neither is the row appended anywhere nor is the old row deleted. *)
Lemma move_to_missing_month (E : Engine) (e : Params) (ss : Spreadsheet)
    (r : Z) (h : nat) (date : Date) (name : string) :
  param_action e = Some "update" ->
  toInteger (parseInt (paramStr (param_row e))) = Some r ->
  3 <= r ->
  given (param_sheetName e) = true ->
  findSheet ss (paramStr (param_sheetName e)) = Some h ->
  timestampDate E (paramValue (param_timestamp e)) = Ok date ->
  getMonthSheetName E date = Ok name ->
  name <> paramStr (param_sheetName e) ->
  findSheet ss name = None ->
  doGet E e ss
  = (Ok (Message "error" "Update failed: Exception: The number of columns in the data does not match the number of columns in the range. The data has 10 but the range has 11."),
     ss ++ [emptySheet name]).
Proof.
  intros Ha Hr Hin Hgiven Hf Hdate Hname Hne Hf2.
  rewrite doGet_update by exact Ha. unfold updateBranch.
  rewrite (row_test _ r Hr), Hgiven.
  replace (r <? 3) with false by (symmetry; apply Z.ltb_ge; lia).
  cbn [orb negb].
  unfold mbind at 1. unfold M_bind, bind, getSheetByName. rewrite Hf.
  cbn [isNull]. unfold tryCatch.
  unfold mbind at 1. unfold M_bind, bind, lift. rewrite Hdate.
  unfold mbind at 1. unfold M_bind, bind, lift. rewrite Hname.
  replace (String.eqb name (paramStr (param_sheetName e))) with false
    by (symmetry; apply String.eqb_neq, Hne).
  cbn [negb].
  unfold mbind at 1. unfold M_bind, bind.
  rewrite (getOrCreate_missing E date name ss Hname Hf2).
  reflexivity.
Qed.

(** C3 — an update whose new timestamp falls in another month, on the
    spreadsheet with February (three transactions, the one of row 14 being
    moved) and March (none).  Moved to March, whose sheet exists, the new
    row is appended at the end of March and row 14 leaves February, which
    then counts two transactions.  Moved to April, which has no sheet, the
    target is not created as a month sheet: an empty sheet named April 2026
    is inserted, the header write is refused, the response is an error, no
    row is appended to April and row 14 stays in February. *)
Theorem move_to_missing_month_fails :
  let ss := [february; march] in
  let toMarch := doGet utcEngine (moveRequest "10/03/2026 18:40:10") ss in
  let toApril := doGet utcEngine (moveRequest "10/04/2026 18:40:10") ss in
  (exists feb mar,
     toMarch = (Ok (Message "success" "Moved from February 2026 to March 2026"),
                [withCells february feb; withCells march mar])
     /\ map (cellAt mar 13) [1; 2; 3; 4; 5; 6]%nat
        = map Lit (rowOf (moveRequest "10/03/2026 18:40:10"))
     /\ transactionCount mar = 1%nat
     /\ transactionCount (cells february) = 3%nat
     /\ transactionCount feb = 2%nat)
  /\ toApril
     = (Ok (Message "error" "Update failed: Exception: The number of columns in the data does not match the number of columns in the range. The data has 10 but the range has 11."),
        [february; march; emptySheet "April 2026"])
  /\ transactionCount (cells (emptySheet "April 2026")) = 0%nat.
Proof.
  cbv zeta. split; [|split].
  - do 2 eexists. split; [|split; [|split; [|split]]].
    + rewrite (move_to_existing_month utcEngine (moveRequest "10/03/2026 18:40:10")
                 [february; march] 14 0%nat 1%nat february march
                 (Some 1773168010000) "March 2026");
        try reflexivity; try (vm_compute; intuition discriminate).
    + vm_compute. reflexivity.
    + vm_compute. reflexivity.
    + vm_compute. reflexivity.
    + vm_compute. reflexivity.
  - rewrite (move_to_missing_month utcEngine (moveRequest "10/04/2026 18:40:10")
               [february; march] 14 0%nat (Some 1775846410000) "April 2026");
      try reflexivity; try (vm_compute; intuition discriminate).
  - vm_compute. reflexivity.
Qed.

(** ** The budget figures *)

(** On a sheet with the budget row of the layout, the remaining percentage
    a read reports is [parsePct] of [1 - totalEUR / budget] (of 0 when that
    number is 0 or NaN). *)
Lemma budget_remaining (E : Engine) (g : Grid) (b : number) :
  cellAt g 2 (column "C") = Formula (FSum (column "C")) ->
  cellAt g 12 (column "I") = Lit (VNum b) ->
  cellAt g 12 (column "J") = Formula FRemaining ->
  falsyNum b = false ->
  snd (summaryOf E g)
  = {| amount := b;
       percent := parsePct (orElse (VNum (sub (ofZ 1) (div (totalEUR g) b)))
                                   (VNum zero)) |}.
Proof.
  intros HC2 HI12 HJ12 Hb. unfold summaryOf. cbn [snd].
  unfold valueAt, operand. rewrite HI12, HJ12. cbn [evalFormula].
  unfold operand. rewrite HC2, HI12. unfold SUM. fold (totalEUR g).
  cbn [operandNum].
  assert (Hnz : eqNum b zero = false) by (destruct b as [s|s| |s m e]; try discriminate; destruct s; reflexivity).
  rewrite Hnz. unfold orElse at 1. cbn [truthy]. rewrite Hb. cbn [negb ToNumber].
  unfold numOrZero. now rewrite Hb.
Qed.

Lemma budget_remaining_sample :
  snd (summaryOf utcEngine (cells february))
  = {| amount := ofZ 1600; percent := ofZ 94 |}.
Proof.
  rewrite (budget_remaining utcEngine (cells february) (ofZ 1600)
             eq_refl eq_refl eq_refl eq_refl).
  vm_compute. reflexivity.
Defined.

(** C7 — the budget figures.  On a laid-out month with budget 1600 the
    remaining percentage is 50 for a total of 800 EUR and -25 for a total
    of 2000 EUR.  But a month created by the script does not get the budget
    of 1600: adding the first entry of April 2026 inserts the sheet, the
    header write is refused and [createMonthSheet] stops before it reaches
    the budget row, so the sheet stays empty and [getStats] reports the
    budget amount 0 and the percentage 0 for it. *)
Theorem created_month_has_no_budget :
  let stats := fun ss year month =>
    fst (doGet utcEngine (readRequest (Some "getStats") year month) ss) in
  (exists s, stats [monthSpending "May 2026" 800] "2026" "5"
             = Ok (StatsData s {| amount := ofZ 1600; percent := ofZ 50 |}))
  /\ (exists s, stats [monthSpending "May 2026" 2000] "2026" "5"
             = Ok (StatsData s {| amount := ofZ 1600; percent := ofZ (-25) |}))
  /\ (let add := entryRequest "addEntry" None None
                   "02/04/2026 09:00:00" "0" "12" "0" "Food" "bread" in
      let ss := [february; march] in
      doGet utcEngine add ss
      = (Ok (Message "error" "Add failed: Exception: The number of columns in the data does not match the number of columns in the range. The data has 10 but the range has 11."),
         ss ++ [emptySheet "April 2026"])
      /\ stats (ss ++ [emptySheet "April 2026"]) "2026" "4"
         = Ok (StatsData [] {| amount := zero; percent := zero |})).
Proof.
  cbv zeta. split; [|split; [|split]].
  - eexists. vm_compute. reflexivity.
  - eexists. vm_compute. reflexivity.
  - vm_compute. reflexivity.
  - vm_compute. reflexivity.
Qed.

(* ===================================================================== *)
(** * Further properties                                                  *)
(* ===================================================================== *)


(** ** Cells after a write at any column *)

Lemma cellOf_writeCells_at (c : nat) (x : content) (row : list content) :
  (1 <= c)%nat -> cellOf (writeCells c [x] row) c = x.
Proof.
  intros Hc. unfold cellOf, writeCells. cbn [length].
  set (row' := row ++ replicate _ blank).
  assert (Hlen : (pred c <= length row')%nat).
  { unfold row'. rewrite length_app, length_replicate. lia. }
  rewrite lookup_app_r by (rewrite length_take; lia).
  rewrite length_take. replace (pred c - pred c `min` length row')%nat with 0%nat by lia.
  reflexivity.
Qed.

Lemma lookup_padded (row : list content) (n i : nat) :
  default blank ((row ++ replicate n blank) !! i) = default blank (row !! i).
Proof.
  destruct (Nat.lt_ge_cases i (length row)) as [Hin|Hout].
  - now rewrite lookup_app_l by exact Hin.
  - rewrite lookup_app_r by exact Hout. rewrite (lookup_ge_None_2 row) by exact Hout.
    destruct (replicate n blank !! _) eqn:Hrep; [|reflexivity].
    apply lookup_replicate in Hrep as [-> _]. reflexivity.
Qed.

Lemma cellOf_writeCells_beside (c c' : nat) (x : content) (row : list content) :
  (1 <= c)%nat -> (1 <= c')%nat -> c' <> c ->
  cellOf (writeCells c [x] row) c' = cellOf row c'.
Proof.
  intros Hc Hc' Hne. unfold cellOf, writeCells. cbn [length].
  set (n := (pred c + 1 - length row)%nat).
  set (row' := row ++ replicate n blank).
  assert (Hlen : (pred c + 1 <= length row')%nat).
  { unfold row', n. rewrite length_app, length_replicate. lia. }
  rewrite <- (lookup_padded row n (pred c')). fold row'.
  destruct (Nat.lt_ge_cases (pred c') (pred c)) as [Hlt|Hge].
  - rewrite lookup_app_l by (rewrite length_take; lia).
    now rewrite lookup_take_lt by exact Hlt.
  - rewrite lookup_app_r by (rewrite length_take; lia).
    rewrite length_take. replace (pred c `min` length row')%nat with (pred c) by lia.
    rewrite (lookup_app_r [x]) by (cbn [length]; lia).
    rewrite lookup_drop. cbn [length]. f_equal. f_equal. lia.
Qed.

Lemma lookup_extended (g : Grid) (n i : nat) :
  default [] ((g ++ replicate n []) !! i) = default [] (g !! i).
Proof.
  destruct (Nat.lt_ge_cases i (length g)) as [Hin|Hout].
  - now rewrite lookup_app_l by exact Hin.
  - rewrite lookup_app_r by exact Hout. rewrite (lookup_ge_None_2 g) by exact Hout.
    destruct (replicate n [] !! _) eqn:Hrep; [|reflexivity].
    apply lookup_replicate in Hrep as [-> _]. reflexivity.
Qed.

(** A write into row [r] leaves the other rows, whether or not the grid
    had to grow. *)
Lemma cellAt_writeRow_elsewhere (g : Grid) (r c r' c' : nat) (xs : list content) :
  (1 <= r)%nat -> (1 <= r')%nat -> r' <> r ->
  cellAt (writeRow g r c xs) r' c' = cellAt g r' c'.
Proof.
  intros Hr Hr' Hne. unfold cellAt, writeRow.
  rewrite list_lookup_alter_ne by lia. now rewrite lookup_extended.
Qed.

Lemma row_of_writeRow (g : Grid) (r c : nat) (xs : list content) :
  (1 <= r)%nat ->
  default [] (writeRow g r c xs !! pred r) = writeCells c xs (default [] (g !! pred r)).
Proof.
  intros Hr. unfold writeRow. rewrite list_lookup_alter_eq.
  rewrite <- (lookup_extended g (r - length g) (pred r)).
  destruct ((g ++ replicate (r - length g) []) !! pred r) as [row|] eqn:Hrow; [reflexivity|].
  apply lookup_ge_None in Hrow. rewrite length_app, length_replicate in Hrow. lia.
Qed.

Lemma cellAt_writeRow_at (g : Grid) (r c : nat) (x : content) :
  (1 <= r)%nat -> (1 <= c)%nat -> cellAt (writeRow g r c [x]) r c = x.
Proof.
  intros Hr Hc. unfold cellAt. rewrite row_of_writeRow by exact Hr.
  apply cellOf_writeCells_at, Hc.
Qed.

Lemma cellAt_writeRow_beside (g : Grid) (r c c' : nat) (x : content) :
  (1 <= r)%nat -> (1 <= c)%nat -> (1 <= c')%nat -> c' <> c ->
  cellAt (writeRow g r c [x]) r c' = cellAt g r c'.
Proof.
  intros Hr Hc Hc' Hne. unfold cellAt. rewrite row_of_writeRow by exact Hr.
  now apply cellOf_writeCells_beside.
Qed.

(** ** The updateBudget branch *)

Lemma doGet_updateBudget E e ss :
  param_action e = Some "updateBudget" ->
  doGet E e ss
  = updateBudgetBranch E e (requestedYear E e) (requestedMonth E e)
      (findSheet ss (requestedSheet E e)) ss.
Proof.
  intros Ha. unfold doGet. rewrite Ha.
  unfold mbind, M_bind, bind, getSheetByName.
  cbn [orStr String.eqb Ascii.eqb Bool.eqb orb andb].
  now rewrite andb_false_r.
Qed.

Lemma positive_passes (b : number) :
  lt zero b = true -> falsyNum b = false /\ le b zero = false.
Proof. destruct b as [[|]|[|]| |[|] m e]; try discriminate; split; reflexivity. Qed.

Lemma setValue_cell_runs (ss : Spreadsheet) (h : nat) (sh : Sheet) (c : ascii) (r : nat)
    (v : value) :
  ss !! h = Some sh ->
  setValue (Some h) (A1 c r) v ss
  = (Ok tt, <[h := withCells sh (writeRow (cells sh) r (column c) [Lit v])]> ss).
Proof. intros Hsh. unfold setValue, writing. now rewrite Hsh. Qed.

(** X1 — an updateBudget request with bad input.  A budget that is missing,
    is no number, is zero or is negative is answered with the error
    "Invalid budget amount"; with a good budget, a year or month that is no
    number or a month outside 1..12 is answered with the error "Invalid
    year or month parameters".  Nothing is written either way. *)
Theorem updateBudget_refuses_bad_input (E : Engine) (e : Params) (ss : Spreadsheet) :
  param_action e = Some "updateBudget" ->
  let year := requestedYear E e in
  let month := requestedMonth E e in
  (isNaN (budgetOf e) = true \/ le (budgetOf e) zero = true ->
     doGet E e ss = (Ok (Message "error" "Invalid budget amount"), ss))
  /\ (lt zero (budgetOf e) = true -> badYearMonth year month = true ->
     doGet E e ss
     = (Ok (Message "error" ("Invalid year or month parameters: year="
                             +:+ NumberToString E year +:+ ", month="
                             +:+ NumberToString E month)), ss)).
Proof.
  intros Ha. cbv zeta. rewrite doGet_updateBudget by exact Ha.
  unfold updateBudgetBranch. fold (budgetOf e). split.
  - intros [Hnan | Hle].
    + destruct (budgetOf e); try discriminate. reflexivity.
    + rewrite Hle. now rewrite orb_true_r.
  - intros Hpos Hbad. destruct (positive_passes _ Hpos) as [-> ->].
    cbn [orb]. unfold badYearMonth in Hbad. rewrite Hbad. reflexivity.
Qed.

Lemma updateBudget_refuses_bad_input_sample :
  let ss := [february; march] in
  doGet utcEngine (budgetRequest (Some "2026") (Some "2") None) ss
    = (Ok (Message "error" "Invalid budget amount"), ss)
  /\ doGet utcEngine (budgetRequest (Some "2026") (Some "2") (Some "-5")) ss
    = (Ok (Message "error" "Invalid budget amount"), ss)
  /\ doGet utcEngine (budgetRequest (Some "2026") (Some "13") (Some "900")) ss
    = (Ok (Message "error" "Invalid year or month parameters: year=2026, month=13"), ss).
Proof.
  cbv zeta. split; [|split].
  - apply (updateBudget_refuses_bad_input utcEngine
             (budgetRequest (Some "2026") (Some "2") None) _ eq_refl).
    left. reflexivity.
  - apply (updateBudget_refuses_bad_input utcEngine
             (budgetRequest (Some "2026") (Some "2") (Some "-5")) _ eq_refl).
    right. reflexivity.
  - apply (updateBudget_refuses_bad_input utcEngine
             (budgetRequest (Some "2026") (Some "13") (Some "900")) _ eq_refl);
      reflexivity.
Defined.

(** X2 — an updateBudget request for a month that has a sheet.  The budget
    goes into I12 and into no other cell; the request answers "Budget
    updated to ..."; and a getStats request for that month afterwards
    reports this budget amount. *)
Theorem updateBudget_sets_budget (E : Engine) (e : Params) (ss : Spreadsheet)
    (h : nat) (sh : Sheet) :
  param_action e = Some "updateBudget" ->
  lt zero (budgetOf e) = true ->
  badYearMonth (requestedYear E e) (requestedMonth E e) = false ->
  findSheet ss (requestedSheet E e) = Some h ->
  ss !! h = Some sh ->
  let b := budgetOf e in
  let g' := writeRow (cells sh) 12 (column "I") [Lit (VNum b)] in
  let ss' := <[h := withCells sh g']> ss in
  doGet E e ss = (Ok (Message "success" ("Budget updated to " +:+ NumberToString E b)), ss')
  /\ cellAt g' 12 (column "I") = Lit (VNum b)
  /\ (forall r c : nat, (1 <= r)%nat -> (1 <= c)%nat -> (r, c) <> (12%nat, column "I") ->
        cellAt g' r c = cellAt (cells sh) r c)
  /\ (forall h' : nat, h' <> h -> ss' !! h' = ss !! h')
  /\ (forall q : Params, actionOf q = "getStats" ->
        requestedSheet E q = requestedSheet E e ->
        exists stats pct,
          doGet E q ss' = (Ok (StatsData stats {| amount := b; percent := pct |}), ss')).
Proof.
  intros Ha Hpos Hym Hf Hsh. cbv zeta.
  destruct (positive_passes _ Hpos) as [Hfalsy Hle].
  assert (Hh : (h < length ss)%nat) by (eapply lookup_lt_Some, Hsh).
  split; [|split; [|split; [|split]]].
  - rewrite doGet_updateBudget by exact Ha.
    unfold updateBudgetBranch. fold (budgetOf e). rewrite Hfalsy, Hle. cbn [orb].
    unfold badYearMonth in Hym. rewrite Hym, Hf. cbn [isNull].
    unfold tryCatch, mbind, M_bind, bind.
    rewrite (setValue_cell_runs ss h sh "I" 12 _ Hsh). reflexivity.
  - apply cellAt_writeRow_at; [lia | change (column "I") with 9%nat; lia].
  - intros r c Hr Hc Hne. destruct (decide (r = 12%nat)) as [->|Hr12].
    + apply cellAt_writeRow_beside;
        [lia | change (column "I") with 9%nat; lia | exact Hc | congruence].
    + apply cellAt_writeRow_elsewhere; [lia | exact Hr | exact Hr12].
  - intros h' Hne. apply list_lookup_insert_ne. congruence.
  - intros q Hq Hsame.
    rewrite (read_of_month E q _ h
               (withCells sh (writeRow (cells sh) 12 (column "I") [Lit (VNum (budgetOf e))]))).
    + rewrite Hq. unfold readResponse. cbn [String.eqb Ascii.eqb Bool.eqb].
      unfold summaryOf. cbn [fst snd withCells cells].
      unfold valueAt at 1.
      rewrite cellAt_writeRow_at by (change (column "I") with 9%nat; lia).
      unfold orElse at 1. cbn [truthy]. rewrite Hfalsy. cbn [negb ToNumber].
      unfold numOrZero. rewrite Hfalsy. do 2 eexists. reflexivity.
    + now rewrite (isRead_action q _ Hq).
    + rewrite Hsame. rewrite (findSheet_insert ss h sh) by (exact Hsh || reflexivity).
      exact Hf.
    + apply list_lookup_insert_eq, Hh.
Qed.

Lemma updateBudget_sets_budget_sample :
  let e := budgetRequest (Some "2026") (Some "2") (Some "1250") in
  let q := readRequest (Some "getStats") "2026" "2" in
  exists g' stats pct,
    doGet utcEngine e [february; march]
    = (Ok (Message "success" "Budget updated to 1250"), [withCells february g'; march])
    /\ cellAt g' 12 (column "I") = Lit (VNum (parseFloat "1250"))
    /\ cellAt g' 12 (column "H") = Lit (VStr "Budget")
    /\ doGet utcEngine q [withCells february g'; march]
       = (Ok (StatsData stats {| amount := parseFloat "1250"; percent := pct |}),
          [withCells february g'; march]).
Proof.
  cbv zeta.
  destruct (updateBudget_sets_budget utcEngine
              (budgetRequest (Some "2026") (Some "2") (Some "1250"))
              [february; march] 0%nat february eq_refl eq_refl eq_refl eq_refl eq_refl)
    as (Hrun & Hcell & Hframe & _ & Hstats).
  destruct (Hstats (readRequest (Some "getStats") "2026" "2") eq_refl eq_refl)
    as (stats & pct & Hq).
  eexists _, stats, pct. split; [exact Hrun|]. split; [exact Hcell|]. split; [|exact Hq].
  etransitivity;
    [exact (Hframe 12%nat 8%nat ltac:(lia) ltac:(lia) ltac:(discriminate))
    | reflexivity].
Defined.

(** X3 — an updateBudget request for a month without a sheet.  The sheet
    is to be created before the [try] of the branch: the empty sheet is
    inserted, the header write is refused, and the exception leaves
    [doGet] uncaught.  No budget is stored. *)
Theorem updateBudget_of_missing_month_throws (E : Engine) (e : Params)
    (ss : Spreadsheet) (t : Z) (name : string) :
  param_action e = Some "updateBudget" ->
  lt zero (budgetOf e) = true ->
  badYearMonth (requestedYear E e) (requestedMonth E e) = false ->
  findSheet ss (requestedSheet E e) = None ->
  newDate E (requestedYear E e) (sub (requestedMonth E e) (ofZ 1)) (ofZ 1) zero zero zero
    = Some t ->
  getMonthSheetName E (Some t) = Ok name ->
  findSheet ss name = None ->
  doGet E e ss
  = (Throw (Exception "The number of columns in the data does not match the number of columns in the range. The data has 10 but the range has 11."),
     ss ++ [emptySheet name]).
Proof.
  intros Ha Hpos Hym Hf Hdate Hname Hf2.
  destruct (positive_passes _ Hpos) as [Hfalsy Hle].
  rewrite doGet_updateBudget by exact Ha.
  unfold updateBudgetBranch. fold (budgetOf e). rewrite Hfalsy, Hle. cbn [orb].
  unfold badYearMonth in Hym. rewrite Hym, Hf. cbn [isNull]. rewrite Hdate.
  unfold mbind, M_bind, bind.
  now rewrite (getOrCreate_missing E (Some t) name ss Hname Hf2).
Qed.

Lemma updateBudget_of_missing_month_throws_sample :
  doGet utcEngine (budgetRequest (Some "2026") (Some "4") (Some "900")) [february; march]
  = (Throw (Exception "The number of columns in the data does not match the number of columns in the range. The data has 10 but the range has 11."),
     [february; march; emptySheet "April 2026"]).
Proof.
  apply (updateBudget_of_missing_month_throws utcEngine
           (budgetRequest (Some "2026") (Some "4") (Some "900")) [february; march]
           1775001600000 "April 2026"); reflexivity.
Defined.

(** ** Requests that only read *)

(** X4 — a read request (any action but delete, update, addEntry and
    updateBudget) leaves the spreadsheet as it is, whether it answers or
    throws, and whether or not the month has a sheet. *)
Theorem reads_never_write (E : Engine) (e : Params) (ss : Spreadsheet) :
  isRead e = true -> snd (doGet E e ss) = ss.
Proof.
  intros Hr. destruct (findSheet ss (requestedSheet E e)) as [h|] eqn:Hf.
  - destruct (findSheet_Some ss _ h Hf) as (sh & Hsh & _).
    now rewrite (read_of_month E e ss h sh Hr Hf Hsh).
  - rewrite read_of_missing_month by assumption. now destruct (_ || _).
Qed.

Lemma reads_never_write_sample :
  snd (doGet utcEngine (readRequest (Some "getAllData") "2026" "2") [february; march])
    = [february; march]
  /\ snd (doGet utcEngine (readRequest None "2031" "7") [february; march])
    = [february; march].
Proof.
  split.
  - apply (reads_never_write utcEngine (readRequest (Some "getAllData") "2026" "2")).
    reflexivity.
  - apply (reads_never_write utcEngine (readRequest None "2031" "7")). reflexivity.
Defined.

(** X5 — the batched read.  On a sheet, [getAllData] answers with the
    totals of [getMonthlyTotals], the transaction list of
    [getTransactionHistory] and the category and budget figures of
    [getStatsData], and throws exactly when the transaction list does. *)
Theorem getAllData_is_the_three_reads (E : Engine) (ss : Spreadsheet) (h : nat)
    (sh : Sheet) :
  ss !! h = Some sh ->
  exists vnd eur usd stats budget,
    getMonthlyTotals (Some h) ss = (Ok (Totals vnd eur usd), ss)
    /\ getStatsData E (Some h) ss = (Ok (StatsData stats budget), ss)
    /\ ((exists transactions,
           getTransactionHistory E (Some h) ss = (Ok (TransactionList transactions), ss)
           /\ getAllData E (Some h) ss
              = (Ok (AllData vnd eur usd transactions stats budget), ss))
        \/ (exists er,
           getTransactionHistory E (Some h) ss = (Throw er, ss)
           /\ getAllData E (Some h) ss = (Throw er, ss))).
Proof.
  intros Hsh.
  rewrite (getMonthlyTotals_runs ss h sh E Hsh), (getStatsData_runs E ss h sh Hsh),
          (getTransactionHistory_runs E ss h sh Hsh), (getAllData_runs E ss h sh Hsh).
  unfold readResponse. cbn [String.eqb Ascii.eqb Bool.eqb].
  do 5 eexists. split; [reflexivity|]. split; [reflexivity|].
  unfold mbind, result_bind.
  destruct (listed E sh) as [transactions|er].
  - left. exists transactions. split; reflexivity.
  - right. exists er. split; reflexivity.
Qed.

Lemma getAllData_is_the_three_reads_sample :
  exists vnd eur usd stats budget transactions,
    getMonthlyTotals (Some 0%nat) [february; march]
      = (Ok (Totals vnd eur usd), [february; march])
    /\ getStatsData utcEngine (Some 0%nat) [february; march]
      = (Ok (StatsData stats budget), [february; march])
    /\ getAllData utcEngine (Some 0%nat) [february; march]
      = (Ok (AllData vnd eur usd transactions stats budget), [february; march])
    /\ eur = VNum (ofZ 90) /\ length transactions = 3%nat.
Proof.
  destruct (getAllData_is_the_three_reads utcEngine [february; march] 0%nat february
              eq_refl) as (vnd & eur & usd & stats & budget & Ht & Hs & Hall).
  exists vnd, eur, usd, stats, budget.
  destruct Hall as [(transactions & Hl & Ha) | (er & Hl & _)];
    [|exfalso; vm_compute in Hl; discriminate].
  exists transactions. split; [exact Ht|]. split; [exact Hs|]. split; [exact Ha|].
  vm_compute in Ht. vm_compute in Hl. injection Ht as _ <- _. injection Hl as <-.
  split; reflexivity.
Defined.

(** X13 — an action name [doGet] does not test for is not refused: the
    request is answered like one without an action, with the totals of the
    requested month. *)
Theorem unknown_action_is_totals (E : Engine) (e : Params) (ss : Spreadsheet) :
  knownAction (actionOf e) = false ->
  doGet E e ss = getMonthlyTotals (findSheet ss (requestedSheet E e)) ss.
Proof.
  unfold knownAction, actionNames. cbn [existsb]. intros Hk.
  repeat (apply orb_false_iff in Hk as [? Hk]).
  rewrite doGet_read.
  - cbv zeta. repeat match goal with H : String.eqb _ _ = false |- _ => rewrite H; clear H end.
    cbn [orb]. now rewrite andb_false_r.
  - unfold isRead. repeat match goal with H : String.eqb _ _ = false |- _ => rewrite H; clear H end.
    reflexivity.
Qed.

Lemma unknown_action_is_totals_sample :
  doGet utcEngine (readRequest (Some "getalldata") "2026" "2") [february; march]
  = (Ok (Totals (VNum (ofZ 1450000)) (VNum (ofZ 90)) (VNum (ofZ 53))), [february; march]).
Proof.
  rewrite (unknown_action_is_totals utcEngine (readRequest (Some "getalldata") "2026" "2"))
    by reflexivity.
  vm_compute. reflexivity.
Defined.

(** ** Requests that always get a response *)

Lemma bind_answeredOrThrown {A} (m : M A) (k : A -> M Response) (ss : Spreadsheet) :
  (forall a ss', answeredOrThrown (fst (k a ss')) = true) ->
  answeredOrThrown (fst (bind m k ss)) = true.
Proof.
  intros Hk. unfold bind. destruct (m ss) as [[a|er] ss']; [apply Hk | reflexivity].
Qed.

Lemma tryCatch_answered (body : M Response) (handler : exn -> M Response)
    (ss : Spreadsheet) :
  answeredOrThrown (fst (body ss)) = true ->
  (forall er ss', answered (fst (handler er ss')) = true) ->
  answered (fst (tryCatch body handler ss)) = true.
Proof.
  intros Hb Hh. unfold tryCatch. destruct (body ss) as [[r|er] ss']; [exact Hb | apply Hh].
Qed.

Ltac answer_steps :=
  repeat first
    [ reflexivity
    | apply bind_answeredOrThrown; intros
    | match goal with
      | |- context [if ?b then _ else _] => destruct b
      | |- context [match toInteger ?x with _ => _ end] => destruct (toInteger x)
      end ].

Lemma deleteBranch_answers E e ss : answered (fst (deleteBranch E e ss)) = true.
Proof.
  unfold deleteBranch. destruct (falsyNum _ || lt _ _ || negb _); [reflexivity|].
  unfold mbind at 1. unfold M_bind, bind, getSheetByName.
  destruct (isNull _); [reflexivity|].
  apply tryCatch_answered; [|reflexivity].
  unfold mbind, M_bind. answer_steps.
Qed.

Lemma updateBranch_answers E e ss : answered (fst (updateBranch E e ss)) = true.
Proof.
  unfold updateBranch. destruct (falsyNum _ || lt _ _ || negb _); [reflexivity|].
  unfold mbind at 1. unfold M_bind, bind, getSheetByName.
  destruct (isNull _); [reflexivity|].
  apply tryCatch_answered; [|reflexivity].
  unfold mbind, M_bind. answer_steps.
Qed.

Lemma addEntryBranch_answers E e ss : answered (fst (addEntryBranch E e ss)) = true.
Proof.
  unfold addEntryBranch. apply tryCatch_answered; [|reflexivity].
  unfold mbind, M_bind. answer_steps.
Qed.

(** X6 — a delete, update or addEntry request always gets a response with
    the status "success" or "error": no exception leaves [doGet], whatever
    the parameters and the spreadsheet. *)
Theorem write_requests_always_answer (E : Engine) (e : Params) (ss : Spreadsheet) :
  param_action e = Some "delete" \/ param_action e = Some "update"
  \/ param_action e = Some "addEntry" ->
  answered (fst (doGet E e ss)) = true.
Proof.
  intros [Ha | [Ha | Ha]].
  - rewrite doGet_delete by exact Ha. apply deleteBranch_answers.
  - rewrite doGet_update by exact Ha. apply updateBranch_answers.
  - rewrite doGet_addEntry by exact Ha. apply addEntryBranch_answers.
Qed.

Lemma write_requests_always_answer_sample :
  answered (fst (doGet utcEngine (deleteRequest "0x" "No such sheet") [february])) = true
  /\ answered (fst (doGet utcEngine (moveRequest "31/12/9999 99:99:99") [february])) = true.
Proof.
  split.
  - apply (write_requests_always_answer utcEngine (deleteRequest "0x" "No such sheet")).
    left. reflexivity.
  - apply (write_requests_always_answer utcEngine (moveRequest "31/12/9999 99:99:99")).
    right. left. reflexivity.
Defined.

(** X7 — [doPost] always gets a response with the status "success" or
    "error", whatever the body and the spreadsheet: its whole body is inside
    the [try]. *)
Theorem doPost_always_answers (E : Engine) (body : Body) (ss : Spreadsheet) :
  answered (fst (doPost E body ss)) = true.
Proof.
  unfold doPost. apply tryCatch_answered; [|reflexivity].
  unfold mbind, M_bind. answer_steps.
Qed.

(** X19 — requests without a usable timestamp.  An addEntry request and
    an update request (one that passes the row and sheet checks) without a
    timestamp parameter, a POST body that is no JSON, is null, or whose
    timestamp is no string: each is answered with the status "error" and
    leaves the spreadsheet as it is. *)
Theorem missing_timestamp_is_refused (E : Engine) (ss : Spreadsheet) :
  (forall e, param_action e = Some "addEntry" -> param_timestamp e = None ->
     doGet E e ss
     = (Ok (Message "error"
              "Add failed: TypeError: Cannot read properties of undefined (reading 'match')"),
        ss))
  /\ (forall e, param_action e = Some "update" -> param_timestamp e = None ->
     exists msg, doGet E e ss = (Ok (Message "error" msg), ss))
  /\ (forall data, (forall s, timestamp data <> VStr s) ->
     exists msg, doPost E (Parsed data) ss = (Ok (Message "error" msg), ss))
  /\ (forall msg,
     doPost E (Malformed msg) ss = (Ok (Message "error" ("SyntaxError: " +:+ msg)), ss))
  /\ (exists msg, doPost E ParsedNull ss = (Ok (Message "error" msg), ss)).
Proof.
  split; [|split; [|split; [|split]]].
  - intros e Ha Ht. rewrite doGet_addEntry by exact Ha.
    unfold addEntryBranch, tryCatch, mbind, M_bind, bind, lift. rewrite Ht. reflexivity.
  - intros e Ha Ht. rewrite doGet_update by exact Ha. unfold updateBranch.
    destruct (falsyNum _ || lt _ _ || negb _); [eexists; reflexivity|].
    unfold mbind at 1. unfold M_bind, bind, getSheetByName.
    destruct (isNull _); [eexists; reflexivity|].
    unfold tryCatch, mbind, M_bind, bind, lift. rewrite Ht. eexists. reflexivity.
  - intros data Hts. unfold doPost, tryCatch, mbind, M_bind, bind, lift.
    cbn [JSON_parse]. destruct (timestamp data) as [| | | |s|] eqn:Hd;
      try (eexists; reflexivity).
    now destruct (Hts s).
  - reflexivity.
  - eexists. reflexivity.
Qed.

(** ** A row written from column A, on a grid that may have to grow *)

Lemma cellAt_writeRow_fields (g : Grid) (r c : nat) (xs : list content) :
  (1 <= r)%nat -> (1 <= c <= length xs)%nat ->
  cellAt (writeRow g r 1 xs) r c = default blank (xs !! pred c).
Proof.
  intros Hr Hc. unfold cellAt. rewrite row_of_writeRow by exact Hr.
  apply cellOf_writeCells_new, Hc.
Qed.

Lemma cellAt_writeRow_right (g : Grid) (r c : nat) (xs : list content) :
  (1 <= r)%nat -> (length xs < c)%nat ->
  cellAt (writeRow g r 1 xs) r c = cellAt g r c.
Proof.
  intros Hr Hc. unfold cellAt. rewrite row_of_writeRow by exact Hr.
  apply cellOf_writeCells_old, Hc.
Qed.

(** ** The last row with content, characterised *)

Lemma lastRow_is (g : Grid) (n : nat) :
  (forall i row, (n <= i)%nat -> g !! i = Some row -> rowBlank row = true) ->
  (n = 0%nat \/ exists row, g !! pred n = Some row /\ rowBlank row = false) ->
  lastRow g = n.
Proof.
  revert n. induction g as [|row g IH]; intros n Hblank Hlast.
  - destruct Hlast as [->|(row & Hrow & _)]; [reflexivity | discriminate].
  - cbn [lastRow]. destruct n as [|n].
    + rewrite (IH 0%nat).
      * now rewrite (Hblank 0%nat row) by (lia || reflexivity).
      * intros i r Hi Hr. apply (Hblank (S i)); [lia | exact Hr].
      * now left.
    + destruct Hlast as [Hn|(row' & Hrow' & Hnb)]; [discriminate|].
      cbn [pred] in Hrow'. destruct n as [|n].
      * injection Hrow' as ->. rewrite (IH 0%nat).
        -- now rewrite Hnb.
        -- intros i r Hi Hr. apply (Hblank (S i)); [lia | exact Hr].
        -- now left.
      * rewrite (IH (S n)); [reflexivity| |].
        -- intros i r Hi Hr. apply (Hblank (S i)); [lia | exact Hr].
        -- right. exists row'. split; [exact Hrow' | exact Hnb].
Qed.

Lemma blank_past_lastRow (g : Grid) (n i : nat) (row : list content) :
  (lastRow g <= i)%nat -> (g ++ replicate n []) !! i = Some row -> rowBlank row = true.
Proof.
  intros Hi Hrow. destruct (Nat.lt_ge_cases i (length g)) as [Hin|Hout].
  - rewrite lookup_app_l in Hrow by exact Hin. eapply blank_below_lastRow; eassumption.
  - rewrite lookup_app_r in Hrow by exact Hout.
    apply lookup_replicate in Hrow as [-> _]. reflexivity.
Qed.

Lemma not_blank_with_timestamp (ts : string) (xs row : list content) :
  ts <> "" -> rowBlank (writeCells 1 (Lit (VStr ts) :: xs) row) = false.
Proof.
  intros Hts. unfold writeCells. change (pred 1) with 0%nat. rewrite take_0.
  cbn [app rowBlank forallb]. destruct ts; [contradiction | reflexivity].
Qed.

(** After a row with content is appended, it is the last row. *)
Lemma lastRow_appended (g : Grid) (ts : string) (xs : list content) :
  ts <> "" ->
  lastRow (writeRow g (S (lastRow g)) 1 (Lit (VStr ts) :: xs)) = S (lastRow g).
Proof.
  intros Hts. apply lastRow_is.
  - intros i row Hi. unfold writeRow. cbn [pred].
    rewrite list_lookup_alter_ne by lia. apply blank_past_lastRow. lia.
  - right. cbn [pred].
    pose proof (row_of_writeRow g (S (lastRow g)) 1 (Lit (VStr ts) :: xs) ltac:(lia)) as Hrow.
    cbn [pred] in Hrow.
    destruct (writeRow g (S (lastRow g)) 1 (Lit (VStr ts) :: xs) !! lastRow g)
      as [row|] eqn:Hl.
    + exists row. split; [reflexivity|]. cbn in Hrow. subst row.
      now apply not_blank_with_timestamp.
    + apply lookup_ge_None in Hl. rewrite length_writeRow in Hl. lia.
Qed.

(** ** Values of literal cells *)

Lemma literal_cell (g : Grid) (r c : nat) :
  literalRows g = true -> (3 <= r)%nat -> (1 <= c <= 6)%nat ->
  exists v, cellAt g r c = Lit v.
Proof.
  unfold literalRows, cellAt, cellOf, dataRows. intros Hlit Hr Hc.
  destruct (g !! pred r) as [row|] eqn:Hrow; [|exists (VStr ""); reflexivity].
  change (default [] (Some row)) with row.
  destruct (row !! pred c) as [x|] eqn:Hx; [|exists (VStr ""); reflexivity].
  rewrite forallb_forall in Hlit.
  assert (Hin : In row (drop 2 g)).
  { apply list_elem_of_In. apply (list_elem_of_lookup_2 _ (pred r - 2)%nat).
    rewrite lookup_drop. replace (2 + (pred r - 2))%nat with (pred r) by lia. exact Hrow. }
  specialize (Hlit row Hin). rewrite forallb_forall in Hlit.
  assert (Hinx : In x (take 6 row)).
  { apply list_elem_of_In. apply (list_elem_of_lookup_2 _ (pred c)).
    rewrite lookup_take_lt by lia. exact Hx. }
  specialize (Hlit x Hinx). destruct x as [v|f]; [now exists v | discriminate].
Qed.

Lemma valueAt_of_cell (g g' : Grid) (r c : nat) (v : value) :
  cellAt g r c = Lit v -> cellAt g' r c = cellAt g r c -> valueAt g' r c = valueAt g r c.
Proof. intros Hv Hc. unfold valueAt. rewrite Hc, Hv. reflexivity. Qed.

Lemma filter_ext_elem {A} (P Q : A -> Prop) `{!forall x, Decision (P x)}
    `{!forall x, Decision (Q x)} (l : list A) :
  (forall x, x ∈ l -> P x <-> Q x) -> filter P l = filter Q l.
Proof.
  induction l as [|x l IH]; intros Hl; [reflexivity|].
  assert (IH' : filter P l = filter Q l).
  { apply IH. intros y Hy. apply Hl. now right. }
  destruct (decide (P x)) as [Hp|Hp].
  - rewrite !filter_cons_True by (exact Hp || (apply Hl; [left|exact Hp])). now rewrite IH'.
  - rewrite !filter_cons_False; [exact IH' | |exact Hp].
    intros Hq. apply Hp. apply Hl; [left | exact Hq].
Qed.

Lemma mapM_result_ext_elem {A B} (f f' : A -> result B) (l : list A) :
  (forall x, x ∈ l -> f x = f' x) -> mapM f l = mapM f' l.
Proof.
  induction l as [|x l IH]; intros Hl; [reflexivity|].
  cbn [mapM]. rewrite (Hl x) by left. rewrite IH; [reflexivity|].
  intros y Hy. apply Hl. now right.
Qed.

Lemma numOrZero_twice (x : number) : numOrZero (numOrZero x) = numOrZero x.
Proof. now destruct x. Qed.

Lemma orElse_text (s : string) : orElse (VStr s) (VStr "") = VStr s.
Proof.
  unfold orElse, truthy. destruct (String.eqb_spec s "") as [->|]; reflexivity.
Qed.

(** ** The row an addEntry request appends, in the next listing *)

Section Appended.

Variables (E : Engine) (e : Params) (ts : string) (sh : Sheet).
Hypothesis Hts : param_timestamp e = Some ts.
Hypothesis Hne : ts <> "".
Hypothesis Hrows : (2 <= lastRow (cells sh))%nat.
Hypothesis Hlit : literalRows (cells sh) = true.

Local Abbreviation g := (cells sh).
Local Abbreviation g1 := (writeRow g (S (lastRow g)) 1 (map Lit (rowOf e))).

Lemma appended_lastRow : lastRow g1 = S (lastRow g).
Proof.
  unfold rowOf. rewrite Hts. cbn [map paramValue]. now apply lastRow_appended.
Qed.

Lemma appended_old_value (r c : nat) :
  (3 <= r <= lastRow g)%nat -> (1 <= c <= 6)%nat -> valueAt g1 r c = valueAt g r c.
Proof.
  intros Hr Hc. destruct (literal_cell g r c Hlit) as [v Hv]; [lia | lia |].
  apply (valueAt_of_cell g g1 r c v Hv).
  apply cellAt_writeRow_elsewhere; lia.
Qed.

Lemma appended_new_value (c : nat) :
  (1 <= c <= 6)%nat ->
  valueAt g1 (S (lastRow g)) c = nth (pred c) (rowOf e) VUndefined.
Proof.
  intros Hc. unfold valueAt.
  rewrite cellAt_writeRow_fields by (cbn [length map rowOf]; lia).
  destruct c as [|[|[|[|[|[|[|c]]]]]]]; try lia; reflexivity.
Qed.

Lemma appended_rows : transactionRows g1 = transactionRows g ++ [S (lastRow g)].
Proof.
  unfold transactionRows. rewrite appended_lastRow.
  replace (S (lastRow g) - 2)%nat with (S (lastRow g - 2)) by lia.
  rewrite seq_S, filter_app.
  replace (3 + (lastRow g - 2))%nat with (S (lastRow g)) by lia. f_equal.
  - apply filter_ext_elem. intros r Hr. apply elem_of_seq in Hr.
    rewrite appended_old_value by lia. reflexivity.
  - rewrite filter_cons_True; [reflexivity|].
    rewrite appended_new_value by lia. unfold rowOf. rewrite Hts. cbn.
    destruct ts; [contradiction | reflexivity].
Qed.

Lemma appended_old_transaction (name : string) (r : nat) :
  (3 <= r <= lastRow g)%nat ->
  transactionOfRow E name g1 r = transactionOfRow E name g r.
Proof.
  intros Hr. unfold transactionOfRow. now rewrite !appended_old_value by lia.
Qed.

Lemma appended_new_transaction (name : string) :
  transactionOfRow E name g1 (S (lastRow g))
  = (iso ← toISO E (VStr ts); Ok (entryTransaction e name (S (lastRow g)) iso)).
Proof.
  unfold transactionOfRow. rewrite !appended_new_value by lia.
  unfold rowOf. rewrite Hts. cbn [nth pred paramValue ToNumber].
  rewrite !numOrZero_twice, !orElse_text. reflexivity.
Qed.

Lemma appended_listed :
  listed E (withCells sh g1)
  = (iso ← toISO E (VStr ts);
     rest ← listed E sh;
     Ok (entryTransaction e (sheetName sh) (S (lastRow g)) iso :: rest)).
Proof.
  unfold listed. cbn [withCells cells sheetName].
  rewrite appended_rows, reverse_app. cbn [reverse rev_append app mapM].
  rewrite appended_new_transaction.
  rewrite (mapM_result_ext_elem _ (transactionOfRow E (sheetName sh) g)).
  - unfold mbind, mret, result_bind, result_ret.
    destruct (toISO E (VStr ts)); [|reflexivity].
    destruct (mapM _ _); reflexivity.
  - intros r Hr. apply elem_of_reverse, transactionRows_spec in Hr as [Hr _].
    now apply appended_old_transaction.
Qed.

End Appended.

(** X8 — the entry an addEntry request adds to a month that has a sheet
    (with its two reserved rows, and values rather than formulas in its
    transaction rows).  The request answers "Added to ..."; in the next
    transaction list the new entry comes first, under the row number after
    the former last row and with the amounts, category and note of the
    request, and the former list follows unchanged. *)
Theorem added_entry_is_listed_first (E : Engine) (e : Params) (ss : Spreadsheet)
    (ts : string) (date : Date) (name : string) (h : nat) (sh : Sheet) :
  param_action e = Some "addEntry" ->
  param_timestamp e = Some ts ->
  ts <> "" ->
  timestampDate E (VStr ts) = Ok date ->
  getMonthSheetName E date = Ok name ->
  findSheet ss name = Some h ->
  ss !! h = Some sh ->
  (2 <= lastRow (cells sh))%nat ->
  literalRows (cells sh) = true ->
  exists sh' : Sheet,
    let ss' := <[h := sh']> ss in
    doGet E e ss = (Ok (Message "success" ("Added to " +:+ name)), ss')
    /\ getTransactionHistory E (Some h) ss'
       = (iso ← toISO E (VStr ts);
          rest ← listed E sh;
          Ok (TransactionList
                (entryTransaction e name (S (lastRow (cells sh))) iso :: rest)), ss')
    /\ getTransactionHistory E (Some h) ss
       = (rest ← listed E sh; Ok (TransactionList rest), ss).
Proof.
  intros Ha Hts Hne Hdate Hname Hf Hsh Hrows Hlit.
  destruct (findSheet_Some ss name h Hf) as (sh0 & Hsh0 & Hn0).
  assert (sh0 = sh) as -> by congruence.
  assert (Hh : (h < length ss)%nat) by (eapply lookup_lt_Some, Hsh).
  eexists. cbv zeta. split; [|split].
  - rewrite doGet_addEntry by exact Ha.
    rewrite (addEntryBranch_runs E e ss date name h sh); try assumption.
    + now rewrite Hn0.
    + now rewrite Hts.
  - rewrite (getTransactionHistory_runs E _ h _ (list_lookup_insert_eq _ _ _ Hh)).
    unfold readResponse. cbn [String.eqb Ascii.eqb Bool.eqb].
    rewrite (appended_listed E e ts sh Hts Hne Hrows Hlit). rewrite Hn0.
    unfold mbind, result_bind.
    destruct (toISO E (VStr ts)); [|reflexivity]. now destruct (listed E sh).
  - rewrite (getTransactionHistory_runs E ss h sh Hsh). reflexivity.
Qed.

Lemma added_entry_is_listed_first_sample :
  let e := entryRequest "addEntry" None None
             "25/02/2026 20:05:00" "90000" "3.2" "" "Fun" "cinema" in
  exists ss' t16 t15 t14 t13,
    doGet utcEngine e [february; march]
      = (Ok (Message "success" "Added to February 2026"), ss')
    /\ getTransactionHistory utcEngine (Some 0%nat) ss'
      = (Ok (TransactionList [t16; t15; t14; t13]), ss')
    /\ getTransactionHistory utcEngine (Some 0%nat) [february; march]
      = (Ok (TransactionList [t15; t14; t13]), [february; march])
    /\ t16 = {| txRow := 16; txSheetName := "February 2026";
                txTimestamp := "2026-02-25T20:05:00.000Z";
                txVnd := ofZ 90000; txEur := parseFloat "3.2"; txUsd := zero;
                txCategory := VStr "Fun"; txNote := VStr "cinema" |}.
Proof.
  cbv zeta.
  destruct (added_entry_is_listed_first utcEngine
              (entryRequest "addEntry" None None
                 "25/02/2026 20:05:00" "90000" "3.2" "" "Fun" "cinema")
              [february; march] "25/02/2026 20:05:00" (Some 1772049900000)
              "February 2026" 0%nat february
              eq_refl eq_refl ltac:(discriminate) eq_refl eq_refl eq_refl eq_refl
              ltac:(vm_compute; lia) eq_refl)
    as (sh' & Hadd & Hafter & Hbefore).
  cbv zeta in Hadd, Hafter.
  eexists _, _, _, _, _. split; [exact Hadd|]. split; [|split].
  - rewrite Hafter. vm_compute. reflexivity.
  - vm_compute. reflexivity.
  - vm_compute. reflexivity.
Defined.

(** ** The totals after an append *)

Lemma alter_middle {A} (f : A -> A) (l : list A) (i : nat) (x : A) :
  l !! i = Some x -> alter f i l = take i l ++ f x :: drop (S i) l.
Proof.
  revert i. induction l as [|y l IH]; intros i Hx; [discriminate|].
  destruct i as [|i].
  - injection Hx as ->. reflexivity.
  - cbn [alter list_alter take drop app]. f_equal. now apply IH.
Qed.

Lemma omap_step {A B} (F : A -> option B) (x : A) (l : list A) :
  omap F (x :: l) = match F x with Some y => y :: omap F l | None => omap F l end.
Proof. reflexivity. Qed.

Lemma omap_none {A B} (F : A -> option B) (l : list A) :
  (forall x, x ∈ l -> F x = None) -> omap F l = [].
Proof.
  induction l as [|x l IH]; intros Hl; [reflexivity|].
  rewrite omap_step, (Hl x) by left. apply IH. intros y Hy. apply Hl. now right.
Qed.

(** What the rows from 3 down yield after an append: what they yielded,
    then what the new row yields. *)
Lemma dataRows_appended {A} (F : list content -> option A) (g : Grid) (xs : list content) :
  (2 <= lastRow g)%nat ->
  (forall row, rowBlank row = true -> F row = None) ->
  omap F (dataRows (writeRow g (S (lastRow g)) 1 xs))
  = omap F (dataRows g)
    ++ match F (writeCells 1 xs (default [] (g !! lastRow g))) with
       | Some y => [y]
       | None => []
       end.
Proof.
  intros H2 HF. pose proof (lastRow_le_length g) as Hle.
  unfold writeRow, dataRows. cbn [pred].
  set (g' := g ++ replicate (S (lastRow g) - length g) []).
  destruct (g' !! lastRow g) as [row0|] eqn:Hrow0.
  2:{ apply lookup_ge_None in Hrow0. unfold g' in Hrow0.
      rewrite length_app, length_replicate in Hrow0. lia. }
  assert (Hsame : default [] (g !! lastRow g) = row0).
  { rewrite <- (lookup_extended g (S (lastRow g) - length g)). fold g'. now rewrite Hrow0. }
  rewrite Hsame, (alter_middle _ g' _ row0 Hrow0).
  replace (take (lastRow g) g') with (take (lastRow g) g)
    by (unfold g'; now rewrite take_app_le by exact Hle).
  rewrite drop_app_le by (rewrite length_take; lia).
  rewrite omap_app, omap_step.
  rewrite (omap_none F (drop (S (lastRow g)) g')).
  2:{ intros row Hrow. apply HF. apply list_elem_of_lookup in Hrow as [i Hi].
      rewrite lookup_drop in Hi. eapply (blank_past_lastRow g); [|exact Hi]. lia. }
  rewrite <- (drop_take_drop g 2 (lastRow g)) by exact H2.
  rewrite omap_app, (omap_none F (drop (lastRow g) g)).
  2:{ intros row Hrow. apply HF. apply list_elem_of_lookup in Hrow as [i Hi].
      rewrite lookup_drop in Hi. eapply blank_below_lastRow; [|exact Hi]. lia. }
  rewrite app_nil_r. now destruct (F (writeCells 1 xs row0)).
Qed.

Lemma columnTotal_appended (g : Grid) (xs : list content) (c : nat) (x : number) :
  (2 <= lastRow g)%nat -> (1 <= c <= length xs)%nat ->
  xs !! pred c = Some (Lit (VNum x)) ->
  columnTotal (writeRow g (S (lastRow g)) 1 xs) c = add (columnTotal g c) x.
Proof.
  intros H2 Hc Hx. unfold columnTotal.
  rewrite dataRows_appended;
    [|exact H2 | intros row Hb; now rewrite cellOf_blank_row by exact Hb].
  rewrite cellOf_writeCells_new by exact Hc. rewrite Hx. cbn [default numIn].
  unfold total. now rewrite foldl_app.
Qed.

Lemma orElse_number (x : number) : orElse (VNum x) (VNum zero) = VNum (numOrZero x).
Proof. unfold orElse, numOrZero, truthy. now destruct (falsyNum x). Qed.

Lemma total_cell (g : Grid) (c : ascii) :
  cellAt g 2 (column c) = Formula (FSum (column c)) ->
  totalOf g c = VNum (numOrZero (columnTotal g (column c))).
Proof.
  intros Hc. unfold totalOf, valueAt. rewrite Hc. cbn [evalFormula].
  unfold SUM. fold (columnTotal g (column c)). apply orElse_number.
Qed.

(** X9 — the totals after an addEntry request, on a month sheet whose
    totals row holds the three sums of the layout: each total is the former
    total plus the amount of the request in that currency (an amount that
    does not parse counting as 0), in binary64 addition. *)
Theorem added_entry_adds_to_totals (E : Engine) (e : Params) (ss : Spreadsheet)
    (date : Date) (name : string) (h : nat) (sh : Sheet) :
  param_action e = Some "addEntry" ->
  timestampDate E (paramValue (param_timestamp e)) = Ok date ->
  getMonthSheetName E date = Ok name ->
  findSheet ss name = Some h ->
  ss !! h = Some sh ->
  (2 <= lastRow (cells sh))%nat ->
  (forall c : ascii, In c ["B"; "C"; "D"]%char ->
     cellAt (cells sh) 2 (column c) = Formula (FSum (column c))) ->
  let total := fun c => columnTotal (cells sh) (column c) in
  exists sh' : Sheet,
    let ss' := <[h := sh']> ss in
    doGet E e ss = (Ok (Message "success" ("Added to " +:+ name)), ss')
    /\ getMonthlyTotals (Some h) ss
       = (Ok (Totals (VNum (numOrZero (total "B"%char)))
                     (VNum (numOrZero (total "C"%char)))
                     (VNum (numOrZero (total "D"%char)))), ss)
    /\ getMonthlyTotals (Some h) ss'
       = (Ok (Totals (VNum (numOrZero (add (total "B"%char) (amountVND e))))
                     (VNum (numOrZero (add (total "C"%char) (amountEUR e))))
                     (VNum (numOrZero (add (total "D"%char) (amountUSD e))))), ss').
Proof.
  intros Ha Hdate Hname Hf Hsh H2 Hsums. cbv zeta.
  destruct (findSheet_Some ss name h Hf) as (sh0 & Hsh0 & Hn0).
  assert (sh0 = sh) as -> by congruence.
  assert (Hh : (h < length ss)%nat) by (eapply lookup_lt_Some, Hsh).
  pose proof (Hsums "B"%char ltac:(cbn; tauto)) as HB.
  pose proof (Hsums "C"%char ltac:(cbn; tauto)) as HC.
  pose proof (Hsums "D"%char ltac:(cbn; tauto)) as HD.
  eexists. split; [|split].
  - rewrite doGet_addEntry by exact Ha.
    rewrite (addEntryBranch_runs E e ss date name h sh Hdate Hname Hf Hsh).
    now rewrite Hn0.
  - rewrite (getMonthlyTotals_runs ss h sh E Hsh). unfold readResponse.
    cbn [String.eqb Ascii.eqb Bool.eqb].
    now rewrite (total_cell _ "B" HB), (total_cell _ "C" HC), (total_cell _ "D" HD).
  - rewrite (getMonthlyTotals_runs _ h _ E (list_lookup_insert_eq _ _ _ Hh)).
    unfold readResponse. cbn [String.eqb Ascii.eqb Bool.eqb withCells cells].
    rewrite !total_cell
      by (rewrite cellAt_writeRow_elsewhere by lia; assumption).
    rewrite (columnTotal_appended _ _ (column "B") (amountVND e) H2),
            (columnTotal_appended _ _ (column "C") (amountEUR e) H2),
            (columnTotal_appended _ _ (column "D") (amountUSD e) H2);
      first [reflexivity | vm_compute; lia].
Qed.

Lemma added_entry_adds_to_totals_sample :
  let e := entryRequest "addEntry" None None
             "25/02/2026 20:05:00" "90000" "3" "n/a" "Fun" "cinema" in
  exists ss',
    doGet utcEngine e [february; march]
      = (Ok (Message "success" "Added to February 2026"), ss')
    /\ getMonthlyTotals (Some 0%nat) [february; march]
       = (Ok (Totals (VNum (ofZ 1450000)) (VNum (ofZ 90)) (VNum (ofZ 53))),
          [february; march])
    /\ getMonthlyTotals (Some 0%nat) ss'
       = (Ok (Totals (VNum (ofZ 1540000)) (VNum (ofZ 93)) (VNum (ofZ 53))), ss').
Proof.
  cbv zeta.
  destruct (added_entry_adds_to_totals utcEngine
              (entryRequest "addEntry" None None
                 "25/02/2026 20:05:00" "90000" "3" "n/a" "Fun" "cinema")
              [february; march] (Some 1772049900000) "February 2026" 0%nat february
              eq_refl eq_refl eq_refl eq_refl eq_refl ltac:(vm_compute; lia))
    as (sh' & Hadd & Hbefore & Hafter).
  { intros c [<-|[<-|[<-|[]]]]; reflexivity. }
  cbv zeta in Hadd, Hafter.
  eexists. split; [exact Hadd|]. split.
  - vm_compute. reflexivity.
  - rewrite Hafter. vm_compute. reflexivity.
Defined.

(** ** The POST path on a month that has a sheet *)

(** X16 — [doPost] with a body whose timestamp names a month that has a
    sheet.  The six fields (a missing or falsy amount as 0, a missing
    category or note as the empty string) go into the cells A to F of the
    row after the last row with content of that sheet; no other cell of the
    sheet and no other sheet changes; the response is "Added to" and the
    name of the sheet. *)
Theorem doPost_appends (E : Engine) (data : Entry) (ss : Spreadsheet)
    (date : Date) (name : string) (h : nat) (sh : Sheet) :
  timestampDate E (timestamp data) = Ok date ->
  getMonthSheetName E date = Ok name ->
  findSheet ss name = Some h ->
  ss !! h = Some sh ->
  let r := S (lastRow (cells sh)) in
  let g' := writeRow (cells sh) r 1 (map Lit (postedRow data)) in
  doPost E (Parsed data) ss
  = (Ok (Message "success" ("Added to " +:+ name)), <[h := withCells sh g']> ss)
  /\ map (cellAt g' r) [1; 2; 3; 4; 5; 6]%nat = map Lit (postedRow data)
  /\ (forall c : nat, (6 < c)%nat -> cellAt g' r c = cellAt (cells sh) r c)
  /\ (forall r' c : nat, (1 <= r')%nat -> r' <> r -> cellAt g' r' c = cellAt (cells sh) r' c)
  /\ (forall h' : nat, h' <> h -> (<[h := withCells sh g']> ss) !! h' = ss !! h').
Proof.
  intros Hdate Hname Hf Hsh. cbv zeta.
  destruct (findSheet_Some ss name h Hf) as (sh0 & Hsh0 & Hn0).
  assert (sh0 = sh) as -> by congruence.
  assert (Hh : (h < length ss)%nat) by (eapply lookup_lt_Some, Hsh).
  split; [|split; [|split; [|split]]].
  - unfold doPost, tryCatch.
    unfold mbind at 1. unfold M_bind, bind, lift. cbn [JSON_parse].
    unfold mbind at 1. unfold M_bind, bind, lift. rewrite Hdate.
    unfold mbind at 1. unfold M_bind, bind.
    rewrite (getOrCreate_existing E date name h ss Hname Hf).
    unfold mbind at 1. unfold M_bind, bind.
    fold (postedRow data). rewrite (appendRow_runs ss h sh _ Hsh).
    unfold mbind, mret, M_bind, M_ret, bind, ret, getName.
    rewrite (reading_runs _ _ h
               (withCells sh (writeRow (cells sh) (S (lastRow (cells sh))) 1
                                       (map Lit (postedRow data)))))
      by (apply list_lookup_insert_eq, Hh).
    cbn [withCells sheetName]. now rewrite Hn0.
  - cbn [map]. rewrite !cellAt_writeRow_fields by (cbn [length map postedRow]; lia).
    reflexivity.
  - intros c Hc. apply cellAt_writeRow_right; [lia | cbn [length map postedRow]; lia].
  - intros r' c Hr' Hne. apply cellAt_writeRow_elsewhere; [lia | exact Hr' | exact Hne].
  - intros h' Hne. apply list_lookup_insert_ne. congruence.
Qed.

Lemma doPost_appends_sample :
  let data := {| timestamp := VStr "25/02/2026 20:05:00"; vnd := VNum (ofZ 90000);
                 eur := VUndefined; usd := VNull; category := VStr "Fun";
                 note := VUndefined |} in
  exists g',
    doPost utcEngine (Parsed data) [february; march]
    = (Ok (Message "success" "Added to February 2026"), [withCells february g'; march])
    /\ map (cellAt g' 16) [1; 2; 3; 4; 5; 6]%nat
       = [Lit (VStr "25/02/2026 20:05:00"); Lit (VNum (ofZ 90000)); Lit (VNum zero);
          Lit (VNum zero); Lit (VStr "Fun"); Lit (VStr "")]
    /\ cellAt g' 15 1 = Lit (VStr "21/02/2026 12:00:00").
Proof.
  cbv zeta.
  destruct (doPost_appends utcEngine
              {| timestamp := VStr "25/02/2026 20:05:00"; vnd := VNum (ofZ 90000);
                 eur := VUndefined; usd := VNull; category := VStr "Fun";
                 note := VUndefined |}
              [february; march] (Some 1772049900000) "February 2026" 0%nat february
              eq_refl eq_refl eq_refl eq_refl)
    as (Hrun & Hcells & _ & Hrest & _).
  eexists. split; [exact Hrun|]. split; [exact Hcells|].
  etransitivity; [exact (Hrest 15%nat 1%nat ltac:(lia) ltac:(vm_compute; lia)) | reflexivity].
Defined.

(** ** The second attempt after a failed creation *)

Lemma lastRow_empty (n : nat) : lastRow (replicate n []) = 0%nat.
Proof. induction n as [|n IH]; [reflexivity|]. cbn [replicate lastRow]. now rewrite IH. Qed.

Lemma first_row_written (n : nat) (xs : list content) :
  writeRow (replicate n []) 1 1 xs = writeCells 1 xs [] :: replicate (pred n) [].
Proof.
  destruct n as [|n]; [reflexivity|].
  rewrite writeRow_inside by (rewrite length_replicate; lia). reflexivity.
Qed.

(** X17 — adding the first entry of a month twice.  The first addEntry
    request fails and leaves the empty sheet of that name; the second,
    identical request finds that sheet and answers "Added to ...", but the
    row goes into row 1 of the empty sheet, above the rows a read looks at:
    the transaction list of that month stays empty and its totals stay 0. *)
Theorem second_attempt_is_not_listed (E : Engine) (e : Params) (ss : Spreadsheet)
    (date : Date) (name : string) :
  param_action e = Some "addEntry" ->
  timestampDate E (paramValue (param_timestamp e)) = Ok date ->
  getMonthSheetName E date = Ok name ->
  findSheet ss name = None ->
  let h := length ss in
  let g2 := writeRow (cells (emptySheet name)) 1 1 (map Lit (rowOf e)) in
  let ss1 := ss ++ [emptySheet name] in
  let ss2 := ss ++ [withCells (emptySheet name) g2] in
  doGet E e ss
  = (Ok (Message "error" "Add failed: Exception: The number of columns in the data does not match the number of columns in the range. The data has 10 but the range has 11."),
     ss1)
  /\ doGet E e ss1 = (Ok (Message "success" ("Added to " +:+ name)), ss2)
  /\ map (cellAt g2 1) [1; 2; 3; 4; 5; 6]%nat = map Lit (rowOf e)
  /\ findSheet ss2 name = Some h
  /\ getTransactionHistory E (Some h) ss2 = (Ok (TransactionList []), ss2)
  /\ getMonthlyTotals (Some h) ss2
     = (Ok (Totals (VNum zero) (VNum zero) (VNum zero)), ss2).
Proof.
  intros Ha Hdate Hname Hf. cbv zeta.
  assert (Hnew : findSheet (ss ++ [emptySheet name]) name = Some (length ss))
    by (apply findSheet_app_new; [exact Hf | reflexivity]).
  assert (Hl1 : (ss ++ [emptySheet name]) !! length ss = Some (emptySheet name))
    by (rewrite lookup_app_r by lia; now rewrite Nat.sub_diag).
  assert (Hl2 : forall sh : Sheet, (ss ++ [sh]) !! length ss = Some sh)
    by (intros sh; rewrite lookup_app_r by lia; now rewrite Nat.sub_diag).
  assert (Hins : forall sh : Sheet, <[length ss := sh]> (ss ++ [emptySheet name]) = ss ++ [sh]).
  { intros sh. rewrite insert_app_r_alt by lia. now rewrite Nat.sub_diag. }
  assert (Hlast : (lastRow (writeRow (cells (emptySheet name)) 1 1 (map Lit (rowOf e)))
                   <= 1)%nat).
  { unfold emptySheet. cbn [cells]. rewrite first_row_written. cbn [lastRow].
    rewrite lastRow_empty. destruct (rowBlank _); lia. }
  split; [|split; [|split; [|split; [|split]]]].
  - rewrite doGet_addEntry by exact Ha.
    unfold addEntryBranch, tryCatch, mbind, M_bind, bind, lift. rewrite Hdate.
    now rewrite (getOrCreate_missing E date name ss Hname Hf).
  - rewrite doGet_addEntry by exact Ha.
    rewrite (addEntryBranch_runs E e _ date name (length ss) (emptySheet name)
               Hdate Hname Hnew Hl1).
    rewrite Hins.
    change (lastRow (cells (emptySheet name))) with (lastRow (replicate newSheetRows [])).
    rewrite lastRow_empty. reflexivity.
  - cbn [map]. rewrite !cellAt_writeRow_fields by (cbn [length map rowOf]; lia).
    reflexivity.
  - apply findSheet_app_new; [exact Hf | reflexivity].
  - rewrite (getTransactionHistory_runs E _ _ _ (Hl2 _)).
    unfold readResponse, listed, transactionRows.
    cbn [String.eqb Ascii.eqb Bool.eqb withCells cells].
    replace (lastRow _ - 2)%nat with 0%nat by lia. reflexivity.
  - rewrite (getMonthlyTotals_runs _ _ _ E (Hl2 _)).
    unfold readResponse, totalOf, valueAt.
    cbn [String.eqb Ascii.eqb Bool.eqb withCells cells].
    rewrite !cellAt_writeRow_elsewhere by lia. reflexivity.
Qed.

Lemma second_attempt_is_not_listed_sample :
  let e := entryRequest "addEntry" None None
             "02/04/2026 09:00:00" "0" "12" "0" "Food" "bread" in
  exists ss1 ss2,
    doGet utcEngine e [february; march]
      = (Ok (Message "error" "Add failed: Exception: The number of columns in the data does not match the number of columns in the range. The data has 10 but the range has 11."),
         ss1)
    /\ doGet utcEngine e ss1 = (Ok (Message "success" "Added to April 2026"), ss2)
    /\ doGet utcEngine (readRequest (Some "getTransactions") "2026" "4") ss2
       = (Ok (TransactionList []), ss2).
Proof.
  cbv zeta.
  destruct (second_attempt_is_not_listed utcEngine
              (entryRequest "addEntry" None None
                 "02/04/2026 09:00:00" "0" "12" "0" "Food" "bread")
              [february; march] (Some 1775120400000) "April 2026"
              eq_refl eq_refl eq_refl eq_refl)
    as (Hfirst & Hsecond & _ & Hfind & Hlist & _).
  eexists _, _. split; [exact Hfirst|]. split; [exact Hsecond|].
  rewrite doGet_read by reflexivity. cbv zeta.
  replace (requestedSheet utcEngine (readRequest (Some "getTransactions") "2026" "4"))
    with "April 2026" by reflexivity.
  rewrite Hfind. exact Hlist.
Defined.

(** ** The calendar *)

(** Tests on closed numbers, computed. *)
Ltac closed_tests :=
  repeat match goal with
  | |- context [Z.ltb ?a ?b] =>
      let v := eval vm_compute in (Z.ltb a b) in
      first [constr_eq v true | constr_eq v false]; change (Z.ltb a b) with v
  | |- context [Z.leb ?a ?b] =>
      let v := eval vm_compute in (Z.leb a b) in
      first [constr_eq v true | constr_eq v false]; change (Z.leb a b) with v
  | |- context [Z.eqb ?a ?b] =>
      let v := eval vm_compute in (Z.eqb a b) in
      first [constr_eq v true | constr_eq v false]; change (Z.eqb a b) with v
  | H : context [Z.eqb ?a ?b] |- _ =>
      let v := eval vm_compute in (Z.eqb a b) in
      first [constr_eq v true | constr_eq v false]; change (Z.eqb a b) with v in H
  end;
  cbv beta iota delta [orb andb negb] in *.

Lemma month_cases (m : Z) :
  1 <= m <= 12 ->
  m = 1 \/ m = 2 \/ m = 3 \/ m = 4 \/ m = 5 \/ m = 6 \/ m = 7 \/ m = 8 \/ m = 9
  \/ m = 10 \/ m = 11 \/ m = 12.
Proof. lia. Qed.

Ltac each_month m Hm :=
  destruct (month_cases m Hm) as [->|[->|[->|[->|[->|[->|[->|[->|[->|[->|[->| ->]]]]]]]]]]].

(** The era and the year of the era, back from the day of the era. *)
Lemma era_part (era yoe doy : Z) :
  0 <= yoe <= 399 -> 0 <= doy < yearLength yoe ->
  let doe := yoe * 365 + yoe / 4 - yoe / 100 + doy in
  (era * 146097 + doe) / 146097 = era
  /\ (doe - doe / 1460 + doe / 36524 - doe / 146096) / 365 = yoe.
Proof.
  intros Hy Hd. cbv zeta. unfold yearLength in Hd. split.
  - destruct (_ && _); Z.to_euclidean_division_equations; lia.
  - destruct ((yoe + 1) mod 4 =? 0) eqn:H4; destruct ((yoe + 1) mod 100 =? 0) eqn:H100;
      destruct ((yoe + 1) mod 400 =? 0) eqn:H400; cbn in Hd;
      rewrite ?Z.eqb_eq, ?Z.eqb_neq in *;
      Z.to_euclidean_division_equations; lia.
Qed.

(** The month and the day of the month, back from the day of the year. *)
Lemma doy_part (mp d : Z) :
  0 <= mp <= 11 -> 1 <= d ->
  d <= (153 * (mp + 1) + 2) / 5 - (153 * mp + 2) / 5 ->
  let doy := (153 * mp + 2) / 5 + d - 1 in
  (5 * doy + 2) / 153 = mp /\ doy - (153 * mp + 2) / 5 + 1 = d.
Proof.
  intros Hmp Hd1 Hd2. cbv zeta. split; [|lia].
  Z.to_euclidean_division_equations; lia.
Qed.

Lemma yearLength_min (yoe : Z) : 365 <= yearLength yoe.
Proof. unfold yearLength. destruct (_ && _); lia. Qed.

(** A day of the calendar, to its day number and back. *)
Lemma civil_round_trip (y m d : Z) :
  1 <= m <= 12 -> 1 <= d <= daysInMonth y m ->
  civilFromDays (daysFromCivil y m d) = (y, m, d).
Proof.
  intros Hm Hd. unfold civilFromDays, daysFromCivil. cbv zeta.
  set (y' := if m <=? 2 then y - 1 else y).
  set (era := y' / 400). set (yoe := y' - era * 400).
  set (mp := if 2 <? m then m - 3 else m + 9).
  set (doy := (153 * mp + 2) / 5 + d - 1).
  assert (Hyoe : 0 <= yoe <= 399)
    by (unfold yoe, era; Z.to_euclidean_division_equations; lia).
  assert (Hmp : 0 <= mp <= 11) by (unfold mp; destruct (2 <? m) eqn:H; lia).
  assert (Hdoy : 0 <= doy < yearLength yoe).
  { destruct (Z.eq_dec m 2) as [->|Hm2].
    - assert (Hy1 : (yoe + 1) mod 400 = y mod 400).
      { unfold yoe, era, y'. closed_tests. Z.to_euclidean_division_equations; lia. }
      unfold doy, yearLength, mp, daysInMonth, isLeapYear in *. closed_tests.
      repeat match goal with
      | |- context [?a mod ?b =? 0] => destruct (Z.eqb_spec (a mod b) 0)
      | H : context [?a mod ?b =? 0] |- _ => destruct (Z.eqb_spec (a mod b) 0)
      end; cbv beta iota delta [orb andb negb] in *;
      Z.to_euclidean_division_equations; lia.
    - pose proof (yearLength_min yoe) as Hlen.
      unfold doy, mp, daysInMonth in *.
      each_month m Hm; try contradiction; closed_tests;
        Z.to_euclidean_division_equations; lia. }
  replace (era * 146097 + (yoe * 365 + yoe / 4 - yoe / 100 + doy) - 719468 + 719468)
    with (era * 146097 + (yoe * 365 + yoe / 4 - yoe / 100 + doy)) by lia.
  destruct (era_part era yoe doy Hyoe Hdoy) as [He Hy]. cbv zeta in He, Hy.
  rewrite He.
  replace (era * 146097 + (yoe * 365 + yoe / 4 - yoe / 100 + doy) - era * 146097)
    with (yoe * 365 + yoe / 4 - yoe / 100 + doy) by lia.
  rewrite Hy.
  replace (yoe * 365 + yoe / 4 - yoe / 100 + doy - (365 * yoe + yoe / 4 - yoe / 100))
    with doy by lia.
  destruct (doy_part mp d Hmp) as [Hmp' Hd']; [lia | |].
  { unfold mp, daysInMonth in *.
    each_month m Hm; closed_tests; try (destruct (isLeapYear y));
      Z.to_euclidean_division_equations; lia. }
  cbv zeta in Hmp', Hd'. fold doy in Hmp', Hd'. rewrite Hmp', Hd'.
  unfold mp, yoe, era, y'.
  each_month m Hm; closed_tests; f_equal; f_equal; lia.
Qed.

(** The month of any day number is one of the twelve. *)
Lemma civil_month_range (days : Z) : 1 <= snd (fst (civilFromDays days)) <= 12.
Proof.
  unfold civilFromDays. cbv zeta. cbn [fst snd].
  set (z := days + 719468). set (era := z / 146097). set (doe := z - era * 146097).
  assert (Hdoe : 0 <= doe <= 146096)
    by (unfold doe, era; Z.to_euclidean_division_equations; lia).
  clearbody doe. clear z era.
  set (yoe := (doe - doe / 1460 + doe / 36524 - doe / 146096) / 365).
  set (doy := doe - (365 * yoe + yoe / 4 - yoe / 100)).
  assert (Hdoy : 0 <= doy <= 365)
    by (unfold doy, yoe; Z.to_euclidean_division_equations; lia).
  clearbody doy.
  set (mp := (5 * doy + 2) / 153).
  assert (Hmp : 0 <= mp <= 11) by (unfold mp; Z.to_euclidean_division_equations; lia).
  destruct (mp <? 10) eqn:H; lia.
Qed.

(** X18 — the name of the sheet of a date.  An invalid date is refused with
    an Error; for every valid date the name is one of the twelve month
    names, a space, and the year of the date in local time: never
    "undefined". *)
Theorem month_sheet_name_has_a_month (E : Engine) :
  getMonthSheetName E None
  = Throw (Error "Invalid date parameter passed to getMonthSheetName: Invalid Date")
  /\ forall t : Z,
       exists (i : nat) (month : string),
         monthNames !! i = Some month
         /\ Z.of_nat i = getMonth E t
         /\ getMonthSheetName E (Some t)
            = Ok (month +:+ " " +:+ ZToString (getFullYear E t)).
Proof.
  split; [reflexivity|]. intros t.
  pose proof (civil_month_range (LocalTime E t / msPerDay)) as Hm.
  assert (Hi : (Z.to_nat (getMonth E t) < 12)%nat)
    by (unfold getMonth, MonthFromTime; lia).
  destruct (monthNames !! Z.to_nat (getMonth E t)) as [month|] eqn:Hl.
  - exists (Z.to_nat (getMonth E t)), month. split; [exact Hl|]. split.
    + unfold getMonth, MonthFromTime in *. lia.
    + unfold getMonthSheetName. now rewrite (nth_lookup_Some _ _ _ _ Hl).
  - apply lookup_ge_None in Hl. cbn [length monthNames] in Hl. lia.
Qed.

(** ** The fields of a matched timestamp *)

Lemma digit_char (c : ascii) : isDigit c = true -> In c digitChars.
Proof.
  destruct c as [[] [] [] [] [] [] [] []]; intros H; vm_compute in H;
    try discriminate H; unfold digitChars;
    repeat first [left; reflexivity | right].
Qed.

Lemma two_digit_fields :
  forallb (fun c1 => forallb (fun c2 => twoDigitCheck (String c1 (String c2 "")))
                             digitChars) digitChars = true.
Proof. vm_compute. reflexivity. Qed.

Lemma four_digit_fields :
  forallb (fun c1 => forallb (fun c2 => forallb (fun c3 => forallb (fun c4 =>
    fourDigitCheck (String c1 (String c2 (String c3 (String c4 "")))))
    digitChars) digitChars) digitChars) digitChars = true.
Proof. vm_compute. reflexivity. Qed.

Lemma takeDigits_two (s d r : string) :
  takeDigits 2 s = Some (d, r) -> twoDigitCheck d = true.
Proof.
  destruct s as [|c1 [|c2 s']]; cbn; try discriminate.
  - destruct (isDigit c1); discriminate.
  - destruct (isDigit c1) eqn:H1; [|discriminate].
    destruct (isDigit c2) eqn:H2; [|discriminate]. cbn. intros [= <- <-].
    pose proof two_digit_fields as Hall. rewrite forallb_forall in Hall.
    specialize (Hall c1 (digit_char c1 H1)). rewrite forallb_forall in Hall.
    exact (Hall c2 (digit_char c2 H2)).
Qed.

Lemma takeDigits_four (s d r : string) :
  takeDigits 4 s = Some (d, r) -> fourDigitCheck d = true.
Proof.
  destruct s as [|c1 [|c2 [|c3 [|c4 s']]]]; cbn; try discriminate;
    destruct (isDigit c1) eqn:H1; try discriminate; cbn;
    try (destruct (isDigit c2) eqn:H2; try discriminate; cbn);
    try (destruct (isDigit c3) eqn:H3; try discriminate; cbn).
  destruct (isDigit c4) eqn:H4; [|discriminate]. cbn. intros [= <- <-].
  pose proof four_digit_fields as Hall. rewrite forallb_forall in Hall.
  specialize (Hall c1 (digit_char c1 H1)). rewrite forallb_forall in Hall.
  specialize (Hall c2 (digit_char c2 H2)). rewrite forallb_forall in Hall.
  specialize (Hall c3 (digit_char c3 H3)). rewrite forallb_forall in Hall.
  exact (Hall c4 (digit_char c4 H4)).
Qed.

Lemma tsMatchAt_fields (s : string) (p : TsParts) :
  tsMatchAt s = Some p ->
  twoDigitCheck (tsDay p) = true /\ twoDigitCheck (tsMonth p) = true
  /\ fourDigitCheck (tsYear p) = true /\ twoDigitCheck (tsHour p) = true
  /\ twoDigitCheck (tsMinute p) = true /\ twoDigitCheck (tsSecond p) = true.
Proof.
  unfold tsMatchAt.
  destruct (takeDigits 2 s) as [[dd s1]|] eqn:Hdd; [|discriminate]. cbn [mbind option_bind].
  destruct (expect "/" s1) as [s2|]; [|discriminate]. cbn [mbind option_bind].
  destruct (takeDigits 2 s2) as [[mm s3]|] eqn:Hmm; [|discriminate]. cbn [mbind option_bind].
  destruct (expect "/" s3) as [s4|]; [|discriminate]. cbn [mbind option_bind].
  destruct (takeDigits 4 s4) as [[yyyy s5]|] eqn:Hyyyy; [|discriminate]. cbn [mbind option_bind].
  destruct (spaces1 s5) as [s6|]; [|discriminate]. cbn [mbind option_bind].
  destruct (takeDigits 2 s6) as [[hh s7]|] eqn:Hhh; [|discriminate]. cbn [mbind option_bind].
  destruct (expect ":" s7) as [s8|]; [|discriminate]. cbn [mbind option_bind].
  destruct (takeDigits 2 s8) as [[mi s9]|] eqn:Hmi; [|discriminate]. cbn [mbind option_bind].
  destruct (expect ":" s9) as [s10|]; [|discriminate]. cbn [mbind option_bind].
  destruct (takeDigits 2 s10) as [[sec s11]|] eqn:Hsec; [|discriminate]. cbn [mbind option_bind].
  intros [= <-]. cbn [tsDay tsMonth tsYear tsHour tsMinute tsSecond].
  repeat split; first [eapply takeDigits_two; eassumption
                      | eapply takeDigits_four; eassumption].
Qed.

Lemma tsMatch_fields (s : string) (p : TsParts) :
  tsMatch s = Some p ->
  twoDigitCheck (tsDay p) = true /\ twoDigitCheck (tsMonth p) = true
  /\ fourDigitCheck (tsYear p) = true /\ twoDigitCheck (tsHour p) = true
  /\ twoDigitCheck (tsMinute p) = true /\ twoDigitCheck (tsSecond p) = true.
Proof.
  induction s as [|c s IH]; cbn [tsMatch].
  - destruct (tsMatchAt "") eqn:H; [|discriminate]. intros [= <-].
    eapply tsMatchAt_fields, H.
  - destruct (tsMatchAt (String c s)) eqn:H; [|exact IH]. intros [= <-].
    eapply tsMatchAt_fields, H.
Qed.

Lemma integerOf_spec (x : number) (v : Z) :
  integerOf x v = true -> toInteger x = Some v.
Proof.
  unfold integerOf. destruct (toInteger x) as [r|]; [|discriminate].
  intros H. apply Z.eqb_eq in H. now subst.
Qed.

Lemma two_digit_spec (d : string) :
  twoDigitCheck d = true ->
  0 <= fieldValue d < 100
  /\ toInteger (parseInt d) = Some (fieldValue d)
  /\ toInteger (sub (parseInt d) (ofZ 1)) = Some (fieldValue d - 1)
  /\ pad 2 (fieldValue d) = d.
Proof.
  unfold twoDigitCheck. cbv zeta. intros H.
  apply andb_prop in H as [H H5]. apply andb_prop in H as [H H4].
  apply andb_prop in H as [H H3]. apply andb_prop in H as [H1 H2].
  repeat split; try lia; try (now apply integerOf_spec).
  now apply String.eqb_eq.
Qed.

Lemma four_digit_spec (d : string) :
  fourDigitCheck d = true ->
  0 <= fieldValue d < 10000
  /\ toInteger (parseInt d) = Some (fieldValue d)
  /\ pad 4 (fieldValue d) = d.
Proof.
  unfold fourDigitCheck. cbv zeta. intros H.
  apply andb_prop in H as [H H4]. apply andb_prop in H as [H H3].
  apply andb_prop in H as [H1 H2].
  repeat split; try lia; try (now apply integerOf_spec).
  now apply String.eqb_eq.
Qed.

(** ** The date of a matched timestamp *)

Lemma MakeDay_civil (y m d : Z) :
  1 <= m <= 12 -> MakeDay y (m - 1) d = daysFromCivil y m d.
Proof.
  intros Hm. unfold MakeDay. cbv zeta.
  replace ((m - 1) / 12) with 0 by (Z.to_euclidean_division_equations; lia).
  replace ((m - 1) mod 12 + 1) with m by (Z.to_euclidean_division_equations; lia).
  rewrite Z.add_0_r. unfold daysFromCivil. cbv zeta. lia.
Qed.

Section Stamp.

Variables (E : Engine) (s : string) (p : TsParts).
Hypothesis Hmatch : tsMatch s = Some p.
Hypothesis Hvalid : validStamp p = true.

Lemma stamp_ranges :
  0 <= fieldValue (tsYear p) < 10000
  /\ 100 <= stampYear p <= 9999
  /\ 1 <= fieldValue (tsMonth p) <= 12
  /\ 1 <= fieldValue (tsDay p) <= daysInMonth (stampYear p) (fieldValue (tsMonth p))
  /\ 0 <= fieldValue (tsHour p) < 24
  /\ 0 <= fieldValue (tsMinute p) < 60
  /\ 0 <= fieldValue (tsSecond p) < 60.
Proof.
  destruct (tsMatch_fields s p Hmatch) as (Hd & Hm & Hy & Hh & Hmi & Hs).
  apply two_digit_spec in Hd as (Hd & _), Hm as (Hm & _), Hh as (Hh & _),
    Hmi as (Hmi & _), Hs as (Hs & _).
  apply four_digit_spec in Hy as (Hy & _).
  unfold validStamp in Hvalid. cbv zeta in Hvalid.
  repeat (apply andb_prop in Hvalid as [Hvalid ?]).
  unfold stampYear in *. cbv zeta in *.
  destruct (Z.leb_spec (fieldValue (tsYear p)) 99); lia.
Qed.

Lemma stamp_time_of_day :
  0 <= MakeTime (fieldValue (tsHour p)) (fieldValue (tsMinute p))
                (fieldValue (tsSecond p)) 0 < msPerDay.
Proof.
  destruct stamp_ranges as (_ & _ & _ & _ & Hh & Hmi & Hs).
  unfold MakeTime, msPerDay. lia.
Qed.

Lemma stamp_day :
  stampTime p / msPerDay
  = daysFromCivil (stampYear p) (fieldValue (tsMonth p)) (fieldValue (tsDay p))
  /\ stampTime p mod msPerDay
     = MakeTime (fieldValue (tsHour p)) (fieldValue (tsMinute p))
                (fieldValue (tsSecond p)) 0.
Proof.
  pose proof stamp_time_of_day as Ht. unfold stampTime, MakeDate.
  unfold msPerDay in *. split; Z.to_euclidean_division_equations; lia.
Qed.

Lemma stamp_civil :
  civilFromDays (stampTime p / msPerDay)
  = (stampYear p, fieldValue (tsMonth p), fieldValue (tsDay p)).
Proof.
  destruct stamp_ranges as (_ & _ & Hm & Hd & _).
  rewrite (proj1 stamp_day). now apply civil_round_trip.
Qed.

Lemma stamp_bound : Z.abs (stampTime p) <= 4000000 * msPerDay.
Proof.
  destruct stamp_ranges as (_ & Hy & Hm & Hd & _).
  pose proof stamp_time_of_day as Ht.
  assert (Hdays : -720000 <= daysFromCivil (stampYear p) (fieldValue (tsMonth p))
                                           (fieldValue (tsDay p)) <= 3000000).
  { assert (Hd31 : fieldValue (tsDay p) <= 31).
    { unfold daysInMonth in Hd.
      destruct (_ =? 2); [destruct (isLeapYear _)|destruct (_ || _)]; lia. }
    unfold daysFromCivil. cbv zeta.
    destruct (fieldValue (tsMonth p) <=? 2); destruct (2 <? fieldValue (tsMonth p)) eqn:H2;
      Z.to_euclidean_division_equations; lia. }
  unfold stampTime, MakeDate. unfold msPerDay in *. lia.
Qed.

(** The date built from the six fields is the local time they name. *)
Lemma dateOfParts_stamp :
  dateOfParts E p = TimeClip (UTC E (stampTime p)).
Proof.
  destruct (tsMatch_fields s p Hmatch) as (Hd & Hm & Hy & Hh & Hmi & Hs).
  apply two_digit_spec in Hd as (_ & Hd & _), Hm as (_ & _ & Hm & _), Hh as (_ & Hh & _),
    Hmi as (_ & Hmi & _), Hs as (_ & Hs & _).
  apply four_digit_spec in Hy as (Hy0 & Hy & _).
  destruct stamp_ranges as (_ & _ & Hmr & _).
  unfold dateOfParts, newDate. rewrite Hy, Hm, Hd, Hh, Hmi, Hs. cbn [mbind option_bind].
  replace (0 <=? fieldValue (tsYear p)) with true by (symmetry; apply Z.leb_le; lia).
  cbn [andb]. fold (stampYear p).
  rewrite MakeDay_civil by exact Hmr. reflexivity.
Qed.

End Stamp.

(** X10 — the sheet a timestamp is filed under.  With a time zone whose
    local time is an offset of less than a day, a timestamp that matches
    DD/MM/YYYY hh:mm:ss and names a day of the calendar and a time of the
    day goes to the sheet named after its month MM and its year YYYY (a
    year below 0100 counting from 1900); from the year 0100 on that is the
    sheet a request with year=YYYY and month=MM reads. *)
Theorem stamped_month_is_requested_month (E : Engine) (s : string) (p : TsParts) :
  (forall t, LocalTime E (UTC E t) = t) ->
  (forall t, Z.abs (UTC E t - t) <= msPerDay) ->
  tsMatch s = Some p ->
  validStamp p = true ->
  exists (date : Date) (month : string),
    timestampDate E (VStr s) = Ok date
    /\ monthNames !! Z.to_nat (fieldValue (tsMonth p) - 1) = Some month
    /\ getMonthSheetName E date = Ok (month +:+ " " +:+ ZToString (stampYear p))
    /\ (100 <= fieldValue (tsYear p) ->
        forall e : Params,
          param_year e = Some (tsYear p) -> param_month e = Some (tsMonth p) ->
          requestedSheet E e = month +:+ " " +:+ ZToString (stampYear p)).
Proof.
  intros Hlocal Hoffset Hmatch Hvalid.
  destruct (stamp_ranges s p Hmatch Hvalid) as (Hy0 & Hy & Hm & Hd & _).
  pose proof (stamp_bound s p Hmatch Hvalid) as Hbound.
  pose proof (stamp_civil s p Hmatch Hvalid) as Hcivil.
  destruct (monthNames !! Z.to_nat (fieldValue (tsMonth p) - 1)) as [month|] eqn:Hl.
  2:{ apply lookup_ge_None in Hl. cbn [length monthNames] in Hl. lia. }
  exists (Some (UTC E (stampTime p))), month. split; [|split; [|split]].
  - unfold timestampDate. rewrite Hmatch, (dateOfParts_stamp E s p Hmatch Hvalid).
    unfold TimeClip. specialize (Hoffset (stampTime p)). unfold msPerDay in *.
    replace (Z.abs (UTC E (stampTime p)) <=? 8640000000000000) with true
      by (symmetry; apply Z.leb_le; lia).
    reflexivity.
  - reflexivity.
  - unfold getMonthSheetName, getMonth, getFullYear, MonthFromTime, YearFromTime.
    rewrite Hlocal, Hcivil. cbn [fst snd].
    now rewrite (nth_lookup_Some _ _ _ _ Hl).
  - intros Hy100 e Hye Hme.
    destruct (tsMatch_fields s p Hmatch) as (_ & Hmc & Hyc & _).
    apply two_digit_spec in Hmc as (_ & _ & Hmc & _).
    apply four_digit_spec in Hyc as (_ & Hyc & _).
    unfold requestedSheet. rewrite Hye, Hme. cbn [paramStr].
    assert (Hgy : given (Some (tsYear p)) = true).
    { destruct (tsYear p) eqn:Hty; [|reflexivity].
      exfalso. revert Hy100. unfold fieldValue. rewrite ?Hty. cbn. lia. }
    assert (Hgm : given (Some (tsMonth p)) = true).
    { destruct (tsMonth p) eqn:Htm; [|reflexivity].
      exfalso. revert Hm. unfold fieldValue. rewrite ?Htm. cbn. lia. }
    rewrite Hgy, Hgm. unfold getSheetNameFromParams. rewrite Hmc.
    replace (fieldValue (tsMonth p) - 1 <? 0) with false by (symmetry; apply Z.ltb_ge; lia).
    rewrite (nth_lookup_Some _ _ _ _ Hl). f_equal. f_equal.
    unfold stampYear. replace (fieldValue (tsYear p) <=? 99) with false
      by (symmetry; apply Z.leb_gt; lia).
    unfold NumberToString. rewrite Hyc.
    destruct (parseInt (tsYear p)) as [sg|sg| |sg m ex] eqn:Hp; try discriminate.
    + cbn in Hyc. injection Hyc as Hyc. lia.
    + replace (Z.abs (fieldValue (tsYear p)) <? 10 ^ 21) with true
        by (symmetry; apply Z.ltb_lt; lia).
      reflexivity.
Qed.

Lemma stamped_month_is_requested_month_sample :
  exists date,
    timestampDate utcEngine (VStr "paid 29/02/2028 23:59:59") = Ok date
    /\ getMonthSheetName utcEngine date = Ok "February 2028"
    /\ requestedSheet utcEngine (readRequest (Some "getStats") "2028" "02")
       = "February 2028".
Proof.
  destruct (stamped_month_is_requested_month utcEngine "paid 29/02/2028 23:59:59"
              {| tsDay := "29"; tsMonth := "02"; tsYear := "2028";
                 tsHour := "23"; tsMinute := "59"; tsSecond := "59" |})
    as (date & month & Hdate & Hmonth & Hname & Hreq);
    try reflexivity; try (intros t; unfold utcEngine, msPerDay; cbn; lia).
  exists date. injection Hmonth as <-. split; [exact Hdate|]. split; [exact Hname|].
  apply (Hreq ltac:(vm_compute; discriminate)); reflexivity.
Defined.

(** X11 — the ISO form of a stored timestamp, for a script that runs in
    UTC.  A cell text that matches DD/MM/YYYY hh:mm:ss and names a day of
    the calendar and a time of the day is reported as YYYY-MM-DDThh:mm:ss.000Z
    with the same digits (the year counting from 1900 when it is below
    0100): no field is shifted. *)
Theorem stamp_to_ISO (E : Engine) (s : string) (p : TsParts) :
  (forall t, UTC E t = t) ->
  tsMatch s = Some p ->
  validStamp p = true ->
  toISO E (VStr s) = Ok (stampISO p)
  /\ (100 <= fieldValue (tsYear p) -> pad 4 (stampYear p) = tsYear p).
Proof.
  intros Hutc Hmatch Hvalid.
  destruct (stamp_ranges s p Hmatch Hvalid) as (Hy0 & Hy & Hm & Hd & Hh & Hmi & Hs).
  pose proof (stamp_bound s p Hmatch Hvalid) as Hbound.
  destruct (stamp_day s p Hmatch Hvalid) as [_ Hms].
  destruct (tsMatch_fields s p Hmatch) as (Hdc & Hmc & Hyc & Hhc & Hmic & Hsc).
  apply two_digit_spec in Hdc as (_ & _ & _ & Hdp), Hmc as (_ & _ & _ & Hmp),
    Hhc as (_ & _ & _ & Hhp), Hmic as (_ & _ & _ & Hmip), Hsc as (_ & _ & _ & Hsp).
  apply four_digit_spec in Hyc as (_ & _ & Hyp).
  split.
  - unfold toISO. cbn [ToString]. rewrite Hmatch, (dateOfParts_stamp E s p Hmatch Hvalid).
    rewrite Hutc. unfold TimeClip. unfold msPerDay in Hbound.
    replace (Z.abs (stampTime p) <=? 8640000000000000) with true
      by (symmetry; apply Z.leb_le; lia).
    cbn [DateToISOString]. f_equal. unfold toISOString.
    rewrite (stamp_civil s p Hmatch Hvalid), Hms.
    replace ((0 <=? stampYear p) && (stampYear p <=? 9999)) with true
      by (symmetry; apply andb_true_iff; split; apply Z.leb_le; lia).
    unfold MakeTime.
    replace ((fieldValue (tsHour p) * 3600000 + fieldValue (tsMinute p) * 60000
              + fieldValue (tsSecond p) * 1000 + 0) / 3600000)
      with (fieldValue (tsHour p)) by (Z.to_euclidean_division_equations; lia).
    replace ((fieldValue (tsHour p) * 3600000 + fieldValue (tsMinute p) * 60000
              + fieldValue (tsSecond p) * 1000 + 0) / 60000 mod 60)
      with (fieldValue (tsMinute p)) by (Z.to_euclidean_division_equations; lia).
    replace ((fieldValue (tsHour p) * 3600000 + fieldValue (tsMinute p) * 60000
              + fieldValue (tsSecond p) * 1000 + 0) / 1000 mod 60)
      with (fieldValue (tsSecond p)) by (Z.to_euclidean_division_equations; lia).
    replace ((fieldValue (tsHour p) * 3600000 + fieldValue (tsMinute p) * 60000
              + fieldValue (tsSecond p) * 1000 + 0) mod 1000)
      with 0 by (Z.to_euclidean_division_equations; lia).
    rewrite Hdp, Hmp, Hhp, Hmip, Hsp. reflexivity.
  - intros Hy100. unfold stampYear.
    replace (fieldValue (tsYear p) <=? 99) with false by (symmetry; apply Z.leb_gt; lia).
    exact Hyp.
Qed.

Lemma stamp_to_ISO_sample :
  toISO utcEngine (VStr "29/02/2028 23:59:59") = Ok "2028-02-29T23:59:59.000Z"
  /\ toISO utcEngine (VStr "03/07/0026 08:05:00") = Ok "1926-07-03T08:05:00.000Z".
Proof.
  split.
  - apply (stamp_to_ISO utcEngine "29/02/2028 23:59:59"
             {| tsDay := "29"; tsMonth := "02"; tsYear := "2028";
                tsHour := "23"; tsMinute := "59"; tsSecond := "59" |});
      reflexivity.
  - apply (stamp_to_ISO utcEngine "03/07/0026 08:05:00"
             {| tsDay := "03"; tsMonth := "07"; tsYear := "0026";
                tsHour := "08"; tsMinute := "05"; tsSecond := "00" |});
      reflexivity.
Defined.

(** ** The category figures *)

Lemma arrayIndex_key (k : string) (n : Z) : arrayIndex k = Some n -> k = ZToString n.
Proof.
  unfold arrayIndex. destruct (allDigits 10 k None) as [m|]; [|discriminate].
  destruct (_ && _) eqn:Hc; [|discriminate]. intros [= <-].
  apply andb_prop in Hc as [Hk _]. apply String.eqb_eq in Hk. now symmetry.
Qed.

Lemma hasKey_keys (k : string) (st : Stats) : hasKey k st = true <-> k ∈ map fst st.
Proof.
  unfold hasKey. induction st as [|[k0 w] st IH]; cbn [existsb map fst].
  - split; [discriminate | intros H; inversion H].
  - rewrite orb_true_iff, IH, elem_of_cons.
    destruct (String.eqb_spec k0 k) as [->|Hne]; [tauto|].
    split; (intros [H|H]; [congruence | now right]).
Qed.

Lemma statsReplace_keys (k : string) (v : AmountPercent) (st : Stats) :
  map fst (statsReplace k v st) = map fst st.
Proof.
  induction st as [|[k0 w] st IH]; [reflexivity|]. cbn [statsReplace].
  destruct (String.eqb k0 k); cbn [map fst]; [reflexivity | now rewrite IH].
Qed.

(** [stats[k] = v] on an object that has the key [k] and no key twice:
    the entry of [k] is [v], and the other entries are as before. *)
Lemma statsReplace_entries (k k' : string) (v v' : AmountPercent) (st : Stats) :
  NoDup (map fst st) -> k ∈ map fst st ->
  (k', v') ∈ statsReplace k v st <-> (k' = k /\ v' = v) \/ (k' <> k /\ (k', v') ∈ st).
Proof.
  induction st as [|[k0 w] st IH]; cbn [statsReplace map fst]; intros Hnd Hk.
  - inversion Hk.
  - apply NoDup_cons in Hnd as [Hk0 Hnd].
    destruct (String.eqb_spec k0 k) as [->|Hne]; rewrite !elem_of_cons.
    + split.
      * intros [[= -> ->]|Hin]; [now left|].
        right. split; [|now right]. intros ->. apply Hk0.
        apply (list_elem_of_fmap_2 fst) in Hin. exact Hin.
      * intros [[-> ->]|[Hk' [[= -> ->]|Hin]]]; [now left | contradiction | now right].
    + apply elem_of_cons in Hk as [->|Hk]; [contradiction|].
      rewrite (IH Hnd Hk). split.
      * intros [[= -> ->]|[[-> ->]|[Hk' Hin]]].
        -- right. split; [exact Hne | now left].
        -- now left.
        -- right. split; [exact Hk' | now right].
      * intros [[-> ->]|[Hk' [[= -> ->]|Hin]]].
        -- right. now left.
        -- now left.
        -- right. right. now split.
Qed.

Lemma statsInsert_perm (n : Z) (k : string) (v : AmountPercent) (st : Stats) :
  statsInsert n k v st ≡ₚ (k, v) :: st.
Proof.
  induction st as [|[k0 w] st IH]; [reflexivity|]. cbn [statsInsert].
  destruct (arrayIndex k0) as [m|]; [|reflexivity].
  destruct (m <? n); [|reflexivity].
  rewrite IH. apply perm_swap.
Qed.

(** A key the object does not have yet is added, and nothing else. *)
Lemma statsSet_new (k : string) (v : AmountPercent) (st : Stats) :
  k <> "__proto__" -> k ∉ map fst st -> statsSet k v st ≡ₚ (k, v) :: st.
Proof.
  intros Hp Hk. unfold statsSet.
  destruct (String.eqb_spec k "__proto__"); [contradiction|].
  destruct (hasKey k st) eqn:Hh; [apply hasKey_keys in Hh; contradiction|].
  destruct (arrayIndex k); [apply statsInsert_perm|].
  symmetry. apply Permutation_cons_append.
Qed.

Lemma statsSet_keys (k x : string) (v : AmountPercent) (st : Stats) :
  k <> "__proto__" ->
  x ∈ map fst (statsSet k v st) <-> x = k \/ x ∈ map fst st.
Proof.
  intros Hp. destruct (decide (k ∈ map fst st)) as [Hin|Hout].
  - unfold statsSet. destruct (String.eqb_spec k "__proto__"); [contradiction|].
    rewrite (proj2 (hasKey_keys k st) Hin), statsReplace_keys.
    split; [now right | intros [->|H]; assumption].
  - rewrite (Permutation_map fst (statsSet_new k v st Hp Hout)). cbn [map fst].
    apply elem_of_cons.
Qed.

Lemma statsSet_NoDup (k : string) (v : AmountPercent) (st : Stats) :
  NoDup (map fst st) -> NoDup (map fst (statsSet k v st)).
Proof.
  intros Hnd. destruct (String.eqb_spec k "__proto__") as [->|Hp]; [exact Hnd|].
  destruct (decide (k ∈ map fst st)) as [Hin|Hout].
  - unfold statsSet. destruct (String.eqb_spec k "__proto__"); [contradiction|].
    now rewrite (proj2 (hasKey_keys k st) Hin), statsReplace_keys.
  - rewrite (Permutation_map fst (statsSet_new k v st Hp Hout)). cbn [map fst].
    apply NoDup_cons. now split.
Qed.

Lemma statsSet_entries (k k' : string) (v v' : AmountPercent) (st : Stats) :
  k <> "__proto__" -> NoDup (map fst st) ->
  (k', v') ∈ statsSet k v st <-> (k' = k /\ v' = v) \/ (k' <> k /\ (k', v') ∈ st).
Proof.
  intros Hp Hnd. destruct (decide (k ∈ map fst st)) as [Hin|Hout].
  - unfold statsSet. destruct (String.eqb_spec k "__proto__"); [contradiction|].
    rewrite (proj2 (hasKey_keys k st) Hin). now apply statsReplace_entries.
  - rewrite (statsSet_new k v st Hp Hout), elem_of_cons. split.
    + intros [[= -> ->]|Hin]; [now left|]. right. split; [|exact Hin].
      intros ->. apply Hout. apply (list_elem_of_fmap_2 fst) in Hin. exact Hin.
    + intros [[-> ->]|[_ Hin]]; [now left | now right].
Qed.

(** *** The order of the entries *)

Lemma StronglySorted_snoc {A} (R : A -> A -> Prop) (l : list A) (x : A) :
  StronglySorted R l -> Forall (fun y => R y x) l -> StronglySorted R (l ++ [x]).
Proof.
  induction 1 as [|y l Hl IH Hy]; intros Hx; cbn [app].
  - constructor; constructor.
  - apply Forall_cons in Hx as [Hyx Hx]. constructor; [now apply IH|].
    apply Forall_app. split; [exact Hy | now constructor].
Qed.

Section Listed.

Variable E : Engine.
Variable cats : list (list value).

Local Abbreviation before := (listedBefore E cats).

(** An array index is listed before every key it is below and before
    every key that is no index. *)
Lemma index_before (k k' : string) (n : Z) :
  arrayIndex k = Some n ->
  match arrayIndex k' with Some n' => n < n' | None => True end ->
  before k k'.
Proof. unfold listedBefore. intros ->. now destruct (arrayIndex k'). Qed.

Lemma statsInsert_sorted (n : Z) (k : string) (v : AmountPercent) (st : Stats) :
  arrayIndex k = Some n -> k ∉ map fst st ->
  StronglySorted before (map fst st) ->
  StronglySorted before (map fst (statsInsert n k v st)).
Proof.
  intros Hk. induction st as [|[k0 w] st IH]; cbn [statsInsert map fst]; intros Hout Hst.
  - constructor; constructor.
  - apply StronglySorted_inv in Hst as [Hst Hk0].
    apply not_elem_of_cons in Hout as [Hne Hout].
    assert (Hfirst : (forall m, arrayIndex k0 = Some m -> n < m) ->
              StronglySorted before (k :: k0 :: map fst st)).
    { intros Hlt. constructor; [now constructor|].
      constructor.
      - eapply index_before; [exact Hk|].
        destruct (arrayIndex k0) as [m|] eqn:Hm; [now apply Hlt | exact I].
      - rewrite Forall_forall in Hk0 |- *. intros x Hx. specialize (Hk0 x Hx).
        eapply index_before; [exact Hk|]. unfold listedBefore in Hk0.
        destruct (arrayIndex k0) as [m|] eqn:Hm, (arrayIndex x) as [m'|]; try exact I.
        + specialize (Hlt m eq_refl). lia.
        + contradiction. }
    destruct (arrayIndex k0) as [m|] eqn:Hm; [|apply Hfirst; discriminate].
    destruct (Z.ltb_spec m n) as [Hlt|Hge].
    + cbn [map fst]. constructor; [now apply IH|].
      rewrite (Permutation_map fst (statsInsert_perm n k v st)). cbn [map fst].
      constructor; [|exact Hk0].
      unfold listedBefore. now rewrite Hm, Hk.
    + apply Hfirst. intros m0 [= <-].
      assert (m <> n); [|lia]. intros ->. apply Hne.
      now rewrite (arrayIndex_key k n Hk), (arrayIndex_key k0 n Hm).
Qed.

(** [stats[k] = v] keeps the entries in order, when the keys there are
    that are no array indices are ones that come before [k]. *)
Lemma statsSet_sorted (k : string) (v : AmountPercent) (st : Stats) :
  (forall x, x ∈ map fst st -> k ∉ map fst st ->
             arrayIndex x = None -> arrayIndex k = None -> before x k) ->
  StronglySorted before (map fst st) ->
  StronglySorted before (map fst (statsSet k v st)).
Proof.
  intros Hnames Hst. unfold statsSet.
  destruct (String.eqb k "__proto__"); [exact Hst|].
  destruct (hasKey k st) eqn:Hh; [now rewrite statsReplace_keys|].
  assert (Hout : k ∉ map fst st) by (rewrite <- hasKey_keys; congruence).
  destruct (arrayIndex k) as [n|] eqn:Hk; [now apply statsInsert_sorted|].
  rewrite map_app. cbn [map fst]. apply StronglySorted_snoc; [exact Hst|].
  apply Forall_forall. intros x Hx.
  destruct (arrayIndex x) as [m|] eqn:Hm.
  - unfold listedBefore. now rewrite Hm, Hk.
  - now apply Hnames.
Qed.

End Listed.

(** The loop of [statsOf] over the first [n] rows: no key twice, the
    entries, the keys, and their order. *)
Lemma statsOf_rows (E : Engine) (cats amounts percentages : list (list value)) (n : nat) :
  let stats :=
    foldl (fun stats j =>
             let cat := at2 cats j 0 in
             if negb (truthy cat) then stats
             else statsSet (ToString E cat)
                    {| amount := numOrZero (ToNumber (at2 amounts j 0));
                       percent := parsePct (at2 percentages j 0) |} stats)
          [] (seq 0 n) in
  NoDup (map fst stats)
  /\ (forall k v,
       (k, v) ∈ stats
       <-> k <> "__proto__"
           /\ exists j : nat,
                (j < n)%nat /\ labelAt E cats j = Some k
                /\ v = figuresAt amounts percentages j
                /\ forall j' : nat, (j < j' < n)%nat -> labelAt E cats j' <> Some k)
  /\ (forall k, k ∈ map fst stats
                <-> k <> "__proto__" /\ exists j : nat, (j < n)%nat /\ labelAt E cats j = Some k)
  /\ StronglySorted (listedBefore E cats) (map fst stats).
Proof.
  cbv zeta. induction n as [|n (IHnd & IH & IHkeys & IHsorted)].
  - split; [apply NoDup_nil_2|]. split; [|split; [|constructor]].
    + intros k v. split; [intros H; inversion H | intros (_ & j & Hj & _); lia].
    + intros k. split; [intros H; inversion H | intros (_ & j & Hj & _); lia].
  - rewrite seq_S, foldl_snoc. cbn [Nat.add].
    set (st := foldl _ [] (seq 0 n)) in *.
    fold (figuresAt amounts percentages n).
    assert (Hskip :
      (forall k, labelAt E cats n <> Some k \/ k = "__proto__" ->
         (k <> "__proto__" /\ exists j, (j < S n)%nat /\ labelAt E cats j = Some k)
         <-> (k <> "__proto__" /\ exists j, (j < n)%nat /\ labelAt E cats j = Some k))
      /\ (forall k v, labelAt E cats n <> Some k \/ k = "__proto__" ->
         (k <> "__proto__"
          /\ exists j, (j < S n)%nat /\ labelAt E cats j = Some k
               /\ v = figuresAt amounts percentages j
               /\ forall j', (j < j' < S n)%nat -> labelAt E cats j' <> Some k)
         <-> (k <> "__proto__"
              /\ exists j, (j < n)%nat /\ labelAt E cats j = Some k
                   /\ v = figuresAt amounts percentages j
                   /\ forall j', (j < j' < n)%nat -> labelAt E cats j' <> Some k))).
    { split.
      - intros k Hn. split; intros (Hp & j & Hj & Hl); (split; [exact Hp|]).
        + destruct Hn as [Hn|Hn]; [|contradiction].
          destruct (decide (j = n)) as [->|Hne]; [contradiction|].
          exists j. split; [lia | exact Hl].
        + exists j. split; [lia | exact Hl].
      - intros k v Hn. split; intros (Hp & j & Hj & Hl & Hv & Hlast); (split; [exact Hp|]).
        + destruct Hn as [Hn|Hn]; [|contradiction].
          destruct (decide (j = n)) as [->|Hne]; [contradiction|].
          exists j. split; [lia|]. split; [exact Hl|]. split; [exact Hv|].
          intros j' Hj'. apply Hlast. lia.
        + destruct Hn as [Hn|Hn]; [|contradiction].
          exists j. split; [lia|]. split; [exact Hl|]. split; [exact Hv|].
          intros j' Hj'. destruct (decide (j' = n)) as [->|Hne]; [exact Hn|].
          apply Hlast. lia. }
    destruct Hskip as [Hskip_keys Hskip_entries].
    destruct (truthy (at2 cats n 0)) eqn:Hn; cbn [negb].
    2:{ assert (Hnone : labelAt E cats n = None) by (unfold labelAt; now rewrite Hn).
        split; [exact IHnd|]. split; [|split; [|exact IHsorted]].
        - intros k v. rewrite IH. symmetry. apply Hskip_entries. left. congruence.
        - intros k. rewrite IHkeys. symmetry. apply Hskip_keys. left. congruence. }
    set (key := ToString E (at2 cats n 0)).
    assert (Hlabel : labelAt E cats n = Some key) by (unfold labelAt; now rewrite Hn).
    destruct (String.eqb_spec key "__proto__") as [Hproto|Hproto].
    { unfold statsSet. rewrite Hproto. cbn [String.eqb Ascii.eqb Bool.eqb].
      split; [exact IHnd|]. split; [|split; [|exact IHsorted]].
      - intros k v. rewrite IH. symmetry. apply Hskip_entries.
        destruct (String.eqb_spec k "__proto__") as [->|Hk]; [now right | left; congruence].
      - intros k. rewrite IHkeys. symmetry. apply Hskip_keys.
        destruct (String.eqb_spec k "__proto__") as [->|Hk]; [now right | left; congruence]. }
    split; [now apply statsSet_NoDup|]. split; [|split].
    + intros k v. rewrite (statsSet_entries _ _ _ _ _ Hproto IHnd), IH. split.
      * intros [[-> ->]|[Hk (Hp & j & Hj & Hl & Hv & Hlast)]].
        -- split; [exact Hproto|]. exists n.
           split; [lia|]. split; [exact Hlabel|]. split; [reflexivity|].
           intros j' Hj'. lia.
        -- split; [exact Hp|]. exists j.
           split; [lia|]. split; [exact Hl|]. split; [exact Hv|].
           intros j' Hj'. destruct (decide (j' = n)) as [->|Hne].
           ++ rewrite Hlabel. congruence.
           ++ apply Hlast. lia.
      * intros (Hp & j & Hj & Hl & Hv & Hlast).
        destruct (decide (j = n)) as [->|Hne].
        -- left. rewrite Hlabel in Hl. injection Hl as <-. now split.
        -- right. split.
           ++ intros ->. apply (Hlast n); [lia | exact Hlabel].
           ++ split; [exact Hp|]. exists j.
              split; [lia|]. split; [exact Hl|]. split; [exact Hv|].
              intros j' Hj'. apply Hlast. lia.
    + intros k. rewrite (statsSet_keys _ _ _ _ Hproto), IHkeys. split.
      * intros [->|(Hp & j & Hj & Hl)].
        -- split; [exact Hproto|]. exists n. split; [lia | exact Hlabel].
        -- split; [exact Hp|]. exists j. split; [lia | exact Hl].
      * intros (Hp & j & Hj & Hl).
        destruct (decide (j = n)) as [->|Hne].
        -- left. rewrite Hlabel in Hl. now injection Hl.
        -- right. split; [exact Hp|]. exists j. split; [lia | exact Hl].
    + apply statsSet_sorted; [|exact IHsorted].
      intros x Hx Hout Hix Hik. unfold listedBefore. rewrite Hix, Hik.
      apply IHkeys in Hx as (_ & j & Hj & Hl). exists j. split; [exact Hl|].
      intros j' Hj' Hl'. apply Hout, IHkeys. split; [exact Hproto|].
      exists j'. split; [lia | exact Hl'].
Qed.

(** X12 — the category figures of [getStats] and [getAllData].  The stats
    object has one entry for each label, other than [__proto__], that
    stands in the label column of the summary block, and none for an empty
    label cell; where a label stands in several rows the entry carries the
    amount and the percentage of the last of these rows.  The label
    [__proto__] gets no entry: the assignment under that key sets the
    prototype of the object.  The entries come in the order in which an
    object lists its properties: the labels that are array indices first,
    by their numbers, then the other labels by their first rows. *)
Theorem stats_one_entry_per_label (E : Engine)
    (cats amounts percentages : list (list value)) :
  let stats := statsOf E cats amounts percentages in
  NoDup (map fst stats)
  /\ (forall k v,
       (k, v) ∈ stats
       <-> k <> "__proto__"
           /\ exists j : nat,
                (j < length cats)%nat /\ labelAt E cats j = Some k
                /\ v = figuresAt amounts percentages j
                /\ forall j' : nat, (j < j' < length cats)%nat -> labelAt E cats j' <> Some k)
  /\ StronglySorted (listedBefore E cats) (map fst stats).
Proof.
  cbv zeta. destruct (statsOf_rows E cats amounts percentages (length cats))
    as (Hnd & Hentries & _ & Hsorted).
  split; [exact Hnd|]. split; [exact Hentries | exact Hsorted].
Qed.

(** The block of a sheet whose labels were edited by hand: two rows under
    the label Food, a row under 7 and one under 3, and one under
    [__proto__]. *)
Lemma stats_one_entry_per_label_sample :
  let label := fun s : string => [VStr s] in
  let figure := fun z : Z => [VNum (ofZ z)] in
  let cats := [label "Food"; label "7"; label "__proto__"; label ""; label "Other";
               label "3"; label "Food"] in
  let amounts := map figure [10; 20; 30; 40; 50; 60; 70] in
  let percentages := map figure [1; 2; 3; 4; 5; 6; 7] in
  statsOf utcEngine cats amounts percentages
  = [("3", {| amount := ofZ 60; percent := ofZ 600 |});
     ("7", {| amount := ofZ 20; percent := ofZ 200 |});
     ("Food", {| amount := ofZ 70; percent := ofZ 700 |});
     ("Other", {| amount := ofZ 50; percent := ofZ 500 |})]
  /\ NoDup (map fst (statsOf utcEngine cats amounts percentages)).
Proof.
  cbv zeta. split; [vm_compute; reflexivity|].
  apply (stats_one_entry_per_label utcEngine).
Defined.

(** ** Small integers as numbers *)

Lemma small_integers :
  forallb (fun n => integerOf (ofZ (Z.of_nat n)) (Z.of_nat n)) (seq 0 (Z.to_nat 10000))
  = true.
Proof. vm_compute. reflexivity. Qed.

Lemma toInteger_small (z : Z) : 0 <= z <= 9999 -> toInteger (ofZ z) = Some z.
Proof.
  intros Hz. pose proof small_integers as Hall. rewrite forallb_forall in Hall.
  specialize (Hall (Z.to_nat z)). rewrite Z2Nat.id in Hall by lia.
  apply integerOf_spec, Hall. apply in_seq. lia.
Qed.

Lemma NumberToString_integer (E : Engine) (x : number) (v : Z) :
  toInteger x = Some v -> Z.abs v < 10 ^ 21 -> NumberToString E x = ZToString v.
Proof.
  intros Hx Hv. unfold NumberToString. rewrite Hx.
  destruct x as [sg|sg| |sg m ex]; try discriminate.
  - injection Hx as <-. reflexivity.
  - now replace (Z.abs v <? 10 ^ 21) with true by (symmetry; apply Z.ltb_lt; lia).
Qed.

(** X20 — a request without year and month.  It addresses the sheet of the
    month the clock shows: the sheet [getMonthSheetName] names for the
    current time, the one an entry stamped now is filed under. *)
Theorem default_month_is_the_current_month (E : Engine) (e : Params) :
  given (param_year e) = false ->
  given (param_month e) = false ->
  0 <= getFullYear E (now E) <= 9999 ->
  getMonthSheetName E (Some (now E)) = Ok (requestedSheet E e).
Proof.
  intros Hy Hm Hyear. unfold requestedSheet. rewrite Hy, Hm.
  unfold getMonthSheetName, getSheetNameFromParams.
  rewrite (NumberToString_integer E _ _ (toInteger_small _ Hyear)) by lia.
  assert (Hmo : 0 <= getMonth E (now E) <= 11).
  { pose proof (civil_month_range (LocalTime E (now E) / msPerDay)).
    unfold getMonth, MonthFromTime. lia. }
  generalize dependent (getMonth E (now E)). intros mo Hmo.
  assert (Hcases : mo + 1 = 1 \/ mo + 1 = 2 \/ mo + 1 = 3 \/ mo + 1 = 4 \/ mo + 1 = 5
                   \/ mo + 1 = 6 \/ mo + 1 = 7 \/ mo + 1 = 8 \/ mo + 1 = 9
                   \/ mo + 1 = 10 \/ mo + 1 = 11 \/ mo + 1 = 12) by lia.
  assert (Hsub : toInteger (sub (ofZ (mo + 1)) (ofZ 1)) = Some mo).
  { repeat (destruct Hcases as [Hc|Hcases]; [rewrite Hc; vm_compute; f_equal; lia|]).
    rewrite Hcases. vm_compute. f_equal. lia. }
  rewrite Hsub. replace (mo <? 0) with false by (symmetry; apply Z.ltb_ge; lia).
  reflexivity.
Qed.

Lemma default_month_is_the_current_month_sample :
  getMonthSheetName utcEngine (Some (now utcEngine))
    = Ok (requestedSheet utcEngine (deleteRequest "14" "March 2026"))
  /\ requestedSheet utcEngine (deleteRequest "14" "March 2026") = "February 2026".
Proof.
  split; [|reflexivity].
  apply (default_month_is_the_current_month utcEngine (deleteRequest "14" "March 2026"));
    [reflexivity | reflexivity | vm_compute; split; discriminate].
Defined.

(** ** The transaction list after a delete *)

Lemma lastRow_bound (g : Grid) (n : nat) :
  (forall i row, (n <= i)%nat -> g !! i = Some row -> rowBlank row = true) ->
  (lastRow g <= n)%nat.
Proof.
  revert n. induction g as [|row g IH]; intros n Hblank; [cbn; lia|].
  cbn [lastRow]. destruct n as [|n].
  - assert (H0 : (lastRow g <= 0)%nat).
    { apply IH. intros i r Hi Hr. apply (Hblank (S i)); [lia | exact Hr]. }
    destruct (lastRow g); [|lia].
    now rewrite (Hblank 0%nat row) by (lia || reflexivity).
  - assert (Hn : (lastRow g <= n)%nat).
    { apply IH. intros i r Hi Hr. apply (Hblank (S i)); [lia | exact Hr]. }
    destruct (lastRow g); [destruct (rowBlank row)|]; lia.
Qed.

Lemma lastRow_delete_inside (g : Grid) (k : nat) :
  (k < lastRow g)%nat -> (lastRow (delete k g) <= pred (lastRow g))%nat.
Proof.
  intros Hk. apply lastRow_bound. intros i row Hi Hrow.
  rewrite list_lookup_delete_ge in Hrow by lia.
  eapply blank_below_lastRow; [|exact Hrow]. lia.
Qed.

Lemma valueAt_below_lastRow (g : Grid) (r c : nat) :
  (lastRow g < r)%nat -> valueAt g r c = VStr "".
Proof.
  intros Hr. unfold valueAt, cellAt.
  destruct (g !! pred r) as [row|] eqn:Hrow; [|reflexivity].
  cbn [default]. rewrite cellOf_blank_row; [reflexivity|].
  eapply blank_below_lastRow; [|exact Hrow]. lia.
Qed.

Lemma filter_none {A} (P : A -> Prop) `{!forall x, Decision (P x)} (l : list A) :
  (forall x, x ∈ l -> ~ P x) -> filter P l = [].
Proof.
  induction l as [|x l IH]; intros Hl; [reflexivity|].
  rewrite filter_cons_False by (apply Hl; left). apply IH. intros y Hy. apply Hl. now right.
Qed.

Lemma filter_all {A} (P : A -> Prop) `{!forall x, Decision (P x)} (l : list A) :
  (forall x, x ∈ l -> P x) -> filter P l = l.
Proof.
  induction l as [|x l IH]; intros Hl; [reflexivity|].
  rewrite filter_cons_True by (apply Hl; left). f_equal. apply IH.
  intros y Hy. apply Hl. now right.
Qed.

(** The rows of transactions, looked for down to any row from the last row
    with content on. *)
Lemma transactionRows_upto (g : Grid) (n : nat) :
  (lastRow g <= n)%nat ->
  filter (fun r => truthy (valueAt g r 1) = true) (seq 3 (n - 2)) = transactionRows g.
Proof.
  intros Hn. unfold transactionRows.
  replace (n - 2)%nat with ((lastRow g - 2) + (n - 2 - (lastRow g - 2)))%nat by lia.
  rewrite seq_app, filter_app.
  rewrite <- (app_nil_r (filter _ (seq 3 (lastRow g - 2)))) at 2. f_equal.
  apply filter_none. intros x Hx. apply elem_of_seq in Hx.
  rewrite valueAt_below_lastRow by lia. discriminate.
Qed.

Lemma stamped_rows_fmap (f : nat -> nat) (g : Grid) (l : list nat) :
  filter (fun y => truthy (valueAt g y 1) = true) (f <$> l)
  = f <$> filter (fun x => truthy (valueAt g (f x) 1) = true) l.
Proof.
  induction l as [|x l IH]; [reflexivity|]. cbn [fmap list_fmap].
  destruct (decide (truthy (valueAt g (f x) 1) = true)) as [Hp|Hp].
  - rewrite !filter_cons_True by exact Hp. cbn [fmap list_fmap]. now rewrite <- IH.
  - rewrite !filter_cons_False by exact Hp. exact IH.
Qed.

(** The row numbers but [r], from those of the grid without the row [r]. *)
Lemma seq_without (r a n : nat) :
  (a <= r < a + S n)%nat ->
  (fun x => if (x <? r)%nat then x else S x) <$> seq a n
  = filter (fun x => x <> r) (seq a (S n)).
Proof.
  revert a. induction n as [|n IH]; intros a Hr.
  - assert (r = a) as -> by lia. cbn [seq fmap list_fmap].
    now rewrite filter_cons_False by tauto.
  - cbn [seq fmap list_fmap]. destruct (Nat.ltb_spec a r) as [Hlt|Hge].
    + rewrite filter_cons_True by lia. f_equal. apply IH. lia.
    + assert (r = a) as -> by lia. rewrite filter_cons_False by tauto.
      change (S a :: seq (S (S a)) n) with (seq (S a) (S n)).
      rewrite filter_all by (intros x Hx; apply elem_of_seq in Hx; lia).
      cbn [seq]. f_equal. rewrite <- (fmap_S_seq (S a) n).
      apply list_fmap_ext. intros i x Hx.
      apply lookup_seq in Hx as [-> _].
      destruct (Nat.ltb_spec (S a + i) a); [lia | reflexivity].
Qed.

Lemma atRow_same (t : Transaction) : atRow (txRow t) t = t.
Proof. now destruct t. Qed.

(** The list of the rows [l'], read from the grid without the row [r], out
    of the list of the rows [l] read from the grid with it. *)
Lemma mapM_after_delete (r : nat) (f f' : nat -> result Transaction) (l l' : list nat)
    (transactions : list Transaction) :
  (forall x t, f x = Ok t -> txRow t = x) ->
  (forall x', x' ∈ l' ->
     f' x' = match f (if (x' <? r)%nat then x' else S x') with
             | Ok t => Ok (atRow x' t)
             | Throw er => Throw er
             end) ->
  (fun x => if (x <? r)%nat then x else S x) <$> l' = filter (fun x => x <> r) l ->
  mapM f l = Ok transactions ->
  mapM f' l' = Ok (afterDelete r transactions).
Proof.
  intros Hrow. revert l' transactions.
  induction l as [|x l IH]; intros l' transactions Hf' Hl' Hl.
  - injection Hl as <-. destruct l'; [reflexivity | discriminate].
  - cbn [mapM] in Hl. unfold mbind, mret, result_bind, result_ret in Hl.
    destruct (f x) as [t|] eqn:Hfx; [|discriminate].
    destruct (mapM f l) as [rest|] eqn:Hrest; [|discriminate].
    injection Hl as <-. pose proof (Hrow x t Hfx) as Ht. unfold afterDelete.
    destruct (decide (x = r)) as [->|Hne].
    + rewrite filter_cons_False in Hl' by tauto.
      rewrite filter_cons_False by (rewrite Ht; tauto).
      now apply IH.
    + rewrite filter_cons_True in Hl' by exact Hne.
      rewrite filter_cons_True by (rewrite Ht; exact Hne).
      destruct l' as [|x' l']; [discriminate|].
      cbn [fmap list_fmap] in Hl'. injection Hl' as Hx' Hl'.
      cbn [mapM fmap list_fmap]. rewrite (Hf' x') by left. rewrite Hx', Hfx.
      rewrite (IH l' rest); [|intros y Hy; apply Hf'; now right | exact Hl' | reflexivity].
      unfold mbind, mret, result_bind, result_ret.
      f_equal. unfold afterDelete. f_equal. unfold moveUp. rewrite Ht.
      destruct (Nat.ltb_spec x' r) as [Hlt|Hge]; subst x.
      * destruct (Nat.ltb_spec r x') as [Hlt'|_]; [lia|]. rewrite <- Ht. apply atRow_same.
      * destruct (Nat.ltb_spec r (S x')) as [_|Hge']; [reflexivity | lia].
Qed.

Section Deleted.

Variables (E : Engine) (sh : Sheet) (r : nat).
Hypothesis Hr : (3 <= r <= lastRow (cells sh))%nat.
Hypothesis Hlit : literalRows (cells sh) = true.

Local Abbreviation g := (cells sh).
Local Abbreviation g' := (delete (pred r) (cells sh)).
Local Abbreviation below := (fun x : nat => if (x <? r)%nat then x else S x).

Lemma deleted_value (x c : nat) :
  (3 <= x)%nat -> (1 <= c <= 6)%nat -> valueAt g' x c = valueAt g (below x) c.
Proof.
  intros Hx Hc.
  destruct (literal_cell g (below x) c Hlit) as [v Hv];
    [destruct (x <? r)%nat; lia | lia |].
  unfold valueAt. rewrite Hv.
  destruct (Nat.ltb_spec x r) as [Hlt|Hge].
  - now rewrite cellAt_delete_above, Hv by lia.
  - replace x with (S x - 1)%nat at 1 by lia.
    now rewrite cellAt_delete_below, Hv by lia.
Qed.

Lemma deleted_rows :
  below <$> transactionRows g' = filter (fun x => x <> r) (transactionRows g).
Proof.
  rewrite <- (transactionRows_upto g' (pred (lastRow g)))
    by (apply lastRow_delete_inside; lia).
  rewrite (filter_ext_elem _ (fun x => truthy (valueAt g (below x) 1) = true)).
  2:{ intros x Hx. apply elem_of_seq in Hx. now rewrite deleted_value by lia. }
  rewrite <- (stamped_rows_fmap below g).
  replace (pred (lastRow g) - 2)%nat with (lastRow g - 3)%nat by lia.
  rewrite seq_without by lia.
  replace (S (lastRow g - 3)) with (lastRow g - 2)%nat by lia.
  unfold transactionRows. rewrite !list_filter_filter. apply list_filter_iff.
  intros x. tauto.
Qed.

Lemma deleted_transaction (name : string) (x : nat) :
  (3 <= x)%nat ->
  transactionOfRow E name g' x
  = match transactionOfRow E name g (below x) with
    | Ok t => Ok (atRow x t)
    | Throw er => Throw er
    end.
Proof.
  intros Hx. unfold transactionOfRow. rewrite !deleted_value by lia.
  unfold mbind, result_bind. now destruct (toISO E _).
Qed.

Lemma deleted_listed (transactions : list Transaction) :
  listed E sh = Ok transactions ->
  listed E (withCells sh g') = Ok (afterDelete r transactions).
Proof.
  unfold listed. cbn [withCells cells sheetName]. intros Hl.
  apply (mapM_after_delete r (transactionOfRow E (sheetName sh) g) _
           (reverse (transactionRows g))).
  - intros x t. unfold transactionOfRow, mbind, result_bind.
    destruct (toISO E _); [|discriminate]. now intros [= <-].
  - intros x Hx. apply elem_of_reverse, transactionRows_spec in Hx as [Hx _].
    apply deleted_transaction. lia.
  - now rewrite fmap_reverse, deleted_rows, filter_reverse.
  - exact Hl.
Qed.

End Deleted.

(** X14 — the transaction list after a delete.  When the row [r] of a
    month sheet is deleted (a row from 3 to the last row with content, on a
    sheet with values in its transaction rows), the next list is the former
    one without the transaction of row [r], and every transaction that
    stood below it is listed under a row number one less: a row number
    names a place on the sheet, not a transaction. *)
Theorem delete_renumbers_the_list (E : Engine) (e : Params) (ss : Spreadsheet)
    (r h : nat) (sh : Sheet) (transactions : list Transaction) :
  param_action e = Some "delete" ->
  toInteger (parseInt (paramStr (param_row e))) = Some (Z.of_nat r) ->
  (3 <= r <= lastRow (cells sh))%nat ->
  given (param_sheetName e) = true ->
  findSheet ss (paramStr (param_sheetName e)) = Some h ->
  ss !! h = Some sh ->
  literalRows (cells sh) = true ->
  getTransactionHistory E (Some h) ss = (Ok (TransactionList transactions), ss) ->
  exists (msg : string) (ss' : Spreadsheet),
    doGet E e ss = (Ok (Message "success" msg), ss')
    /\ getTransactionHistory E (Some h) ss'
       = (Ok (TransactionList (afterDelete r transactions)), ss').
Proof.
  intros Ha Hrow Hr Hgiven Hf Hsh Hlit Hlist.
  pose proof (lastRow_le_length (cells sh)) as Hlen.
  assert (Hh : (h < length ss)%nat) by (eapply lookup_lt_Some, Hsh).
  rewrite (getTransactionHistory_runs E ss h sh Hsh) in Hlist.
  unfold readResponse in Hlist. cbn [String.eqb Ascii.eqb Bool.eqb] in Hlist.
  unfold mbind, result_bind in Hlist.
  destruct (listed E sh) as [l|] eqn:Hl; [|discriminate].
  injection Hlist as <-.
  eexists _, _. split.
  - rewrite doGet_delete by exact Ha.
    apply (deleteBranch_runs E e ss (Z.of_nat r) h sh); auto with zarith.
  - rewrite Nat2Z.id.
    rewrite (getTransactionHistory_runs E _ h _ (list_lookup_insert_eq _ _ _ Hh)).
    unfold readResponse. cbn [String.eqb Ascii.eqb Bool.eqb].
    now rewrite (deleted_listed E sh r Hr Hlit l Hl).
Qed.

Lemma delete_renumbers_the_list_sample :
  exists t15 t14 t13 ss',
    getTransactionHistory utcEngine (Some 0%nat) [february; march]
      = (Ok (TransactionList [t15; t14; t13]), [february; march])
    /\ doGet utcEngine (deleteRequest "13" "February 2026") [february; march]
       = (Ok (Message "success" "Deleted row 13 from February 2026"), ss')
    /\ getTransactionHistory utcEngine (Some 0%nat) ss'
       = (Ok (TransactionList [atRow 14 t15; atRow 13 t14]), ss')
    /\ txNote t15 = VStr "power" /\ txNote t14 = VStr "train".
Proof.
  assert (Hlist : exists t15 t14 t13,
            getTransactionHistory utcEngine (Some 0%nat) [february; march]
            = (Ok (TransactionList [t15; t14; t13]), [february; march])
            /\ map txRow [t15; t14; t13] = [15; 14; 13]%nat
            /\ txNote t15 = VStr "power" /\ txNote t14 = VStr "train").
  { eexists _, _, _. split; [vm_compute; reflexivity|]. repeat split. }
  destruct Hlist as (t15 & t14 & t13 & Hlist & Hrows & Hnotes).
  destruct (delete_renumbers_the_list utcEngine (deleteRequest "13" "February 2026")
              [february; march] 13%nat 0%nat february [t15; t14; t13]
              eq_refl eq_refl ltac:(vm_compute; lia) eq_refl eq_refl eq_refl eq_refl Hlist)
    as (msg & ss' & Hdel & Hafter).
  exists t15, t14, t13, ss'. split; [exact Hlist|]. split; [|split; [|exact Hnotes]].
  - rewrite Hdel. f_equal. f_equal. f_equal.
    assert (Hmsg : fst (doGet utcEngine (deleteRequest "13" "February 2026")
                          [february; march])
                   = Ok (Message "success" "Deleted row 13 from February 2026"))
      by (vm_compute; reflexivity).
    rewrite Hdel in Hmsg. cbn [fst] in Hmsg. now injection Hmsg.
  - rewrite Hafter. f_equal. f_equal. f_equal.
    injection Hrows as H15 H14 H13.
    unfold afterDelete, moveUp.
    rewrite !filter_cons_True by (rewrite ?H15, ?H14; lia).
    rewrite filter_cons_False by (rewrite H13; tauto).
    cbn [fmap list_fmap]. rewrite H15, H14. reflexivity.
Defined.

(** ** One sheet for each month *)

Lemma ZToString_inj (z z' : Z) : ZToString z = ZToString z' -> z = z'.
Proof.
  unfold ZToString. intros H. apply DecimalZ.to_int_inj.
  assert (Hn : forall x, Z.to_int x <> Decimal.Pos Decimal.Nil
                         /\ Z.to_int x <> Decimal.Neg Decimal.Nil).
  { intros [|q|q]; cbn; split; try discriminate; intros [= Hq];
      now apply DecimalPos.Unsigned.to_uint_nonnil in Hq. }
  pose proof (NilZero.isi (Z.to_int z) (proj1 (Hn z)) (proj2 (Hn z))) as H1.
  pose proof (NilZero.isi (Z.to_int z') (proj1 (Hn z')) (proj2 (Hn z'))) as H2.
  rewrite H in H1. congruence.
Qed.

Lemma month_names_apart (i i' : nat) (a b : string) :
  (i < 12)%nat -> (i' < 12)%nat ->
  nth i monthNames "undefined" +:+ " " +:+ a = nth i' monthNames "undefined" +:+ " " +:+ b ->
  i = i' /\ a = b.
Proof.
  intros Hi Hi'.
  do 12 (destruct i as [|i];
         [do 12 (destruct i' as [|i'];
                 [intros H; vm_compute in H; split; congruence|]); lia|]).
  lia.
Qed.

(** X23 — two dates have the same sheet exactly when they fall into the
    same month of the same year, in local time: the sheet names of
    different months differ. *)
Theorem one_sheet_per_month (E : Engine) (t t' : Z) :
  getMonthSheetName E (Some t) = getMonthSheetName E (Some t')
  <-> getMonth E t = getMonth E t' /\ getFullYear E t = getFullYear E t'.
Proof.
  split.
  - unfold getMonthSheetName. intros [= H].
    pose proof (civil_month_range (LocalTime E t / msPerDay)) as Hm.
    pose proof (civil_month_range (LocalTime E t' / msPerDay)) as Hm'.
    fold (MonthFromTime (LocalTime E t)) in Hm. fold (MonthFromTime (LocalTime E t')) in Hm'.
    assert (Hi : 0 <= getMonth E t <= 11) by (unfold getMonth, MonthFromTime in *; lia).
    assert (Hi' : 0 <= getMonth E t' <= 11) by (unfold getMonth, MonthFromTime in *; lia).
    apply month_names_apart in H as [Hmonth Hyear]; try lia.
    split; [lia | now apply ZToString_inj].
  - intros [Hmonth Hyear]. unfold getMonthSheetName. now rewrite Hmonth, Hyear.
Qed.

(** ** A day the month does not have *)

(** The day after the last day of a month is the first of the next. *)
Lemma next_month (y m k : Z) :
  1 <= m <= 11 ->
  daysFromCivil y m (daysInMonth y m + k) = daysFromCivil y (m + 1) k.
Proof.
  intros Hm. unfold daysFromCivil, daysInMonth, isLeapYear. cbv zeta.
  assert (Hcases : m = 1 \/ m = 2 \/ m = 3 \/ m = 4 \/ m = 5 \/ m = 6 \/ m = 7 \/ m = 8
                   \/ m = 9 \/ m = 10 \/ m = 11) by lia.
  destruct Hcases as [->|[->|[->|[->|[->|[->|[->|[->|[->|[->| ->]]]]]]]]]];
    closed_tests;
    repeat match goal with
    | |- context [?a mod ?b =? 0] => destruct (Z.eqb_spec (a mod b) 0)
    end; cbv beta iota delta [orb andb negb];
    Z.to_euclidean_division_equations; lia.
Qed.

Section PastMonthEnd.

Variables (E : Engine) (s : string) (p : TsParts).
Hypothesis Hmatch : tsMatch s = Some p.
Hypothesis Hpast : dayPastMonthEnd p = true.

Lemma past_ranges :
  100 <= stampYear p <= 9999
  /\ 1 <= fieldValue (tsMonth p) <= 11
  /\ daysInMonth (stampYear p) (fieldValue (tsMonth p)) < fieldValue (tsDay p) <= 31
  /\ 0 <= fieldValue (tsHour p) < 24
  /\ 0 <= fieldValue (tsMinute p) < 60
  /\ 0 <= fieldValue (tsSecond p) < 60.
Proof.
  destruct (tsMatch_fields s p Hmatch) as (Hd & Hm & Hy & Hh & Hmi & Hs).
  apply two_digit_spec in Hd as (Hd & _), Hm as (Hm & _), Hh as (Hh & _),
    Hmi as (Hmi & _), Hs as (Hs & _).
  apply four_digit_spec in Hy as (Hy & _).
  unfold dayPastMonthEnd in Hpast. cbv zeta in Hpast.
  repeat (apply andb_prop in Hpast as [Hpast ?]).
  unfold stampYear in *. cbv zeta in *.
  destruct (Z.leb_spec (fieldValue (tsYear p)) 99); lia.
Qed.

Lemma past_days_in_month :
  28 <= daysInMonth (stampYear p) (fieldValue (tsMonth p)) <= 31.
Proof.
  unfold daysInMonth.
  destruct (_ =? 2); [destruct (isLeapYear _)|destruct (_ || _)]; lia.
Qed.

Lemma past_civil :
  civilFromDays (stampTime p / msPerDay)
  = (stampYear p, fieldValue (tsMonth p) + 1,
     fieldValue (tsDay p) - daysInMonth (stampYear p) (fieldValue (tsMonth p))).
Proof.
  destruct past_ranges as (_ & Hm & Hd & Hh & Hmi & Hs).
  pose proof past_days_in_month as Hdim.
  assert (Hday : stampTime p / msPerDay
                 = daysFromCivil (stampYear p) (fieldValue (tsMonth p))
                                 (fieldValue (tsDay p))).
  { unfold stampTime, MakeDate, MakeTime, msPerDay.
    Z.to_euclidean_division_equations; lia. }
  rewrite Hday.
  replace (fieldValue (tsDay p))
    with (daysInMonth (stampYear p) (fieldValue (tsMonth p))
          + (fieldValue (tsDay p) - daysInMonth (stampYear p) (fieldValue (tsMonth p))))
    at 1 by lia.
  rewrite next_month by exact Hm. apply civil_round_trip; [lia|].
  split; [lia|].
  assert (28 <= daysInMonth (stampYear p) (fieldValue (tsMonth p) + 1)); [|lia].
  unfold daysInMonth. destruct (_ =? 2); [destruct (isLeapYear _)|destruct (_ || _)]; lia.
Qed.

Lemma past_bound : Z.abs (stampTime p) <= 4000000 * msPerDay.
Proof.
  destruct past_ranges as (Hy & Hm & Hd & Hh & Hmi & Hs).
  assert (Hdays : -720000 <= daysFromCivil (stampYear p) (fieldValue (tsMonth p))
                                           (fieldValue (tsDay p)) <= 3000000).
  { pose proof past_days_in_month. unfold daysFromCivil. cbv zeta.
    destruct (fieldValue (tsMonth p) <=? 2); destruct (2 <? fieldValue (tsMonth p)) eqn:H2;
      Z.to_euclidean_division_equations; lia. }
  unfold stampTime, MakeDate, MakeTime. unfold msPerDay in *. lia.
Qed.

Lemma past_date : dateOfParts E p = TimeClip (UTC E (stampTime p)).
Proof.
  destruct (tsMatch_fields s p Hmatch) as (Hd & Hm & Hy & Hh & Hmi & Hs).
  apply two_digit_spec in Hd as (_ & Hd & _), Hm as (_ & _ & Hm & _), Hh as (_ & Hh & _),
    Hmi as (_ & Hmi & _), Hs as (_ & Hs & _).
  apply four_digit_spec in Hy as (Hy0 & Hy & _).
  destruct past_ranges as (_ & Hmr & _).
  unfold dateOfParts, newDate. rewrite Hy, Hm, Hd, Hh, Hmi, Hs. cbn [mbind option_bind].
  replace (0 <=? fieldValue (tsYear p)) with true by (symmetry; apply Z.leb_le; lia).
  cbn [andb]. fold (stampYear p).
  rewrite MakeDay_civil by lia. reflexivity.
Qed.

End PastMonthEnd.



(** ** The transaction list after an update in place *)

Lemma lastRow_nonblank (g : Grid) :
  (0 < lastRow g)%nat ->
  exists row, g !! pred (lastRow g) = Some row /\ rowBlank row = false.
Proof.
  induction g as [|row g IH]; cbn [lastRow]; [lia|].
  destruct (lastRow g) as [|n] eqn:Hn.
  - destruct (rowBlank row) eqn:Hb; [lia|]. intros _. now exists row.
  - intros _. destruct IH as (row' & Hrow' & Hb); [lia|]. now exists row'.
Qed.

Lemma lastRow_overwritten (g : Grid) (r : nat) (ts : string) (xs : list content) :
  (1 <= r <= lastRow g)%nat -> ts <> "" ->
  lastRow (writeRow g r 1 (Lit (VStr ts) :: xs)) = lastRow g.
Proof.
  intros Hr Hts. pose proof (lastRow_le_length g) as Hlen.
  rewrite writeRow_inside by lia. apply lastRow_is.
  - intros i row Hi Hrow. rewrite list_lookup_alter_ne in Hrow by lia.
    eapply blank_below_lastRow; eassumption.
  - right. destruct (lastRow_nonblank g) as (row & Hrow & Hb); [lia|].
    destruct (decide (pred r = pred (lastRow g))) as [Heq|Hne].
    + rewrite <- Heq, list_lookup_alter_eq. rewrite Heq, Hrow. cbn.
      eexists. split; [reflexivity|]. now apply not_blank_with_timestamp.
    + rewrite list_lookup_alter_ne by exact Hne. now exists row.
Qed.

(** The list of the rows [l] when one row reads differently. *)
Lemma mapM_replaced (r : nat) (f f1 : nat -> result Transaction) (new : result Transaction)
    (l : list nat) (transactions : list Transaction) :
  (forall x t, f x = Ok t -> txRow t = x) ->
  (forall x, x ∈ l -> x <> r -> f1 x = f x) ->
  f1 r = new -> r ∈ l ->
  mapM f l = Ok transactions ->
  mapM f1 l = (t ← new; Ok (replaceRow r t transactions)).
Proof.
  intros Hrow. revert transactions.
  assert (Hout : forall l transactions t,
            (forall x, x ∈ l -> x <> r -> f1 x = f x) -> f1 r = Ok t ->
            mapM f l = Ok transactions -> mapM f1 l = Ok (replaceRow r t transactions)).
  { clear l. intros l. induction l as [|x l IH]; intros transactions t Hf1 Hnew Hl.
    - injection Hl as <-. reflexivity.
    - cbn [mapM] in Hl |- *. unfold mbind, mret, result_bind, result_ret in Hl.
      destruct (f x) as [t0|] eqn:Hfx; [|discriminate].
      destruct (mapM f l) as [rest|] eqn:Hrest; [|discriminate].
      injection Hl as <-. pose proof (Hrow x t0 Hfx) as Ht0.
      rewrite (IH rest t); [|intros y Hy; apply Hf1; now right | exact Hnew | reflexivity].
      unfold replaceRow. cbn [fmap list_fmap]. rewrite Ht0.
      destruct (Nat.eqb_spec x r) as [->|Hne].
      + now rewrite Hnew.
      + rewrite (Hf1 x) by (left || exact Hne). now rewrite Hfx. }
  induction l as [|x l IH]; intros transactions Hf1 Hnew Hin Hl; [inversion Hin|].
  destruct new as [t|er]; [now apply Hout|]. cbn [mbind result_bind].
  cbn [mapM] in Hl |- *. unfold mbind, mret, result_bind, result_ret in Hl.
  destruct (f x) as [t0|] eqn:Hfx; [|discriminate].
  destruct (mapM f l) as [rest|] eqn:Hrest; [|discriminate].
  destruct (decide (x = r)) as [->|Hne].
  - now rewrite Hnew.
  - rewrite (Hf1 x) by (left || exact Hne). rewrite Hfx.
    apply elem_of_cons in Hin as [->|Hin]; [contradiction|].
    rewrite (IH rest); [reflexivity | intros y Hy; apply Hf1; now right | exact Hnew
                       | exact Hin | reflexivity].
Qed.

Section Overwritten.

Variables (E : Engine) (e : Params) (ts : string) (sh : Sheet) (r : nat).
Hypothesis Hts : param_timestamp e = Some ts.
Hypothesis Hne : ts <> "".
Hypothesis Hr : (3 <= r <= lastRow (cells sh))%nat.
Hypothesis Hlit : literalRows (cells sh) = true.
Hypothesis Hheld : truthy (valueAt (cells sh) r 1) = true.

Local Abbreviation g := (cells sh).
Local Abbreviation g1 := (writeRow (cells sh) r 1 (map Lit (rowOf e))).

Lemma overwritten_lastRow : lastRow g1 = lastRow g.
Proof.
  unfold rowOf. rewrite Hts. cbn [map paramValue]. apply lastRow_overwritten; [lia | exact Hne].
Qed.

Lemma overwritten_other_value (x c : nat) :
  (3 <= x)%nat -> x <> r -> (1 <= c <= 6)%nat -> valueAt g1 x c = valueAt g x c.
Proof.
  intros Hx Hxr Hc. destruct (literal_cell g x c Hlit) as [v Hv]; [lia | lia |].
  apply (valueAt_of_cell g g1 x c v Hv). apply cellAt_writeRow_elsewhere; lia.
Qed.

Lemma overwritten_new_value (c : nat) :
  (1 <= c <= 6)%nat -> valueAt g1 r c = nth (pred c) (rowOf e) VUndefined.
Proof.
  intros Hc. unfold valueAt.
  rewrite cellAt_writeRow_fields by (cbn [length map rowOf]; lia).
  destruct c as [|[|[|[|[|[|[|c]]]]]]]; try lia; reflexivity.
Qed.

Lemma overwritten_rows : transactionRows g1 = transactionRows g.
Proof.
  unfold transactionRows. rewrite overwritten_lastRow.
  apply filter_ext_elem. intros x Hx. apply elem_of_seq in Hx.
  destruct (decide (x = r)) as [->|Hxr].
  - rewrite overwritten_new_value by lia. unfold rowOf. rewrite Hts, Hheld. cbn.
    destruct ts; [contradiction | tauto].
  - now rewrite overwritten_other_value by lia.
Qed.

Lemma overwritten_listed (transactions : list Transaction) :
  listed E sh = Ok transactions ->
  listed E (withCells sh g1)
  = (iso ← toISO E (VStr ts);
     Ok (replaceRow r (entryTransaction e (sheetName sh) r iso) transactions)).
Proof.
  unfold listed. cbn [withCells cells sheetName]. intros Hl.
  rewrite overwritten_rows.
  rewrite (mapM_replaced r (transactionOfRow E (sheetName sh) g) _
             (iso ← toISO E (VStr ts); Ok (entryTransaction e (sheetName sh) r iso))
             _ transactions).
  - unfold mbind, result_bind. now destruct (toISO E (VStr ts)).
  - intros x t. unfold transactionOfRow, mbind, result_bind.
    destruct (toISO E _); [|discriminate]. now intros [= <-].
  - intros x Hx Hxr. apply elem_of_reverse, transactionRows_spec in Hx as [Hx _].
    unfold transactionOfRow. now rewrite !overwritten_other_value by lia.
  - unfold transactionOfRow. rewrite !overwritten_new_value by lia.
    unfold rowOf. rewrite Hts. cbn [nth pred paramValue ToNumber].
    rewrite !numOrZero_twice, !orElse_text. reflexivity.
  - apply elem_of_reverse, transactionRows_spec. split; [lia | exact Hheld].
  - exact Hl.
Qed.

End Overwritten.

(** X15 — the transaction list after an update in place.  When a row that
    holds a transaction is updated with a timestamp of the month of its
    sheet, the next list has the same rows in the same order; the
    transaction of the updated row carries the amounts, category and note
    of the request, and the others are as before. *)
Theorem updated_entry_is_listed_in_place (E : Engine) (e : Params) (ss : Spreadsheet)
    (ts : string) (r h : nat) (sh : Sheet) (date : Date)
    (transactions : list Transaction) :
  param_action e = Some "update" ->
  param_timestamp e = Some ts ->
  ts <> "" ->
  toInteger (parseInt (paramStr (param_row e))) = Some (Z.of_nat r) ->
  (3 <= r <= lastRow (cells sh))%nat ->
  truthy (valueAt (cells sh) r 1) = true ->
  given (param_sheetName e) = true ->
  findSheet ss (paramStr (param_sheetName e)) = Some h ->
  ss !! h = Some sh ->
  timestampDate E (VStr ts) = Ok date ->
  getMonthSheetName E date = Ok (paramStr (param_sheetName e)) ->
  literalRows (cells sh) = true ->
  getTransactionHistory E (Some h) ss = (Ok (TransactionList transactions), ss) ->
  exists (msg : string) (ss' : Spreadsheet),
    doGet E e ss = (Ok (Message "success" msg), ss')
    /\ getTransactionHistory E (Some h) ss'
       = (iso ← toISO E (VStr ts);
          Ok (TransactionList
                (replaceRow r (entryTransaction e (sheetName sh) r iso) transactions)),
          ss').
Proof.
  intros Ha Hts Hne Hrow Hr Hheld Hgiven Hf Hsh Hdate Hname Hlit Hlist.
  pose proof (lastRow_le_length (cells sh)) as Hlen.
  assert (Hh : (h < length ss)%nat) by (eapply lookup_lt_Some, Hsh).
  rewrite (getTransactionHistory_runs E ss h sh Hsh) in Hlist.
  unfold readResponse in Hlist. cbn [String.eqb Ascii.eqb Bool.eqb] in Hlist.
  unfold mbind, result_bind in Hlist.
  destruct (listed E sh) as [l|] eqn:Hl; [|discriminate].
  injection Hlist as <-.
  eexists _, _. split.
  - rewrite doGet_update by exact Ha. unfold updateBranch.
    rewrite (row_test _ _ Hrow), Hgiven.
    replace (Z.of_nat r <? 3) with false by (symmetry; apply Z.ltb_ge; lia).
    cbn [orb negb].
    unfold mbind at 1. unfold M_bind, bind, getSheetByName. rewrite Hf.
    cbn [isNull]. unfold tryCatch.
    unfold mbind at 1. unfold M_bind, bind, lift. rewrite Hts. cbn [paramValue].
    rewrite Hdate.
    unfold mbind at 1. unfold M_bind, bind, lift. rewrite Hname.
    rewrite String.eqb_refl. cbn [negb]. rewrite Hrow.
    unfold mbind, M_bind, bind.
    rewrite (setValues_row_runs ss h sh _ (rowOf e) Hsh) by reflexivity.
    reflexivity.
  - rewrite Nat2Z.id.
    rewrite (getTransactionHistory_runs E _ h _ (list_lookup_insert_eq _ _ _ Hh)).
    unfold readResponse. cbn [String.eqb Ascii.eqb Bool.eqb].
    rewrite (overwritten_listed E e ts sh r Hts Hne Hr Hlit Hheld l Hl).
    unfold mbind, result_bind. now destruct (toISO E (VStr ts)).
Qed.

Lemma updated_entry_is_listed_in_place_sample :
  let e := entryRequest "update" (Some "14") (Some "February 2026")
             "11/02/2026 18:40:10" "5" "43" "0" "Travel" "night train" in
  exists t15 t14 t13 ss',
    getTransactionHistory utcEngine (Some 0%nat) [february; march]
      = (Ok (TransactionList [t15; t14; t13]), [february; march])
    /\ doGet utcEngine e [february; march] = (Ok (Message "success" "Updated row 14"), ss')
    /\ getTransactionHistory utcEngine (Some 0%nat) ss'
       = (Ok (TransactionList
                [t15; entryTransaction e "February 2026" 14 "2026-02-11T18:40:10.000Z"; t13]),
          ss')
    /\ txNote t14 = VStr "train".
Proof.
  cbv zeta.
  assert (Hlist : exists t15 t14 t13,
            getTransactionHistory utcEngine (Some 0%nat) [february; march]
            = (Ok (TransactionList [t15; t14; t13]), [february; march])
            /\ map txRow [t15; t14; t13] = [15; 14; 13]%nat
            /\ txNote t14 = VStr "train").
  { eexists _, _, _. split; [vm_compute; reflexivity|]. repeat split. }
  destruct Hlist as (t15 & t14 & t13 & Hlist & Hrows & Hnote).
  destruct (updated_entry_is_listed_in_place utcEngine
              (entryRequest "update" (Some "14") (Some "February 2026")
                 "11/02/2026 18:40:10" "5" "43" "0" "Travel" "night train")
              [february; march] "11/02/2026 18:40:10" 14%nat 0%nat february
              (Some 1770835210000) [t15; t14; t13]
              eq_refl eq_refl ltac:(discriminate) eq_refl ltac:(vm_compute; lia)
              eq_refl eq_refl eq_refl eq_refl eq_refl eq_refl eq_refl Hlist)
    as (msg & ss' & Hupd & Hafter).
  exists t15, t14, t13, ss'. split; [exact Hlist|]. split; [|split; [|exact Hnote]].
  - rewrite Hupd. f_equal. f_equal. f_equal.
    assert (Hmsg : fst (doGet utcEngine
                          (entryRequest "update" (Some "14") (Some "February 2026")
                             "11/02/2026 18:40:10" "5" "43" "0" "Travel" "night train")
                          [february; march])
                   = Ok (Message "success" "Updated row 14"))
      by (vm_compute; reflexivity).
    rewrite Hupd in Hmsg. cbn [fst] in Hmsg. now injection Hmsg.
  - rewrite Hafter.
    replace (toISO utcEngine (VStr "11/02/2026 18:40:10"))
      with (@Ok string "2026-02-11T18:40:10.000Z") by reflexivity.
    cbn [mbind result_bind]. f_equal. f_equal. f_equal.
    injection Hrows as H15 H14 H13.
    unfold replaceRow. cbn [fmap list_fmap]. rewrite H15, H14, H13. reflexivity.
Defined.

(** ** The figures of a category *)

(** X25 — the figures of a category on a sheet with the summary block of
    the layout.  For a row of the block that holds a label, the SUMIF
    formula and the share formula (and with the EUR sum in C2), and whose
    label stands in no row further down the block, the stats carry for that
    label the sum of the EUR amounts of the transactions of that category
    as amount, and as percent [parsePct] of that sum over the EUR total (of
    0 when the total is 0).  Only the label [__proto__] is without figures:
    the stats have no entry under it. *)
Theorem category_figures (E : Engine) (g : Grid) (j : nat) (label : string) :
  (3 <= j <= 11)%nat ->
  label <> "" ->
  cellAt g j (column "H") = Lit (VStr label) ->
  cellAt g j (column "I") = Formula (FSumIf j) ->
  cellAt g j (column "J") = Formula (FShare j) ->
  cellAt g 2 (column "C") = Formula (FSum (column "C")) ->
  (forall j' : nat, (j < j' <= 11)%nat ->
     exists other, cellAt g j' (column "H") = Lit (VStr other) /\ other <> label) ->
  if String.eqb label "__proto__"
  then forall v : AmountPercent, (label, v) ∉ fst (summaryOf E g)
  else
    (label,
     {| amount := numOrZero (categoryTotal g label);
        percent := parsePct (if eqNum (totalEUR g) zero then VNum zero
                             else VNum (div (categoryTotal g label) (totalEUR g))) |})
    ∈ fst (summaryOf E g).
Proof.
  intros Hj Hlabel HH HI HJ HC2 Hbelow. unfold summaryOf. cbn [fst].
  destruct (statsOf_rows E (valuesIn g (A1s "H" 3 "H" 11)) (valuesIn g (A1s "I" 3 "I" 11))
              (valuesIn g (A1s "J" 3 "J" 11)) (length (valuesIn g (A1s "H" 3 "H" 11))))
    as (_ & Hentries & _).
  cbv zeta in Hentries. fold (statsOf E) in Hentries.
  destruct (String.eqb_spec label "__proto__") as [Hproto|Hproto].
  { intros v Hin. apply Hentries in Hin as [Hp _]. contradiction. }
  apply Hentries. split; [exact Hproto|]. exists (j - 3)%nat.
  rewrite length_valuesIn. cbn [A1s numRows].
  assert (Hat : forall c : ascii, forall i : nat, (i < 9)%nat ->
            at2 (valuesIn g (A1s c 3 c 11)) i 0 = valueAt g (3 + i) (column c)).
  { intros c i Hi. rewrite at2_valuesIn; cbn [A1s numRows numCols rRow rCol].
    - now rewrite Nat.add_0_r.
    - lia.
    - lia. }
  split; [lia|]. split; [|split].
  - unfold labelAt. rewrite Hat by lia.
    replace (3 + (j - 3))%nat with j by lia.
    unfold valueAt. rewrite HH. cbn [truthy ToString].
    destruct (String.eqb_spec label ""); [contradiction | reflexivity].
  - unfold figuresAt. rewrite !Hat by lia.
    replace (3 + (j - 3))%nat with j by lia.
    unfold valueAt. rewrite HI, HJ. cbn [evalFormula].
    unfold operand. rewrite HC2, HI. unfold SUM, SUMIF. rewrite HH.
    fold (totalEUR g). fold (categoryTotal g label). cbn [operandNum ToNumber].
    now destruct (eqNum (totalEUR g) zero).
  - intros j' Hj'. unfold labelAt. rewrite Hat by lia.
    destruct (Hbelow (3 + j')%nat ltac:(lia)) as (other & Hother & Hdiff).
    unfold valueAt. rewrite Hother. cbn [truthy ToString].
    destruct (negb _); congruence.
Qed.

Lemma category_figures_sample :
  let edited := <[10%nat := summaryRow "__proto__" 11]> (monthLayout (ofZ 1600)) in
  ("Travel", {| amount := ofZ 42; percent := ofZ 47 |})
  ∈ fst (summaryOf utcEngine (cells february))
  /\ cellAt edited 11 (column "H") = Lit (VStr "__proto__")
  /\ forall v : AmountPercent, ("__proto__", v) ∉ fst (summaryOf utcEngine edited).
Proof.
  cbv zeta. split; [|split; [reflexivity|]].
  - assert (Hin := category_figures utcEngine (cells february) 4 "Travel").
    replace (numOrZero (categoryTotal (cells february) "Travel")) with (ofZ 42) in Hin
      by (vm_compute; reflexivity).
    replace (parsePct _) with (ofZ 47) in Hin by (vm_compute; reflexivity).
    change (String.eqb "Travel" "__proto__") with false in Hin.
    apply Hin; try reflexivity; try (vm_compute; lia); try discriminate.
    intros j' Hj'.
    assert (Hcases : (j' = 5 \/ j' = 6 \/ j' = 7 \/ j' = 8 \/ j' = 9 \/ j' = 10
                      \/ j' = 11)%nat) by lia.
    destruct Hcases as [->|[->|[->|[->|[->|[->| ->]]]]]];
      eexists; (split; [reflexivity | discriminate]).
  - apply (category_figures utcEngine
             (<[10%nat := summaryRow "__proto__" 11]> (monthLayout (ofZ 1600)))
             11 "__proto__");
      try reflexivity; try discriminate; [lia|].
    intros j' Hj'. lia.
Defined.

(** ** Creating a sheet never completes *)

(** X26 — [createMonthSheet] never returns a sheet.  Under a name in use
    the insertion is refused and nothing changes; under a new name the
    empty sheet is inserted and the header write, ten values into the
    eleven cells A1:K1, is refused.  So [getOrCreateMonthSheet] returns a
    sheet only when the month has one already, and then changes
    nothing. *)
Theorem createMonthSheet_never_returns (E : Engine) (ss : Spreadsheet) :
  (forall n : string,
     exists er,
       createMonthSheet n ss
       = (Throw er, match findSheet ss n with
                    | Some _ => ss
                    | None => ss ++ [emptySheet n]
                    end))
  /\ (forall (date : Date) (sheet : SheetRef) (ss' : Spreadsheet),
        getOrCreateMonthSheet E date ss = (Ok sheet, ss') ->
        ss' = ss
        /\ exists (h : nat) (name : string),
             sheet = Some h /\ getMonthSheetName E date = Ok name
             /\ findSheet ss name = Some h).
Proof.
  split.
  - intros n. destruct (findSheet ss n) as [h|] eqn:Hf.
    + eexists. unfold createMonthSheet, mbind, M_bind, bind, insertSheet.
      rewrite Hf. reflexivity.
    + eexists. apply createMonthSheet_throws, Hf.
  - intros date sheet ss'.
    destruct (getMonthSheetName E date) as [name|er] eqn:Hname.
    + destruct (findSheet ss name) as [h|] eqn:Hf.
      * rewrite (getOrCreate_existing E date name h ss Hname Hf). intros [= <- <-].
        split; [reflexivity|]. now exists h, name.
      * rewrite (getOrCreate_missing E date name ss Hname Hf). discriminate.
    + unfold getOrCreateMonthSheet, mbind, M_bind, bind, lift. rewrite Hname.
      discriminate.
Qed.

(** ** Reads of a month that has a sheet *)

Lemma mapM_defined {A B} (f : A -> result B) (l : list A) :
  (forall x, exists y, f x = Ok y) -> exists k, mapM f l = Ok k.
Proof.
  intros Hf. induction l as [|x l [k IH]]; [now exists []|].
  destruct (Hf x) as [y Hy]. exists (y :: k). cbn [mapM]. now rewrite Hy, IH.
Qed.

(** The date of the six fields of a match, whatever numbers they write. *)
Lemma dateOfParts_fields (E : Engine) (s : string) (p : TsParts) :
  tsMatch s = Some p ->
  dateOfParts E p
  = TimeClip (UTC E (MakeDate (MakeDay (stampYear p) (fieldValue (tsMonth p) - 1)
                                       (fieldValue (tsDay p)))
                              (MakeTime (fieldValue (tsHour p)) (fieldValue (tsMinute p))
                                        (fieldValue (tsSecond p)) 0))).
Proof.
  intros Hmatch.
  destruct (tsMatch_fields s p Hmatch) as (Hd & Hm & Hy & Hh & Hmi & Hs).
  apply two_digit_spec in Hd as (_ & Hd & _), Hm as (_ & _ & Hm & _), Hh as (_ & Hh & _),
    Hmi as (_ & Hmi & _), Hs as (_ & Hs & _).
  apply four_digit_spec in Hy as (Hy0 & Hy & _).
  unfold dateOfParts, newDate. rewrite Hy, Hm, Hd, Hh, Hmi, Hs. cbn [mbind option_bind].
  replace (0 <=? fieldValue (tsYear p)) with true by (symmetry; apply Z.leb_le; lia).
  reflexivity.
Qed.

(** It is a valid date when local time is an offset of less than a day. *)
Lemma dateOfParts_defined (E : Engine) (s : string) (p : TsParts) :
  (forall t, Z.abs (UTC E t - t) <= msPerDay) ->
  tsMatch s = Some p ->
  exists t, dateOfParts E p = Some t.
Proof.
  intros Hoffset Hmatch. rewrite (dateOfParts_fields E s p Hmatch).
  destruct (tsMatch_fields s p Hmatch) as (Hd & Hm & Hy & Hh & Hmi & Hs).
  apply two_digit_spec in Hd as (Hd & _), Hm as (Hm & _), Hh as (Hh & _),
    Hmi as (Hmi & _), Hs as (Hs & _).
  apply four_digit_spec in Hy as (Hy & _).
  set (local := MakeDate _ _).
  assert (Hlocal : Z.abs local <= 4000000 * msPerDay).
  { unfold local, MakeDate, MakeDay, MakeTime, daysFromCivil, stampYear, msPerDay.
    cbv zeta.
    destruct (fieldValue (tsYear p) <=? 99);
      destruct ((fieldValue (tsMonth p) - 1) mod 12 + 1 <=? 2);
      destruct (2 <? (fieldValue (tsMonth p) - 1) mod 12 + 1);
      Z.to_euclidean_division_equations; lia. }
  exists (UTC E local). unfold TimeClip.
  specialize (Hoffset local). unfold msPerDay in *.
  now replace (Z.abs (UTC E local) <=? 8640000000000000) with true
    by (symmetry; apply Z.leb_le; lia).
Qed.

Lemma toISO_defined (E : Engine) (v : value) :
  (forall t, Z.abs (UTC E t - t) <= msPerDay) ->
  exists iso, toISO E v = Ok iso.
Proof.
  intros Hoffset.
  assert (Htext : forall str,
            exists iso,
              match tsMatch str with
              | Some parts => DateToISOString (dateOfParts E parts)
              | None => match Date_parse E str with
                        | Some t => Ok (toISOString t)
                        | None => Ok str
                        end
              end = Ok iso).
  { intros str. destruct (tsMatch str) as [p|] eqn:Hm.
    - destruct (dateOfParts_defined E str p Hoffset Hm) as [t ->]. now eexists.
    - destruct (Date_parse E str); now eexists. }
  destruct v; cbn [toISO]; try apply Htext. now eexists.
Qed.

(** X27 — a read of a month that has a sheet always answers.  With a time
    zone whose local time is an offset of less than a day, every read
    request (totals, transaction list, stats, the batched read) for a
    month with a sheet gets a response with status "success", whatever the
    cells of the sheet hold, and writes nothing. *)
Theorem reads_of_a_month_always_answer (E : Engine) (e : Params) (ss : Spreadsheet)
    (h : nat) :
  (forall t, Z.abs (UTC E t - t) <= msPerDay) ->
  isRead e = true ->
  findSheet ss (requestedSheet E e) = Some h ->
  exists r : Response, doGet E e ss = (Ok r, ss) /\ status r = "success".
Proof.
  intros Hoffset Hr Hf. destruct (findSheet_Some ss _ h Hf) as (sh & Hsh & _).
  rewrite (read_of_month E e ss h sh Hr Hf Hsh).
  destruct (mapM_defined (transactionOfRow E (sheetName sh) (cells sh))
              (reverse (transactionRows (cells sh)))) as [l Hl].
  { intros x. unfold transactionOfRow.
    destruct (toISO_defined E (valueAt (cells sh) x 1) Hoffset) as [iso ->].
    now eexists. }
  unfold readResponse, listed. rewrite Hl. cbn [mbind result_bind].
  repeat match goal with |- context [if ?b then _ else _] => destruct b end;
    eexists; split; reflexivity.
Qed.

Lemma reads_of_a_month_always_answer_sample :
  let odd := {| sheetName := "March 2026";
                cells := monthLayout zero
                         ++ [[Lit (VStr "99/99/9999 99:99:99"); Lit (VStr "a lot")];
                             [Lit (VNum (ofZ 7)); Formula FRemaining]] |} in
  exists r,
    doGet utcEngine (readRequest (Some "getAllData") "2026" "3") [february; odd]
    = (Ok r, [february; odd])
    /\ status r = "success".
Proof.
  cbv zeta.
  eapply (reads_of_a_month_always_answer utcEngine
            (readRequest (Some "getAllData") "2026" "3") _ 1%nat);
    [intros t; unfold utcEngine, msPerDay; cbn; lia | reflexivity | reflexivity].
Defined.

(** ** The header row and the totals row *)

Lemma totalsRow_length (g : Grid) : hasTotalsRow g = true -> (2 <= length g)%nat.
Proof.
  unfold hasTotalsRow. destruct (g !! 1%nat) as [row|] eqn:Hrow; [|discriminate].
  intros _. apply lookup_lt_Some in Hrow. lia.
Qed.

Lemma totalsRow_lastRow (g : Grid) : hasTotalsRow g = true -> (2 <= lastRow g)%nat.
Proof.
  unfold hasTotalsRow. destruct (g !! 1%nat) as [row|] eqn:Hrow; [|discriminate].
  change (default [] (Some row)) with row. intros Hnb.
  destruct (Nat.lt_ge_cases (lastRow g) 2) as [Hlt|]; [|assumption].
  rewrite (blank_below_lastRow g 1 row) in Hnb by (lia || exact Hrow). discriminate.
Qed.

Lemma totalsRow_of_rows (g g' : Grid) :
  take 2 g' = take 2 g -> hasTotalsRow g' = hasTotalsRow g.
Proof.
  intros Hrows. unfold hasTotalsRow.
  rewrite <- (lookup_take_lt g' 2 1), <- (lookup_take_lt g 2 1) by lia.
  now rewrite Hrows.
Qed.

Lemma rows_writeRow (g : Grid) (r c : nat) (xs : list content) :
  (2 <= length g)%nat -> (3 <= r)%nat -> take 2 (writeRow g r c xs) = take 2 g.
Proof.
  intros Hlen Hr. unfold writeRow.
  rewrite take_alter_ge by lia. now rewrite take_app_le by lia.
Qed.

Lemma rows_writeRows (g : Grid) (r c : nat) (xss : list (list content)) :
  (2 <= length g)%nat -> (3 <= r)%nat -> take 2 (writeRows g r c xss) = take 2 g.
Proof.
  revert g r. induction xss as [|xs xss IH]; intros g r Hlen Hr; [reflexivity|].
  cbn [writeRows]. rewrite IH.
  - now apply rows_writeRow.
  - rewrite length_writeRow. lia.
  - lia.
Qed.

Lemma rows_delete (g : Grid) (k : nat) : (2 <= k)%nat -> take 2 (delete k g) = take 2 g.
Proof.
  intros Hk. apply list_eq. intros i.
  destruct (Nat.lt_ge_cases i 2) as [Hi|Hi].
  - rewrite !lookup_take_lt by exact Hi. apply list_lookup_delete_lt. lia.
  - now rewrite !lookup_take_ge by exact Hi.
Qed.

(** The row a request names, once past the test [!row || row < 3]. *)
Lemma row_past_test (x : number) (b : bool) (r : Z) :
  falsyNum x || lt x (ofZ 3) || b = false -> toInteger x = Some r -> 3 <= r.
Proof.
  intros Htest Hr. apply orb_false_elim in Htest as [Htest _].
  rewrite (row_test x r Hr) in Htest. now apply Z.ltb_ge.
Qed.

(** *** What keeps the reserved rows *)

Lemma reservedKept_refl (ss : Spreadsheet) : reservedKept ss ss.
Proof. intros h sh Hsh _. now exists sh. Qed.

Lemma reservedKept_trans (ss1 ss2 ss3 : Spreadsheet) :
  reservedKept ss1 ss2 -> reservedKept ss2 ss3 -> reservedKept ss1 ss3.
Proof.
  intros H12 H23 h sh Hsh Htot.
  destruct (H12 h sh Hsh Htot) as (sh2 & Hsh2 & Hn2 & Hr2).
  destruct (H23 h sh2 Hsh2) as (sh3 & Hsh3 & Hn3 & Hr3).
  - now rewrite (totalsRow_of_rows _ _ Hr2).
  - exists sh3. split; [exact Hsh3|]. split; congruence.
Qed.

Lemma keeps_ret {A} (a : A) : keeps (ret a).
Proof. intros ss. apply reservedKept_refl. Qed.

Lemma keeps_throw {A} (er : exn) : keeps (@throw A er).
Proof. intros ss. apply reservedKept_refl. Qed.

Lemma keeps_lift {A} (r : result A) : keeps (lift r).
Proof. intros ss. apply reservedKept_refl. Qed.

Lemma keeps_bind {A B} (m : M A) (k : A -> M B) :
  keeps m -> (forall a, keeps (k a)) -> keeps (bind m k).
Proof.
  intros Hm Hk ss. unfold bind. specialize (Hm ss).
  destruct (m ss) as [[a|er] ss1]; cbn [snd] in *; [|exact Hm].
  eapply reservedKept_trans; [exact Hm | apply Hk].
Qed.

Lemma keeps_tryCatch {A} (body : M A) (handler : exn -> M A) :
  keeps body -> (forall er, keeps (handler er)) -> keeps (tryCatch body handler).
Proof.
  intros Hb Hh ss. unfold tryCatch. specialize (Hb ss).
  destruct (body ss) as [[a|er] ss1]; cbn [snd] in *; [exact Hb|].
  eapply reservedKept_trans; [exact Hb | apply Hh].
Qed.

Lemma keeps_reading {A} (method : string) (sheet : SheetRef) (f : Sheet -> A) :
  keeps (reading method sheet f).
Proof.
  intros ss. unfold reading. destruct sheet as [h|]; [|apply reservedKept_refl].
  destruct (ss !! h); apply reservedKept_refl.
Qed.

Lemma keeps_getSheetByName (n : string) : keeps (getSheetByName n).
Proof. intros ss. apply reservedKept_refl. Qed.

(** A method that changes no grid with a totals row above row 3. *)
Lemma keeps_writing (method : string) (sheet : SheetRef) (f : Grid -> result Grid) :
  (forall g g', hasTotalsRow g = true -> f g = Ok g' -> take 2 g' = take 2 g) ->
  keeps (writing method sheet f).
Proof.
  intros Hf ss. unfold writing. destruct sheet as [h0|]; [|apply reservedKept_refl].
  destruct (ss !! h0) as [sh0|] eqn:Hsh0; [|apply reservedKept_refl].
  destruct (f (cells sh0)) as [g'|er] eqn:Hg; [|apply reservedKept_refl].
  cbn [snd]. intros h sh Hsh Htot. destruct (decide (h = h0)) as [->|Hne].
  - assert (sh0 = sh) as -> by congruence.
    eexists. split; [apply list_lookup_insert_eq; eapply lookup_lt_Some, Hsh|].
    split; [reflexivity|]. cbn [cells]. now apply Hf.
  - exists sh. split; [|split; reflexivity].
    rewrite list_lookup_insert_ne by congruence. exact Hsh.
Qed.

Lemma keeps_appendRow (sheet : SheetRef) (vs : list value) : keeps (appendRow sheet vs).
Proof.
  unfold appendRow. apply keeps_writing. intros g g' Htot [= <-].
  apply rows_writeRow; [now apply totalsRow_length|].
  pose proof (totalsRow_lastRow g Htot). lia.
Qed.

Lemma keeps_setValues (sheet : SheetRef) (rg : Range) (vss : list (list value)) :
  (3 <= rRow rg)%nat -> keeps (setValues sheet rg vss).
Proof.
  intros Hrow. unfold setValues, setContents. apply keeps_writing. intros g g' Htot.
  destruct (negb _); [discriminate|].
  destruct (list_find _ _) as [[i xs]|]; [discriminate|]. intros [= <-].
  apply rows_writeRows; [now apply totalsRow_length | exact Hrow].
Qed.

Lemma keeps_setValue (sheet : SheetRef) (rg : Range) (v : value) :
  (3 <= rRow rg)%nat -> keeps (setValue sheet rg v).
Proof.
  intros Hrow. unfold setValue. apply keeps_writing. intros g g' Htot [= <-].
  apply rows_writeRows; [now apply totalsRow_length | exact Hrow].
Qed.

Lemma keeps_deleteRow (sheet : SheetRef) (position : number) :
  (forall r : Z, toInteger position = Some r -> 3 <= r) ->
  keeps (deleteRow sheet position).
Proof.
  intros Hpos. unfold deleteRow. apply keeps_writing. intros g g' _.
  destruct (toInteger position) as [r|]; [|discriminate].
  specialize (Hpos r eq_refl).
  unfold deleteRowAt. destruct (_ && _); [|discriminate]. intros [= <-].
  apply rows_delete. lia.
Qed.

(** A new sheet takes no place of an old one; [createMonthSheet] gets no
    further than the insertion. *)
Lemma keeps_createMonthSheet (n : string) : keeps (createMonthSheet n).
Proof.
  intros ss. destruct (findSheet ss n) as [h0|] eqn:Hf.
  - unfold createMonthSheet. unfold mbind at 1. unfold M_bind, bind, insertSheet.
    rewrite Hf. apply reservedKept_refl.
  - rewrite (createMonthSheet_throws n ss Hf). cbn [snd]. intros h sh Hsh _.
    exists sh. split; [|split; reflexivity].
    rewrite lookup_app_l by (eapply lookup_lt_Some, Hsh). exact Hsh.
Qed.

Lemma keeps_getOrCreateMonthSheet (E : Engine) (date : Date) :
  keeps (getOrCreateMonthSheet E date).
Proof.
  unfold getOrCreateMonthSheet, mbind, M_bind.
  apply keeps_bind; [apply keeps_lift|]. intros name.
  apply keeps_bind; [apply keeps_getSheetByName|]. intros sheet.
  destruct (isNull sheet); [apply keeps_createMonthSheet | apply keeps_ret].
Qed.

Ltac keeps_steps :=
  repeat first
    [ apply keeps_ret | apply keeps_throw | apply keeps_lift | apply keeps_reading
    | apply keeps_getSheetByName | apply keeps_getOrCreateMonthSheet
    | apply keeps_appendRow
    | apply keeps_bind; [|intros]
    | apply keeps_tryCatch; [|intros]
    | match goal with
      | |- keeps (if ?b then _ else _) => destruct b eqn:?
      | |- keeps (let '(_, _) := ?x in _) => destruct x
      end ].

Ltac script_calls :=
  unfold ok, err, formatting, getName, getValue, getValues, getDataRangeValues,
    mbind, mret, M_bind, M_ret.

Lemma keeps_doPost (E : Engine) (body : Body) : keeps (doPost E body).
Proof. unfold doPost. script_calls. keeps_steps. Qed.

Lemma keeps_reads (E : Engine) (sheet : SheetRef) :
  keeps (getAllData E sheet) /\ keeps (getMonthlyTotals sheet)
  /\ keeps (getTransactionHistory E sheet) /\ keeps (getStatsData E sheet).
Proof.
  unfold getAllData, getMonthlyTotals, getTransactionHistory, getStatsData,
    readTransactions, readStats.
  script_calls. repeat split; keeps_steps.
Qed.

Lemma keeps_deleteBranch (E : Engine) (e : Params) : keeps (deleteBranch E e).
Proof.
  unfold deleteBranch. cbv zeta. script_calls.
  destruct (falsyNum _ || lt _ _ || negb _) eqn:Htest; keeps_steps.
  apply keeps_deleteRow. intros r. apply (row_past_test _ _ r Htest).
Qed.

Lemma keeps_updateBranch (E : Engine) (e : Params) : keeps (updateBranch E e).
Proof.
  unfold updateBranch. cbv zeta. script_calls.
  destruct (falsyNum _ || lt _ _ || negb _) eqn:Htest; keeps_steps.
  - apply keeps_deleteRow. intros r. apply (row_past_test _ _ r Htest).
  - destruct (toInteger (parseInt (paramStr (param_row e)))) as [r|] eqn:Hr;
      keeps_steps.
    apply keeps_setValues. cbn [rRow].
    pose proof (row_past_test _ _ r Htest Hr). lia.
Qed.

Lemma keeps_addEntryBranch (E : Engine) (e : Params) : keeps (addEntryBranch E e).
Proof. unfold addEntryBranch. script_calls. keeps_steps. Qed.

Lemma keeps_updateBudgetBranch (E : Engine) (e : Params) (year month : number)
    (sheet : SheetRef) :
  keeps (updateBudgetBranch E e year month sheet).
Proof.
  unfold updateBudgetBranch. cbv zeta. script_calls.
  keeps_steps; apply keeps_setValue; cbn; lia.
Qed.

Lemma keeps_doGet (E : Engine) (e : Params) : keeps (doGet E e).
Proof.
  unfold doGet. cbv zeta. script_calls.
  apply keeps_bind; [apply keeps_getSheetByName|]. intros sheet.
  destruct (keeps_reads E sheet) as (Hall & Htotals & Hlist & Hstats).
  repeat match goal with
         | |- keeps (if ?b then _ else _) => destruct b
         end;
    try assumption.
  - apply keeps_ret.
  - apply keeps_deleteBranch.
  - apply keeps_updateBranch.
  - apply keeps_addEntryBranch.
  - apply keeps_updateBudgetBranch.
Qed.

(** X28 — the header row and the totals row of a month sheet.  Whatever
    the request, GET or POST, and whether it succeeds, answers with an
    error or throws: a sheet whose row 2 has content is afterwards where it
    was, under its name, and its rows 1 and 2 are cell by cell what they
    were.  Appended rows come below them, an update and a delete reach no
    row above row 3, and a new sheet takes the place of none. *)
Theorem reserved_rows_are_kept (E : Engine) (ss : Spreadsheet) (h : nat) (sh : Sheet) :
  ss !! h = Some sh ->
  hasTotalsRow (cells sh) = true ->
  (forall e : Params,
     exists sh' : Sheet,
       snd (doGet E e ss) !! h = Some sh' /\ sheetName sh' = sheetName sh
       /\ (forall c : nat, cellAt (cells sh') 1 c = cellAt (cells sh) 1 c
                           /\ cellAt (cells sh') 2 c = cellAt (cells sh) 2 c)
       /\ (2 <= lastRow (cells sh'))%nat)
  /\ (forall body : Body,
     exists sh' : Sheet,
       snd (doPost E body ss) !! h = Some sh' /\ sheetName sh' = sheetName sh
       /\ (forall c : nat, cellAt (cells sh') 1 c = cellAt (cells sh) 1 c
                           /\ cellAt (cells sh') 2 c = cellAt (cells sh) 2 c)
       /\ (2 <= lastRow (cells sh'))%nat).
Proof.
  intros Hsh Htot.
  assert (Hkept : forall ss', reservedKept ss ss' ->
            exists sh' : Sheet,
              ss' !! h = Some sh' /\ sheetName sh' = sheetName sh
              /\ (forall c : nat, cellAt (cells sh') 1 c = cellAt (cells sh) 1 c
                                  /\ cellAt (cells sh') 2 c = cellAt (cells sh) 2 c)
              /\ (2 <= lastRow (cells sh'))%nat).
  { intros ss' Hss'. destruct (Hss' h sh Hsh Htot) as (sh' & Hsh' & Hname & Hrows).
    exists sh'. split; [exact Hsh'|]. split; [exact Hname|]. split.
    - intros c. unfold cellAt. cbn [pred].
      rewrite <- (lookup_take_lt (cells sh') 2 0), <- (lookup_take_lt (cells sh') 2 1),
              <- (lookup_take_lt (cells sh) 2 0), <- (lookup_take_lt (cells sh) 2 1) by lia.
      now rewrite Hrows.
    - apply totalsRow_lastRow. now rewrite (totalsRow_of_rows _ _ Hrows). }
  split; [intros e; apply Hkept, keeps_doGet | intros body; apply Hkept, keeps_doPost].
Qed.

Lemma reserved_rows_are_kept_sample :
  let e := deleteRequest "3" "February 2026" in
  hasTotalsRow (cells february) = true
  /\ fst (doGet utcEngine e [february; march])
     = Ok (Message "success" "Deleted row 3 from February 2026")
  /\ exists sh' : Sheet,
       snd (doGet utcEngine e [february; march]) !! 0%nat = Some sh'
       /\ cellAt (cells sh') 1 1 = Lit (VStr "Timestamp")
       /\ cellAt (cells sh') 2 3 = Formula (FSum (column "C")).
Proof.
  cbv zeta. split; [reflexivity|]. split; [reflexivity|].
  destruct (reserved_rows_are_kept utcEngine [february; march] 0%nat february
              eq_refl eq_refl) as [Hget _].
  destruct (Hget (deleteRequest "3" "February 2026")) as (sh' & Hsh' & _ & Hrows & _).
  exists sh'. split; [exact Hsh'|]. split.
  - now rewrite (proj1 (Hrows 1%nat)).
  - now rewrite (proj2 (Hrows 3%nat)).
Defined.
